(** * juni-farm markers: a shallow embedding of the marker computation
      and caching code, with the properties stated about it.

    Sources embedded here:
    - [juni_farm/markers/bctpy/bctpy_spheres_estimator.py]
      (module [BCTPYSpheresEstimator]),
    - [juni_farm/markers/bctpy/bctpy_spheres.py] (module [BCTPYSpheres]),
    - [juni_farm/markers/time_varying/instant_phase_connectivity_base.py]
      (module [InstantPhaseConnectivityBase]).

    Python exceptions are values of [exn]; a call that may raise returns a
    [res].  Code that reads or writes object attributes, the cache or the
    logger threads an explicit state. *)

From Stdlib Require Import List String Ascii ZArith QArith Reals Bool Lia Lra.
From Stdlib Require Import DecimalString Permutation.
From Stdlib Require Floats.
Import ListNotations.
Open Scope string_scope.

(** ** Exceptions and results *)

Inductive exn : Type :=
| TypeError (msg : string)
| KeyError (key : string)
| ValueError (msg : string)
| IndexError (msg : string)
| ZeroDivisionError (msg : string)
| ExternalError (msg : string).

Inductive res (A : Type) : Type :=
| Ok (a : A)
| Raise (e : exn).
Arguments Ok {A} a.
Arguments Raise {A} e.

Definition res_bind {A B} (m : res A) (k : A -> res B) : res B :=
  match m with
  | Ok a => k a
  | Raise e => Raise e
  end.

Declare Scope res_scope.
Delimit Scope res_scope with res.
Notation "x <- m ;; k" := (res_bind m (fun x => k))
  (at level 100, m at next level, right associativity) : res_scope.

(** State and exception: a raise keeps the state reached so far (attribute
    writes and log lines that happened before the raise are not undone). *)
Definition M (S A : Type) : Type := S -> res A * S.

Definition st_ret {S A} (a : A) : M S A := fun s => (Ok a, s).

Definition st_bind {S A B} (m : M S A) (k : A -> M S B) : M S B :=
  fun s =>
    match m s with
    | (Ok a, s') => k a s'
    | (Raise e, s') => (Raise e, s')
    end.

Definition st_lift {S A} (r : res A) : M S A := fun s => (r, s).

Declare Scope st_scope.
Delimit Scope st_scope with st.
Notation "x <- m ;; k" := (st_bind m (fun x => k))
  (at level 100, m at next level, right associativity) : st_scope.
Notation "m ;;; k" := (st_bind m (fun _ => k))
  (at level 100, right associativity) : st_scope.

(** ** Lists used as Python dicts with string keys *)

Fixpoint dict_get {V} (d : list (string * V)) (k : string) : option V :=
  match d with
  | [] => None
  | (k', v) :: d' => if String.eqb k' k then Some v else dict_get d' k
  end.

(** [d[k]]: raises [KeyError] on a missing key. *)
Definition getitem {V} (d : list (string * V)) (k : string) : res V :=
  match dict_get d k with
  | Some v => Ok v
  | None => Raise (KeyError k)
  end.

Definition dict_keys {V} (d : list (string * V)) : list string := map fst d.

Definition str_in (k : string) (ks : list string) : bool :=
  existsb (String.eqb k) ks.

Fixpoint list_eqb {A} (eqb : A -> A -> bool) (xs ys : list A) : bool :=
  match xs, ys with
  | [], [] => true
  | x :: xs', y :: ys' => eqb x y && list_eqb eqb xs' ys'
  | _, _ => false
  end.

(** * The memoized estimator: [bctpy_spheres_estimator.py] *)

Module BCTPYSpheresEstimator.

(** Python values that reach the estimator: the computation parameters, the
    input descriptor's fields and object references.  An object reference
    ([PyObj]) is hashed and compared by identity. *)
#[local] Unset Elimination Schemes.
Inductive pyval : Type :=
| PyNone
| PyBool (b : bool)
| PyInt (z : Z)
| PyFloat (q : Q)
| PyStr (s : string)
| PyObj (id : positive)
| PyList (items : list pyval)
| PyDict (items : list (string * pyval)).

#[local] Set Elimination Schemes.

Definition kwargs : Type := list (string * pyval).

(** [hash(v)] succeeds on everything but lists and dicts. *)
Definition hashable (v : pyval) : bool :=
  match v with
  | PyList _ | PyDict _ => false
  | _ => true
  end.

(** Equality of two values of the same type.  With [typed=True] the cache
    key also records the type of every argument, so values of different
    types never give equal keys. *)
Fixpoint pyval_eqb (a b : pyval) {struct a} : bool :=
  match a, b with
  | PyNone, PyNone => true
  | PyBool x, PyBool y => Bool.eqb x y
  | PyInt x, PyInt y => Z.eqb x y
  | PyFloat x, PyFloat y => Qeq_bool x y
  | PyStr x, PyStr y => String.eqb x y
  | PyObj x, PyObj y => Pos.eqb x y
  | PyList xs, PyList ys =>
      (fix go (xs ys : list pyval) : bool :=
         match xs, ys with
         | [], [] => true
         | x :: xs', y :: ys' => pyval_eqb x y && go xs' ys'
         | _, _ => false
         end) xs ys
  | PyDict xs, PyDict ys =>
      (fix go (xs ys : list (string * pyval)) : bool :=
         match xs, ys with
         | [], [] => true
         | (k, x) :: xs', (k', y) :: ys' =>
             String.eqb k k' && pyval_eqb x y && go xs' ys'
         | _, _ => false
         end) xs ys
  | _, _ => false
  end.

(** [a != b] *)
Definition py_ne (a b : pyval) : bool := negb (pyval_eqb a b).

(** *** Calling a Python function: binding arguments to parameters *)

(** A parameter list: name and default value, if any. *)
Definition signature : Type := list (string * option pyval).

Fixpoint bind_positional (sig : signature) (args : list pyval)
  : res (kwargs * signature) :=
  match args, sig with
  | [], _ => Ok ([], sig)
  | a :: args', (p, _) :: sig' =>
      match bind_positional sig' args' with
      | Ok (bound, rest) => Ok ((p, a) :: bound, rest)
      | Raise e => Raise e
      end
  | _ :: _, [] => Raise (TypeError "too many positional arguments")
  end.

Fixpoint bind_keywords (names : list string) (bound : kwargs) (kwds : kwargs)
  : res kwargs :=
  match kwds with
  | [] => Ok bound
  | (k, v) :: kwds' =>
      if negb (str_in k names) then
        Raise (TypeError ("got an unexpected keyword argument '" ++ k ++ "'"))
      else if str_in k (dict_keys bound) then
        Raise (TypeError ("got multiple values for argument '" ++ k ++ "'"))
      else bind_keywords names (bound ++ [(k, v)])%list kwds'
  end.

Fixpoint fill_defaults (sig : signature) (bound : kwargs) : res kwargs :=
  match sig with
  | [] => Ok []
  | (p, dflt) :: sig' =>
      match dict_get bound p, dflt with
      | Some v, _ | None, Some v =>
          match fill_defaults sig' bound with
          | Ok env => Ok ((p, v) :: env)
          | Raise e => Raise e
          end
      | None, None =>
          Raise (TypeError ("missing required argument '" ++ p ++ "'"))
      end
  end.

(** A call of a function with parameter list [sig] that takes neither extra
    positional nor extra keyword arguments, on positional arguments [args]
    and keyword arguments [kwds]: the local environment, in parameter
    order.  Keywords are bound in call order; the first one that names no
    parameter, or a parameter already bound, raises. *)
Definition py_call (sig : signature) (args : list pyval) (kwds : kwargs)
  : res kwargs :=
  (pos <- bind_positional sig args ;;
   bound <- bind_keywords (map fst sig) (fst pos) kwds ;;
   fill_defaults sig bound)%res.

(** *** [functools.lru_cache(maxsize=None, typed=True)] *)

Definition cache_key : Type := (list pyval * kwargs)%type.

Definition kw_eqb (a b : string * pyval) : bool :=
  String.eqb (fst a) (fst b) && pyval_eqb (snd a) (snd b).

Definition key_eqb (k1 k2 : cache_key) : bool :=
  list_eqb pyval_eqb (fst k1) (fst k2) && list_eqb kw_eqb (snd k1) (snd k2).

(** The key is built from the positional and the keyword arguments, in call
    order; hashing it raises on an unhashable argument. *)
Definition _make_key (args : list pyval) (kwds : kwargs) : res cache_key :=
  if forallb hashable args && forallb (fun kv => hashable (snd kv)) kwds
  then Ok (args, kwds)
  else Raise (TypeError "unhashable type").

(** What an observer of the process sees: the logger's lines and every
    invocation of the wrapped function by the cache wrapper. *)
Inductive notice : Type :=
| Removing_cache_at (file_path : pyval)
| Using_cache_at (file_path : pyval).

Inductive event : Type :=
| LogInfo (n : notice)
| CallWrapped (args : list pyval) (kwds : kwargs).

Section Estimator.

Context {Result : Type}.

(** The singleton's state: the [_file_path] attribute, the table behind
    [_compute] and the events so far. *)
Record estimator : Type := mkEstimator {
  _file_path : pyval;
  _cache : list (cache_key * Result);
  events : list event
}.

Fixpoint cache_get (key : cache_key) (c : list (cache_key * Result))
  : option Result :=
  match c with
  | [] => None
  | (k, r) :: c' => if key_eqb k key then Some r else cache_get key c'
  end.

Definition emit (e : event) : M estimator unit :=
  fun st => (Ok tt, mkEstimator (_file_path st) (_cache st) (events st ++ [e])%list).

Definition cache_clear : M estimator unit :=
  fun st => (Ok tt, mkEstimator (_file_path st) [] (events st)).

Definition set_file_path (p : pyval) : M estimator unit :=
  fun st => (Ok tt, mkEstimator p (_cache st) (events st)).

Definition cache_store (key : cache_key) (r : Result) : M estimator unit :=
  fun st => (Ok tt, mkEstimator (_file_path st) ((key, r) :: _cache st) (events st)).

Section LruCache.

(** The function under the decorator. *)
Variable user_function : list pyval -> kwargs -> res Result.

(** The wrapper: a hit returns the stored result; a miss calls the wrapped
    function and stores its result; a raise of the wrapped function
    propagates and stores nothing. *)
Definition lru_cache_wrapper (args : list pyval) (kwds : kwargs)
  : M estimator Result :=
  (key <- st_lift (_make_key args kwds) ;;
   fun st =>
     match cache_get key (_cache st) with
     | Some r => (Ok r, st)
     | None =>
         (emit (CallWrapped args kwds) ;;;
          r <- st_lift (user_function args kwds) ;;
          cache_store key r ;;;
          st_ret r) st
     end)%st.

End LruCache.

(** The external collaborator: junifer's [FunctionalConnectivitySpheres],
    built from the bound parameters of [_compute], and its [fit_transform]
    called without arguments. *)
Variable FunctionalConnectivitySpheres_fit_transform : kwargs -> res Result.

(** The parameter list of [_compute], as written in the class body: it
    starts at [coords]; there is no [self] and no [data] parameter. *)
Definition _compute_signature : signature :=
  [ ("coords", None);
    ("radius", Some PyNone);
    ("allow_overlap", Some (PyBool false));
    ("agg_method", Some (PyStr "mean"));
    ("agg_method_params", Some PyNone);
    ("cor_method", Some (PyStr "covariance"));
    ("cor_method_params", Some PyNone);
    ("masks", Some PyNone) ].

Definition _compute (args : list pyval) (kwds : kwargs) : res Result :=
  (env <- py_call _compute_signature args kwds ;;
   FunctionalConnectivitySpheres_fit_transform env)%res.

(** The computation parameters of [fit_transform]. *)
Record fc_params : Type := mkParams {
  coords : pyval;
  radius : pyval;
  allow_overlap : pyval;
  agg_method : pyval;
  agg_method_params : pyval;
  cor_method : pyval;
  cor_method_params : pyval;
  masks : pyval
}.

(** What the call of [_compute] with a [data] keyword raises. *)
Definition unexpected_data : exn :=
  TypeError "got an unexpected keyword argument 'data'".

(** The estimator object itself, as an argument value. *)
Definition self_ref : pyval := PyObj 1.

(** [__init__]: [self._file_path = None]; the table of [_compute] is empty
    when the class is created. *)
Definition __init__ : estimator := mkEstimator PyNone [] [].

(** The keyword arguments of the call [self._compute(data=bold_data,
    coords=coords, ...)]. *)
Definition _compute_kwds (bold_data : pyval) (p : fc_params) : kwargs :=
  [ ("data", bold_data);
    ("coords", coords p);
    ("radius", radius p);
    ("allow_overlap", allow_overlap p);
    ("agg_method", agg_method p);
    ("agg_method_params", agg_method_params p);
    ("cor_method", cor_method p);
    ("cor_method_params", cor_method_params p);
    ("masks", masks p) ].

Definition fit_transform (input_data : kwargs) (p : fc_params)
  : M estimator Result :=
  (bold_path <- st_lift (getitem input_data "path") ;;
   bold_data <- st_lift (getitem input_data "data") ;;
   (fun st =>
      if py_ne (_file_path st) bold_path then
        (emit (LogInfo (Removing_cache_at (_file_path st))) ;;;
         cache_clear ;;;
         set_file_path bold_path) st
      else
        emit (LogInfo (Using_cache_at (_file_path st))) st) ;;;
   lru_cache_wrapper _compute [self_ref] (_compute_kwds bold_data p))%st.

(** The states of the singleton in a run of the process: the one [__init__]
    leaves, and those left by calls of [fit_transform], whether they return
    or raise. *)
Inductive reachable : estimator -> Prop :=
| reachable_init : reachable __init__
| reachable_call (st : estimator) (input_data : kwargs) (p : fc_params) :
    reachable st -> reachable (snd (fit_transform input_data p st)).

End Estimator.

End BCTPYSpheresEstimator.

(** * The graph-metric marker: [bctpy_spheres.py] *)

Module BCTPYSpheres.

(** The [metrics] argument, [Union[str, List[str]]]. *)
Inductive metrics_arg : Type :=
| MetricsStr (s : string)
| MetricsList (l : list string).

(** [isinstance(metrics, list)] *)
Definition isinstance_list (m : metrics_arg) : bool :=
  match m with
  | MetricsList _ => true
  | MetricsStr _ => false
  end.

(** What [for t_metric in m] goes through: the elements of a list, the
    one-character strings of a str. *)
Definition iterate (m : metrics_arg) : list string :=
  match m with
  | MetricsList l => l
  | MetricsStr s => map (fun c => String c EmptyString) (list_ascii_of_string s)
  end.

(** What the process shows while [compute] runs: the logger's lines and each
    evaluation of a metric function on the graph. *)
Inductive event : Type :=
| LogInfo (msg : string)
| Evaluate (metric_name : string).

Definition emit (e : event) : M (list event) unit :=
  fun tr => (Ok tt, (tr ++ [e])%list).

(** The metrics evaluated in a run, in order. *)
Fixpoint evaluated (tr : list event) : list string :=
  match tr with
  | [] => []
  | Evaluate m :: tr' => m :: evaluated tr'
  | LogInfo _ :: tr' => evaluated tr'
  end.

(** The policy the specification asks of a call with an unknown metric name:
    the call fails on the missing name and no metric has been evaluated. *)
Definition fails_without_partial_computation {A}
    (run : res A * list event) : Prop :=
  (exists name, fst run = Raise (KeyError name)) /\ evaluated (snd run) = [].

Section Marker.

(** [Array]: a connectivity matrix; [MetricVal]: what a metric returns;
    [Parent]: the state set up by [FunctionalConnectivitySpheres.__init__];
    [ParentArgs]: its arguments ([coords] ... [name]); [Input]: a pipeline
    data object. *)
Context {Array MetricVal Parent ParentArgs Input : Type}.

(** Values stored in the dictionaries that [compute] reads and returns. *)
Inductive value : Type :=
| VArray (a : Array)
| VVals (vs : list MetricVal)
| VStrs (l : list string)
| VStr (s : string).

Definition value_of_metrics (m : metrics_arg) : value :=
  match m with
  | MetricsList l => VStrs l
  | MetricsStr s => VStr s
  end.

Definition result : Type := list (string * value).

(** The collaborators: [bct.algorithms.degrees_und] and the parent class
    [FunctionalConnectivitySpheres] of junifer. *)
Variable degrees_und : value -> res MetricVal.
Variable super__init__ : ParentArgs -> res Parent.
Variable super_compute : Parent -> Input -> option Input -> res result.

Definition _metrics_dict : list (string * (value -> res MetricVal)) :=
  [ ("degrees_und", degrees_und) ].

(** A registered metric whose evaluation on [graph] returns. *)
Definition evaluates (graph : value) (m : string) : Prop :=
  exists f v, dict_get _metrics_dict m = Some f /\ f graph = Ok v.

Record marker : Type := mkMarker {
  metrics : metrics_arg;
  parent : Parent
}.

Definition __init__ (metrics : metrics_arg) (args : ParentArgs) : res marker :=
  let metrics :=
    if negb (isinstance_list metrics) then
      match metrics with
      | MetricsStr s => MetricsList [s]
      | MetricsList l => MetricsList l
      end
    else metrics in
  (base <- super__init__ args ;;
   Ok (mkMarker metrics base))%res.

Definition get_output_type (input_type : string) : string := "vector".

(** The loop over [self.metrics], with [out_vals] as accumulator. *)
Fixpoint metrics_loop (ms : list string) (graph : value)
    (out_vals : list MetricVal) : M (list event) (list MetricVal) :=
  match ms with
  | [] => st_ret out_vals
  | t_metric :: ms' =>
      (metric <- st_lift (getitem _metrics_dict t_metric) ;;
       emit (Evaluate t_metric) ;;;
       v <- st_lift (metric graph) ;;
       metrics_loop ms' graph (out_vals ++ [v])%list)%st
  end.

Definition compute (self : marker) (input : Input) (extra_input : option Input)
  : M (list event) result :=
  (emit (LogInfo "Computing FC for BCTPY") ;;;
   conn_out <- st_lift (super_compute (parent self) input extra_input) ;;
   emit (LogInfo "Computing BCTPY markers") ;;;
   graph <- st_lift (getitem conn_out "data") ;;
   out_vals <- metrics_loop (iterate (metrics self)) graph [] ;;
   st_ret [ ("data", VVals out_vals);
            ("col_names", value_of_metrics (metrics self)) ])%st.

End Marker.

End BCTPYSpheres.

(** * The phase-coherence marker: [instant_phase_connectivity_base.py] *)

Module InstantPhaseConnectivityBase.

(** Arrays are nested lists; a float entry is a real number (rounding and
    NaN are outside this model), a float parameter a rational. *)
Definition matrix : Type := list (list R).
Definition tensor : Type := list (list (list R)).

Definition raise_error {A} (msg : string) : res A := Raise (ValueError msg).

Definition Qltb (x y : Q) : bool := negb (Qle_bool y x).

(** [a / b] on floats *)
Definition py_div (a b : Q) : res Q :=
  if Qeq_bool b 0 then Raise (ZeroDivisionError "float division by zero")
  else Ok (a / b)%Q.

(** [xs[i]] on a tuple *)
Definition tuple_getitem {A} (xs : list A) (i : nat) : res A :=
  match nth_error xs i with
  | Some x => Ok x
  | None => Raise (IndexError "tuple index out of range")
  end.

(** *** numpy: indexing with [None], broadcasting, [np.cos] *)

(** [phi[:, None, :]]: shape (T, 1, R) *)
Definition newaxis_1 (phi : matrix) : tensor := map (fun row => [row]) phi.

(** [phi[:, :, None]]: shape (T, R, 1) *)
Definition newaxis_2 (phi : matrix) : tensor :=
  map (fun row => map (fun x => [x]) row) phi.

Fixpoint zip_with {A B C} (f : A -> B -> res C) (xs : list A) (ys : list B)
  : res (list C) :=
  match xs, ys with
  | [], [] => Ok []
  | x :: xs', y :: ys' =>
      (c <- f x y ;; cs <- zip_with f xs' ys' ;; Ok (c :: cs))%res
  | _, _ => Raise (ValueError "operands could not be broadcast together")
  end.

(** One axis of a broadcast: an axis of length 1 is stretched to the length
    of the other operand's axis; otherwise the lengths must agree. *)
Definition broadcast {A B C} (f : A -> B -> res C) (xs : list A) (ys : list B)
  : res (list C) :=
  match xs, ys with
  | [x], _ => zip_with f (repeat x (List.length ys)) ys
  | _, [y] => zip_with f xs (repeat y (List.length xs))
  | _, _ => zip_with f xs ys
  end.

(** [a - b] on arrays of three axes *)
Definition np_subtract (a b : tensor) : res tensor :=
  broadcast (broadcast (broadcast (fun x y => Ok (x - y)%R))) a b.

Definition np_cos (a : tensor) : tensor := map (map (map cos)) a.

(** [np.cos(phi[:, None, :] - phi[:, :, None])] *)
Definition iphc (phi : matrix) : res tensor :=
  (diff <- np_subtract (newaxis_1 phi) (newaxis_2 phi) ;;
   Ok (np_cos diff))%res.

(** [m[t, i]] and [a[t, i, j]], [None] out of range. *)
Definition matrix_get (m : matrix) (t i : nat) : option R :=
  match nth_error m t with
  | Some row => nth_error row i
  | None => None
  end.

Definition tensor_get (a : tensor) (t i j : nat) : option R :=
  match nth_error a t with
  | Some slice => matrix_get slice i j
  | None => None
  end.



(** *** The marker *)

(** [_MARKER_INOUT_MAPPINGS] *)
Definition _MARKER_INOUT_MAPPINGS : list (string * list (string * string)) :=
  [ ("BOLD", [ ("fc", "timeseries_2d") ]) ].

(** junifer's [BaseMarker.__init__(on, name)]: [on] must be one of the data
    types of [_MARKER_INOUT_MAPPINGS]; the name defaults to the class name. *)
Definition BaseMarker__init__ (class_name : string) (on : string)
    (name : option string) : res (list string * string) :=
  if str_in on (dict_keys _MARKER_INOUT_MAPPINGS) then
    Ok ([on], match name with Some n => n | None => class_name end)
  else raise_error (class_name ++ " cannot be computed on " ++ on).

Section Marker.

(** [Masks]: a mask specification; [Input]: a pipeline data object;
    [Complex]: the analytic signal's array type. *)
Context {Masks Input Complex : Type}.

Record marker : Type := mkMarker {
  highpass : Q;
  lowpass : Q;
  order : Z;
  tr : option Q;
  masks : option Masks;
  _on : list string;
  name : string
}.

Definition __init__ (class_name : string) (highpass lowpass : Q) (order : Z)
    (masks : option Masks) (tr : option Q) (name : option string)
  : res marker :=
  (_ <- (if Qltb highpass 0
         then raise_error "Highpass must be positive or 0" else Ok tt) ;;
   _ <- (if Qle_bool lowpass 0
         then raise_error "Lowpass must be positive" else Ok tt) ;;
   _ <- (if (order <=? 0)%Z
         then raise_error "Order must be positive" else Ok tt) ;;
   _ <- (if Qle_bool lowpass highpass
         then raise_error "Highpass must be lower than lowpass" else Ok tt) ;;
   base <- BaseMarker__init__ class_name "BOLD" name ;;
   Ok (mkMarker highpass lowpass order tr masks (fst base) (snd base)))%res.

(** The value under ["aggregation"] in what [aggregate] returns. *)
Record aggregation_feature : Type := mkAggregation {
  agg_data : matrix;
  agg_col_names : list string
}.

(** The value under ["fc"] in what [compute] returns. *)
Record fc_feature : Type := mkFc {
  data : tensor;
  col_names : list string;
  row_names : list string
}.

(** The collaborators: the subclass's [aggregate], the NIfTI header's zooms
    of [input["data"]], [scipy.stats.zscore(_, axis=0)],
    [nilearn.signal.butterworth], [scipy.signal.hilbert(_, axis=0)] and
    [np.angle]. *)
Variable aggregate :
  marker -> Input -> option Input -> res (list (string * aggregation_feature)).
Variable header_get_zooms : Input -> res (list Q).
Variable stats_zscore : matrix -> matrix.
Variable butterworth : matrix -> Q -> Q -> Q -> Z -> res matrix.
Variable signal_hilbert : matrix -> Complex.
Variable np_angle : Complex -> matrix.

Definition compute (self : marker) (input : Input) (extra_input : option Input)
  : res (list (string * fc_feature)) :=
  (aggregation <- aggregate self input extra_input ;;
   agg <- getitem aggregation "aggregation" ;;
   let roi_data := agg_data agg in
   let zscore_roi_data := stats_zscore roi_data in
   tr <- match tr self with
         | Some tr => Ok tr
         | None => zooms <- header_get_zooms input ;; tuple_getitem zooms 3
         end ;;
   sampling_rate <- py_div 1 tr ;;
   filtered_data <- butterworth zscore_roi_data sampling_rate
                      (lowpass self) (highpass self) (order self) ;;
   let phi := np_angle (signal_hilbert filtered_data) in
   iphc <- iphc phi ;;
   Ok [ ("fc", mkFc iphc (agg_col_names agg) (agg_col_names agg)) ])%res.

End Marker.

(** *** The coherence expression on binary64 entries

    The arrays that [compute] handles hold IEEE binary64 numbers.  A phase
    can be NaN: the z-score of a region that is constant over time is 0/0,
    and NaN goes through the filter, the Hilbert transform and the angle.
    Every subtraction is rounded.  Here the expression of the last step,
    [np.cos(phi[:, None, :] - phi[:, :, None])], is taken on binary64
    entries: the subtraction is the binary64 one, the indexing and the
    broadcasting are those above, and the library's element-wise cosine is
    a parameter. *)
Module Float64.

Import PrimFloat.

Definition matrix : Type := list (list float).
Definition tensor : Type := list (list (list float)).

(** [phi[:, None, :]]: shape (T, 1, R) *)
Definition newaxis_1 (phi : matrix) : tensor := map (fun row => [row]) phi.

(** [phi[:, :, None]]: shape (T, R, 1) *)
Definition newaxis_2 (phi : matrix) : tensor :=
  map (fun row => map (fun x => [x]) row) phi.

(** [a - b] on arrays of three axes *)
Definition np_subtract (a b : tensor) : res tensor :=
  broadcast (broadcast (broadcast (fun x y => Ok (x - y)%float))) a b.

Section Cosine.

(** The cosine that [np.cos] applies to each entry. *)
Variable cos64 : float -> float.

Definition np_cos (a : tensor) : tensor := map (map (map cos64)) a.

(** [np.cos(phi[:, None, :] - phi[:, :, None])] *)
Definition iphc (phi : matrix) : res tensor :=
  (diff <- np_subtract (newaxis_1 phi) (newaxis_2 phi) ;;
   Ok (np_cos diff))%res.

End Cosine.

(** [m[t, i]] and [a[t, i, j]], [None] out of range. *)
Definition matrix_get (m : matrix) (t i : nat) : option float :=
  match nth_error m t with
  | Some row => nth_error row i
  | None => None
  end.

Definition tensor_get (a : tensor) (t i j : nat) : option float :=
  match nth_error a t with
  | Some slice => matrix_get slice i j
  | None => None
  end.

(** [x == y] on two floats: false whenever one of them is NaN. *)
Definition py_eq (x y : float) : bool := (x =? y)%float.

End Float64.

End InstantPhaseConnectivityBase.

(** * Concrete inputs and collaborators, for running the code *)

Module Examples.

(** ** The estimator *)

Import BCTPYSpheresEstimator.

Definition fc_result : Type := list (list Z).

(** A wrapped transformation that would succeed if it were reached. *)
Definition fcs_ok (env : kwargs) : res fc_result :=
  Ok [ [1; 0]; [0; 1] ]%Z.

Definition sub01 : kwargs :=
  [ ("path", PyStr "sub-01_task-rest_bold.nii.gz"); ("data", PyObj 2) ].

Definition sub02 : kwargs :=
  [ ("path", PyStr "sub-02_task-rest_bold.nii.gz"); ("data", PyObj 3) ].

Definition dmn_params : fc_params :=
  mkParams (PyStr "DMNBuckner") (PyFloat 5) (PyBool false) (PyStr "mean")
           PyNone (PyStr "covariance") PyNone PyNone.

(** The state after one call on [sub01]. *)
Definition after_sub01 : estimator :=
  snd (fit_transform fcs_ok sub01 dmn_params __init__).

(** ** The graph-metric marker *)

Import BCTPYSpheres.

Definition graph : Type := list (list Z).
Definition bvalue : Type := @value graph (list Z).

(** [bct.algorithms.degrees_und]: binarize, then sum over the first axis. *)
Definition binarize (g : graph) : graph :=
  map (map (fun w => if (w =? 0)%Z then 0%Z else 1%Z)) g.

Fixpoint add_rows (r1 r2 : list Z) : list Z :=
  match r1, r2 with
  | x :: r1', y :: r2' => (x + y)%Z :: add_rows r1' r2'
  | _, _ => []
  end.

Definition sum_axis0 (g : graph) : list Z :=
  match g with
  | [] => []
  | row :: rows => fold_left add_rows rows row
  end.

Definition degrees_und (v : bvalue) : res (list Z) :=
  match v with
  | VArray g => Ok (sum_axis0 (binarize g))
  | _ => Raise (TypeError "not an array")
  end.

(** A path on three nodes: 0 - 1 - 2. *)
Definition path3 : graph := [ [0; 2; 0]; [2; 0; 3]; [0; 3; 0] ]%Z.

Definition fc_spheres_init (args : unit) : res unit := Ok tt.

Definition fc_spheres_compute (self : unit) (input : string)
    (extra_input : option string) : res (list (string * bvalue)) :=
  Ok [ ("data", VArray path3);
       ("row_names", VStrs ["PCC"; "MPFC"; "lTPJ"]);
       ("col_names", VStrs ["PCC"; "MPFC"; "lTPJ"]);
       ("matrix_kind", VStr "tril") ].

Definition degree_marker : @marker unit :=
  mkMarker (MetricsList ["degrees_und"]) tt.

(** A valid metric followed by a name that is not registered. *)
Definition mixed_marker : @marker unit :=
  mkMarker (MetricsList ["degrees_und"; "clustering_coef_bu"]) tt.

(** ** The phase-coherence marker *)

Import InstantPhaseConnectivityBase.

Definition pmarker : Type := @marker unit.

Definition phases : matrix :=
  [ [0; 1; 2]; [1; 1; 0] ]%R.

Definition parcel_aggregate (self : pmarker) (input : string)
    (extra_input : option string)
  : res (list (string * aggregation_feature)) :=
  Ok [ ("aggregation", mkAggregation phases ["V1"; "M1"; "PCC"]) ].

Definition zooms (input : string) : res (list Q) :=
  Ok [ 2; 2; 2; 0.72 ]%Q.

Definition pass_filter (x : matrix) (sampling_rate low_pass high_pass : Q)
    (order : Z) : res matrix := Ok x.

Definition same (x : matrix) : matrix := x.

Definition band_marker : pmarker :=
  mkMarker (1 # 100) (1 # 10) 5 None None ["BOLD"] "InstantPhaseConnectivityParcels".

End Examples.

(** * Further inputs: edge cases of the markers *)

Module MarkerCases.

Import BCTPYSpheresEstimator.

(** A state whose table holds an entry, under another file. *)
Definition populated : @estimator Examples.fc_result :=
  mkEstimator (PyStr "sub-00_task-rest_bold.nii.gz")
    [ (([self_ref], _compute_kwds (PyObj 9) Examples.dmn_params),
       [ [5] ]%Z) ]
    [].

(** Masks given as a list, as the signature allows. *)
Definition masked_params : fc_params :=
  mkParams (PyStr "DMNBuckner") (PyFloat 5) (PyBool false) (PyStr "mean")
           PyNone (PyStr "covariance") PyNone
           (PyList [PyStr "compute_brain_mask"]).

Definition no_path : kwargs := [ ("data", PyObj 2) ].
Definition no_data : kwargs := [ ("path", PyStr "sub-01_task-rest_bold.nii.gz") ].

Import BCTPYSpheres.

(** A parent [compute] that raises, one whose result has no [data], and
    one whose [data] is not an array. *)
Definition failing_compute (self : unit) (input : string)
    (extra_input : option string) : res (list (string * Examples.bvalue)) :=
  Raise (ExternalError "no BOLD data").

Definition dataless_compute (self : unit) (input : string)
    (extra_input : option string) : res (list (string * Examples.bvalue)) :=
  Ok [ ("col_names", VStrs ["PCC"; "MPFC"; "lTPJ"]) ].

Definition textual_compute (self : unit) (input : string)
    (extra_input : option string) : res (list (string * Examples.bvalue)) :=
  Ok [ ("data", VStr "not an array") ].

Definition twice_marker : @marker unit :=
  mkMarker (MetricsList ["degrees_und"; "degrees_und"]) tt.

Import InstantPhaseConnectivityBase.

Definition short_zooms (input : string) : res (list Q) := Ok [ 2; 2; 2 ]%Q.

Definition other_zooms (input : string) : res (list Q) := Ok [ 3; 3; 3; 2 ]%Q.

Definition timed_marker : Examples.pmarker :=
  mkMarker (1 # 100) (1 # 10) 5 (Some (72 # 100)) None ["BOLD"]
           "InstantPhaseConnectivityParcels".

Definition zero_tr_marker : Examples.pmarker :=
  mkMarker (1 # 100) (1 # 10) 5 (Some 0) None ["BOLD"]
           "InstantPhaseConnectivityParcels".

End MarkerCases.

(** * The datagrabbers: Python strings, lists and nested dictionaries *)

Module Py.

(** [junifer.utils.raise_error(msg)]: raises [ValueError]. *)
Definition raise_error {A} (msg : string) : res A := Raise (ValueError msg).

(** [sub in s] on strings *)
Fixpoint contains (sub s : string) : bool :=
  String.prefix sub s ||
  match s with
  | EmptyString => false
  | String _ s' => contains sub s'
  end.

(** [s.split(sep)] for a separator of one character: the pieces between
    the separators, the empty ones too; never an empty list. *)
Fixpoint split (sep : ascii) (s : string) : list string :=
  match s with
  | EmptyString => [EmptyString]
  | String c s' =>
      if Ascii.eqb c sep then EmptyString :: split sep s'
      else match split sep s' with
           | piece :: pieces => String c piece :: pieces
           | [] => [String c EmptyString]
           end
  end.

(** [l[i]] on a list *)
Definition list_getitem {A} (l : list A) (i : nat) : res A :=
  match nth_error l i with
  | Some x => Ok x
  | None => Raise (IndexError "list index out of range")
  end.

(** A list comprehension whose element expression may raise. *)
Fixpoint map_res {A B} (f : A -> res B) (l : list A) : res (list B) :=
  match l with
  | [] => Ok []
  | x :: l' => (y <- f x ;; ys <- map_res f l' ;; Ok (y :: ys))%res
  end.

(** What an f-string shows for a list of plain strings. *)
Definition repr_list (l : list string) : string :=
  "[" ++ String.concat ", " (map (fun s => "'" ++ s ++ "'") l) ++ "]".

(** What an f-string shows for a non-negative int. *)
Definition str_of_nat (n : nat) : string :=
  NilZero.string_of_uint (Nat.to_uint n).

(** [enumerate(l)] *)
Definition enumerate {A} (l : list A) : list (nat * A) :=
  combine (seq 0 (List.length l)) l.

(** [itertools.product(xs, ys, zs)] *)
Definition product3 {A B C} (xs : list A) (ys : list B) (zs : list C)
  : list (A * B * C) :=
  flat_map (fun x => flat_map (fun y => map (fun z => (x, y, z)) zs) ys) xs.

(** [d[k] = v] on an insertion-ordered dict: an existing key keeps its
    place, a new key goes last. *)
Fixpoint dict_set {V} (d : list (string * V)) (k : string) (v : V)
  : list (string * V) :=
  match d with
  | [] => [(k, v)]
  | (k', v') :: d' =>
      if String.eqb k' k then (k', v) :: d'
      else (k', v') :: dict_set d' k v
  end.

(** An argument of type [Union[str, List[str], None]]. *)
Inductive str_or_list : Type :=
| ArgNone
| ArgStr (s : string)
| ArgList (l : list string).

(** [for x in xs: if x not in valid: raise_error(msg(x))] *)
Fixpoint check_each (xs valid : list string) (msg : string -> string)
  : res unit :=
  match xs with
  | [] => Ok tt
  | x :: xs' =>
      if negb (str_in x valid) then raise_error (msg x)
      else check_each xs' valid msg
  end.

(** Nested dictionaries, lists, strings (paths are strings here). *)
#[local] Unset Elimination Schemes.
Inductive json : Type :=
| JNone
| JBool (b : bool)
| JStr (s : string)
| JList (items : list json)
| JDict (items : list (string * json)).
#[local] Set Elimination Schemes.

(** [j[k]] *)
Definition json_getitem (j : json) (k : string) : res json :=
  match j with
  | JDict d => getitem d k
  | _ => Raise (TypeError "object is not subscriptable by a key")
  end.

(** [j[k] = v] *)
Definition json_setitem (j : json) (k : string) (v : json) : res json :=
  match j with
  | JDict d => Ok (JDict (dict_set d k v))
  | _ => Raise (TypeError "object does not support item assignment")
  end.

(** [j[k1]...[kn] = v]: the dictionaries on the way are updated in place,
    so the outer one shows the change. *)
Fixpoint json_set_path (j : json) (ks : list string) (v : json) : res json :=
  match ks with
  | [] => Ok v
  | [k] => json_setitem j k v
  | k :: ks' =>
      (inner <- json_getitem j k ;;
       inner' <- json_set_path inner ks' v ;;
       json_setitem j k inner')%res
  end.

(** [j[k1]...[kn]] *)
Fixpoint json_get_path (j : json) (ks : list string) : res json :=
  match ks with
  | [] => Ok j
  | k :: ks' => (inner <- json_getitem j k ;; json_get_path inner ks')%res
  end.

Definition json_of_mapping (m : list (string * string)) : json :=
  JDict (map (fun kv => (fst kv, JStr (snd kv))) m).

End Py.

(** * [hcp_aging.py] *)

Module HCPAging.

Import Py.

Definition all_tasks : list string :=
  [ "REST1"; "REST2"; "CARIT"; "FACENAME"; "VISMOTOR" ].

Definition all_phase_encodings : list string := [ "AP"; "PA" ].

Definition patterns : list (string * json) :=
  [ ("BOLD",
     JStr ("{subject}_V1_MR/MNINonLinear/" ++
           "Results/{task}_{phase_encoding}/" ++
           "{task}_{phase_encoding}_hp0_clean.nii.gz")) ].

Definition task_message (task : string) : string :=
  "'" ++ task ++ "' is not a valid HCP-Aging fMRI task input. " ++
  "Valid task values can be any or all of " ++ repr_list all_tasks ++ ".".

Definition phase_encoding_message (pe : string) : string :=
  "'" ++ pe ++ "' is not a valid HCP-Aging phase encoding. " ++
  "Valid phase encoding can be any or all of " ++
  repr_list all_phase_encodings ++ ".".

(** The task name used in the paths. *)
Definition new_task (task : string) : string :=
  if contains "REST" task then "rfMRI_" ++ task else "tfMRI_" ++ task.

Section Grabber.

(** [Base]: the state of junifer's [PatternDataGrabber]; [Item]: what its
    [get_item] returns. *)
Context {Base Item : Type}.

(** [PatternDataGrabber.__init__(types, datadir, patterns, replacements,
    confounds_format)], its [get_item], and the names of the entries of
    [self.datadir.iterdir()]. *)
Variable super__init__ :
  list string -> option string -> json -> list string -> string -> res Base.
Variable super_get_item : Base -> string -> string -> string -> res Item.
Variable datadir_iterdir : Base -> res (list string).

Record grabber : Type := mkGrabber {
  tasks : list string;
  phase_encodings : list string;
  base : Base
}.

(** The keyword arguments beyond the three named ones are accepted and not
    passed on. *)
Definition __init__ (datadir : option string)
    (tasks phase_encodings : str_or_list) (kwargs : list (string * json))
  : res grabber :=
  let types := dict_keys patterns in
  (self_tasks <-
     match tasks with
     | ArgNone => Ok all_tasks
     | ArgStr task =>
         _ <- check_each [task] all_tasks task_message ;; Ok [task]
     | ArgList tasks =>
         _ <- check_each tasks all_tasks task_message ;; Ok tasks
     end ;;
   let phase_encodings :=
     match phase_encodings with
     | ArgNone => all_phase_encodings
     | ArgStr pe => [pe]
     | ArgList pes => pes
     end in
   _ <- check_each phase_encodings all_phase_encodings
                   phase_encoding_message ;;
   let replacements := [ "subject"; "task"; "phase_encoding" ] in
   base <- super__init__ types datadir (JDict patterns) replacements "adhoc" ;;
   Ok (mkGrabber self_tasks phase_encodings base))%res.

Definition get_item (self : grabber) (subject task phase_encoding : string)
  : res Item :=
  super_get_item (base self) subject (new_task task) phase_encoding.

Definition get_elements (self : grabber)
  : res (list (string * string * string)) :=
  (names <- datadir_iterdir (base self) ;;
   subjects <- map_res (fun name => list_getitem (split "_" name) 0)
                       (filter (contains "V1_MR") names) ;;
   Ok (product3 subjects (tasks self) (phase_encodings self)))%res.

Definition skip_file_check (self : grabber) : bool := true.

End Grabber.

End HCPAging.

(** * [hcp_d.py] *)

Module HCPD.

Import Py.

Definition all_tasks : list string :=
  [ "REST1"; "REST2"; "CARIT"; "EMOTION"; "GUESSING" ].

Definition all_phase_encodings : list string := [ "PA"; "AP" ].

Definition suffix : string := "_hp0_clean".

Definition types : list string := [ "BOLD"; "T1w"; "Warp" ].

Definition patterns : list (string * json) :=
  [ ("BOLD",
     JDict [ ("pattern",
              JStr ("{subject}_V1_MR/MNINonLinear/Results/" ++
                    "{task}_{phase_encoding}/" ++
                    "{task}_{phase_encoding}" ++
                    suffix ++ ".nii.gz"));
             ("space", JStr "MNI152NLin6Asym") ]);
    ("T1w",
     JDict [ ("pattern",
              JStr "{subject}_V1_MR/T1w/T1w_acpc_dc_restore.nii.gz");
             ("space", JStr "native") ]);
    ("Warp",
     JList [ JDict [ ("pattern",
                      JStr ("{subject}_V1_MR/MNINonLinear/xfms/" ++
                            "standard2acpc_dc.nii.gz"));
                     ("src", JStr "MNI152NLin6Asym");
                     ("dst", JStr "native");
                     ("warper", JStr "fsl") ];
             JDict [ ("pattern",
                      JStr ("{subject}_V1_MR/MNINonLinear/xfms/" ++
                            "acpc_dc2standard.nii.gz"));
                     ("src", JStr "native");
                     ("dst", JStr "MNI152NLin6Asym");
                     ("warper", JStr "fsl") ] ]) ].

Definition task_message (task : string) : string :=
  "'" ++ task ++ "' is not a valid HCP-D fMRI task input. " ++
  "Valid task values can be any or all of " ++ repr_list all_tasks ++ ".".

Definition phase_encoding_message (pe : string) : string :=
  "'" ++ pe ++ "' is not a valid HCP-D phase encoding. " ++
  "Valid phase encoding can be any or all of " ++
  repr_list all_phase_encodings ++ ".".

Definition new_task (task : string) : string :=
  if contains "REST" task then "rfMRI_" ++ task else "tfMRI_" ++ task.

(** The test under which [get_elements] skips an element. *)
Definition skipped (task phase_encoding : string) : bool :=
  String.eqb task "tfMRI_EMOTION" && String.eqb phase_encoding "AP".

Section Grabber.

Context {Base Item : Type}.

Variable super__init__ :
  list string -> string -> json -> list string -> res Base.
Variable super_get_item : Base -> string -> string -> string -> res Item.
Variable datadir_iterdir : Base -> res (list string).

Record grabber : Type := mkGrabber {
  tasks : list string;
  phase_encodings : list string;
  base : Base
}.

Definition __init__ (datadir : string) (tasks phase_encodings : str_or_list)
  : res grabber :=
  (self_tasks <-
     match tasks with
     | ArgNone => Ok all_tasks
     | ArgStr task =>
         _ <- check_each [task] all_tasks task_message ;; Ok [task]
     | ArgList tasks =>
         _ <- check_each tasks all_tasks task_message ;; Ok tasks
     end ;;
   let phase_encodings :=
     match phase_encodings with
     | ArgNone => all_phase_encodings
     | ArgStr pe => [pe]
     | ArgList pes => pes
     end in
   _ <- check_each phase_encodings all_phase_encodings
                   phase_encoding_message ;;
   let replacements := [ "subject"; "task"; "phase_encoding" ] in
   base <- super__init__ types datadir (JDict patterns) replacements ;;
   Ok (mkGrabber self_tasks phase_encodings base))%res.

Definition get_item (self : grabber) (subject task phase_encoding : string)
  : res Item :=
  super_get_item (base self) subject (new_task task) phase_encoding.

Definition get_elements (self : grabber)
  : res (list (string * string * string)) :=
  (names <- datadir_iterdir (base self) ;;
   subjects <- map_res (fun name => list_getitem (split "_" name) 0)
                       (filter (contains "V1_MR") names) ;;
   Ok (filter (fun elem => negb (skipped (snd (fst elem)) (snd elem)))
              (product3 subjects (tasks self) (phase_encodings self))))%res.

End Grabber.

End HCPD.

(** * [hcp_early_psychosis.py] *)

Module HCPEarlyPsychosis.

Import Py.

(** The dictionary is built by assignments, in this order. *)
Definition get_cat_to_fmriprep_mapping : list (string * string) :=
  let terms_cat := [ "WM"; "CSF"; "GS" ] in
  let terms_fmriprep := [ "white_matter"; "csf"; "global_signal" ] in
  let mapping : list (string * string) := [] in
  let mapping :=
    fold_left
      (fun mapping cf =>
         let cat := fst cf in
         let fmriprep := snd cf in
         let mapping := dict_set mapping cat fmriprep in
         dict_set mapping (cat ++ "^2") (fmriprep ++ "_power2"))
      (combine terms_cat terms_fmriprep) mapping in
  let motion_terms_fmriprep := [ "rot"; "trans" ] in
  let motion_directions := [ "x"; "y"; "z" ] in
  fold_left
    (fun mapping itd =>
       let n := str_of_nat (fst itd + 1) in
       let term := fst (snd itd) in
       let direction := snd (snd itd) in
       let mapping :=
         dict_set mapping ("RP." ++ n) (term ++ "_" ++ direction) in
       let mapping :=
         dict_set mapping ("RP^2." ++ n)
                  (term ++ "_" ++ direction ++ "_power2") in
       let mapping :=
         dict_set mapping ("DRP." ++ n)
                  (term ++ "_" ++ direction ++ "_derivative1") in
       dict_set mapping ("DRP^2." ++ n)
                (term ++ "_" ++ direction ++ "_derivative1_power2"))
    (enumerate (list_prod motion_terms_fmriprep motion_directions)) mapping.

Definition all_tasks : list string := [ "REST1"; "REST2" ].

Definition all_phase_encodings : list string := [ "AP"; "PA" ].

Definition patterns : list (string * json) :=
  [ ("BOLD",
     JStr ("{subject}_01_MR/MNINonLinear/" ++
           "Results/rfMRI_{task}_{phase_encoding}/" ++
           "rfMRI_{task}_{phase_encoding}_hp0_clean.nii.gz"));
    ("BOLD_confounds",
     JStr ("HCP_EP_confounds/{subject}_01_MR/MNINonLinear/" ++
           "Results/rfMRI_{task}_{phase_encoding}/" ++
           "Confounds_{subject}_01_MR.tsv")) ].

Definition task_message (task : string) : string :=
  "'" ++ task ++ "' is not a valid HCP Early Psychosis" ++
  " fMRI task input. " ++
  "Valid task values can be any or all of " ++ repr_list all_tasks ++ ".".

Definition phase_encoding_message (pe : string) : string :=
  "'" ++ pe ++ "' is not a valid HCP Early Psychosis " ++
  "phase encoding. Valid phase encoding can be" ++
  " any or all of " ++ repr_list all_phase_encodings ++ ".".

Section Grabber.

Context {Base : Type}.

Variable super__init__ :
  list string -> option string -> json -> list string -> string -> res Base.
Variable super_get_item : Base -> string -> string -> string -> res json.
Variable datadir_iterdir : Base -> res (list string).

Record grabber : Type := mkGrabber {
  tasks : list string;
  phase_encodings : list string;
  base : Base
}.

Definition __init__ (datadir : option string)
    (tasks phase_encodings : str_or_list) (kwargs : list (string * json))
  : res grabber :=
  let types := dict_keys patterns in
  (self_tasks <-
     match tasks with
     | ArgNone => Ok all_tasks
     | ArgStr task =>
         _ <- check_each [task] all_tasks task_message ;; Ok [task]
     | ArgList tasks =>
         _ <- check_each tasks all_tasks task_message ;; Ok tasks
     end ;;
   let phase_encodings :=
     match phase_encodings with
     | ArgNone => all_phase_encodings
     | ArgStr pe => [pe]
     | ArgList pes => pes
     end in
   _ <- check_each phase_encodings all_phase_encodings
                   phase_encoding_message ;;
   let replacements := [ "subject"; "task"; "phase_encoding" ] in
   base <- super__init__ types datadir (JDict patterns) replacements "adhoc" ;;
   Ok (mkGrabber self_tasks phase_encodings base))%res.

Definition get_item (self : grabber) (subject task phase_encoding : string)
  : res json :=
  (out <- super_get_item (base self) subject task phase_encoding ;;
   json_set_path out [ "BOLD_confounds"; "mappings" ]
     (JDict [ ("fmriprep", json_of_mapping get_cat_to_fmriprep_mapping) ]))%res.

Definition get_elements (self : grabber)
  : res (list (string * string * string)) :=
  (names <- datadir_iterdir (base self) ;;
   subjects <- map_res (fun name => list_getitem (split "_" name) 0)
                       (filter (contains "01_MR") names) ;;
   Ok (product3 subjects (tasks self) (phase_encodings self)))%res.

Definition skip_file_check (self : grabber) : bool := true.

End Grabber.

End HCPEarlyPsychosis.

(** * [hcp_ya_confounds_cat.py] *)

Module HCPYAConfoundsCat.

Import Py.

Definition get_cat_to_fmriprep_mapping : list (string * string) :=
  let terms_cat := [ "WM"; "CSF"; "GS" ] in
  let terms_fmriprep := [ "white_matter"; "csf"; "global_signal" ] in
  let mapping : list (string * string) := [] in
  let mapping :=
    fold_left
      (fun mapping cf =>
         let cat := fst cf in
         let fmriprep := snd cf in
         let mapping := dict_set mapping cat fmriprep in
         dict_set mapping (cat ++ "^2") (fmriprep ++ "_power2"))
      (combine terms_cat terms_fmriprep) mapping in
  let motion_terms_fmriprep := [ "rot"; "trans" ] in
  let motion_directions := [ "x"; "y"; "z" ] in
  let mapping :=
    fold_left
      (fun mapping itd =>
         let n := str_of_nat (fst itd + 1) in
         let term := fst (snd itd) in
         let direction := snd (snd itd) in
         let mapping :=
           dict_set mapping ("RP." ++ n) (term ++ "_" ++ direction) in
         let mapping :=
           dict_set mapping ("RP^2." ++ n)
                    (term ++ "_" ++ direction ++ "_power2") in
         let mapping :=
           dict_set mapping ("DRP." ++ n)
                    (term ++ "_" ++ direction ++ "_derivative1") in
         dict_set mapping ("DRP^2." ++ n)
                  (term ++ "_" ++ direction ++ "_derivative1_power2"))
      (enumerate (list_prod motion_terms_fmriprep motion_directions))
      mapping in
  dict_set mapping "FD" "framewise_displacement".

(** Keyword arguments collected by a double-star parameter. *)
Definition kwargs : Type := list (string * json).

Definition dict_pop {V} (d : list (string * V)) (k : string)
  : list (string * V) :=
  filter (fun kv => negb (String.eqb (fst kv) k)) d.

Module HCPCATConfounds.

Definition all_tasks : list string :=
  [ "REST1"; "REST2"; "SOCIAL"; "WM"; "RELATIONAL"; "EMOTION"; "LANGUAGE";
    "GAMBLING"; "MOTOR" ].

Definition all_phase_encodings : list string := [ "LR"; "RL" ].

Definition types : list string := [ "BOLD" ].

Definition patterns : list (string * json) :=
  [ ("BOLD",
     JDict
       [ ("confounds",
          JDict
            [ ("pattern",
               JStr ("sub-{subject}/sub-{subject}_task-{task}" ++
                     "{phase_encoding}_desc-confounds_timeseries.tsv"));
              ("format", JStr "adhoc");
              ("mappings",
               JDict [ ("fmriprep",
                        json_of_mapping get_cat_to_fmriprep_mapping) ]) ]) ]) ].

Definition uri : string :=
  "ria+file:///data/project/cat_preprocessed/" ++
  "dataladstore#~HCP-YA_conf".

Definition task_message (task : string) : string :=
  "'" ++ task ++ "' is not a valid HCP-YA fMRI task input. " ++
  "Valid task values can be any or all of " ++ repr_list all_tasks ++ ".".

Definition phase_encoding_message (pe : string) : string :=
  "'" ++ pe ++ "' is not a valid HCP-YA phase encoding. " ++
  "Valid phase encoding can be any or all of " ++
  repr_list all_phase_encodings ++ ".".

(** The task and the phase encoding used in the paths. *)
Definition new_names (task phase_encoding : string) : string * string :=
  if contains "REST" task
  then ("rfMRI" ++ task, phase_encoding ++ "hp2000clean")
  else ("tfMRI" ++ task, phase_encoding).

Section Grabber.

Context {Base Item : Type}.

(** [PatternDataladDataGrabber.__init__(types, datadir, uri, patterns,
    replacements, confounds_format, and the other keywords)], its
    [get_item], and the entries of [self.datadir.iterdir()] with their
    [is_dir()]. *)
Variable super__init__ :
  list string -> option json -> string -> json -> list string -> string ->
  kwargs -> res Base.
Variable super_get_item : Base -> string -> string -> string -> res Item.
Variable datadir_iterdir : Base -> res (list (string * bool)).

Record grabber : Type := mkGrabber {
  tasks : list string;
  phase_encodings : list string;
  base : Base
}.

Definition __init__ (datadir : option json)
    (tasks phase_encodings : str_or_list) (kwargs : kwargs) : res grabber :=
  (self_tasks <-
     match tasks with
     | ArgNone => Ok all_tasks
     | ArgStr task =>
         _ <- check_each [task] all_tasks task_message ;; Ok [task]
     | ArgList tasks =>
         _ <- check_each tasks all_tasks task_message ;; Ok tasks
     end ;;
   let phase_encodings :=
     match phase_encodings with
     | ArgNone => all_phase_encodings
     | ArgStr pe => [pe]
     | ArgList pes => pes
     end in
   _ <- check_each phase_encodings all_phase_encodings
                   phase_encoding_message ;;
   let replacements := [ "subject"; "task"; "phase_encoding" ] in
   base <- super__init__ types datadir uri (JDict patterns) replacements
                         "adhoc" kwargs ;;
   Ok (mkGrabber self_tasks phase_encodings base))%res.

Definition get_item (self : grabber) (subject task phase_encoding : string)
  : res Item :=
  let names := new_names task phase_encoding in
  super_get_item (base self) subject (fst names) (snd names).

Definition get_elements (self : grabber)
  : res (list (string * string * string)) :=
  (entries <- datadir_iterdir (base self) ;;
   subjects <-
     map_res (fun x => list_getitem (split "-" (fst x)) 1)
             (filter (fun x => snd x && contains "sub" (fst x)) entries) ;;
   Ok (product3 subjects (tasks self) (phase_encodings self)))%res.

End Grabber.

End HCPCATConfounds.

Module JuselessDataladHCP1200.

Definition uri : string :=
  "/data/group/appliedml/datalad-datasets/" ++
  "human-connectome-project-openaccess.git".

Definition rootdir : string := "HCP1200".

Section Grabber.

(** [HCP1200]: the state set up by junifer's [DataladDataGrabber] and
    [HCP1200] constructors. *)
Context {HCP1200 : Type}.

Variable super__init__ :
  option json -> str_or_list -> str_or_list -> string -> string -> bool ->
  res HCP1200.

Definition __init__ (datadir : option json)
    (tasks phase_encodings : str_or_list) (ica_fix : bool) : res HCP1200 :=
  super__init__ datadir tasks phase_encodings uri rootdir ica_fix.

(** The call [JuselessDataladHCP1200(tasks=..., phase_encodings=...,
    ica_fix=..., and the keywords of a dict)]: the constructor names
    [datadir], [tasks], [phase_encodings] and [ica_fix] and collects no
    other keyword, so the first other key of the dict is refused. *)
Definition call_with (tasks phase_encodings : str_or_list) (ica_fix : bool)
    (kwargs : kwargs) : res HCP1200 :=
  match dict_pop kwargs "datadir" with
  | (k, _) :: _ =>
      Raise (TypeError ("got an unexpected keyword argument '" ++ k ++ "'"))
  | [] => __init__ (dict_get kwargs "datadir") tasks phase_encodings ica_fix
  end.

Definition skip_file_check (self : HCP1200) : bool := true.

End Grabber.

End JuselessDataladHCP1200.

Module MultipleHCP.

Section Grabber.

Context {HCP1200 Base Multi : Type}.

Variable HCP1200__init__ :
  option json -> str_or_list -> str_or_list -> string -> string -> bool ->
  res HCP1200.
Variable PatternDataladDataGrabber__init__ :
  list string -> option json -> string -> json -> list string -> string ->
  kwargs -> res Base.
(** [MultipleDataGrabber.__init__(datagrabbers=[dg1, dg2], and the other
    keywords)] *)
Variable super__init__ :
  HCP1200 -> @HCPCATConfounds.grabber Base -> kwargs -> res Multi.

(** [kwargs] holds the keywords other than [tasks], [phase_encodings] and
    [ica_fix], which are parameters of this constructor.  The confounds
    grabber is called with the keywords of [kwargs] only: [datadir], if
    present, binds its parameter and the others are collected. *)
Definition __init__ (tasks phase_encodings : str_or_list) (ica_fix : bool)
    (kwargs : kwargs) : res Multi :=
  (dg1 <- JuselessDataladHCP1200.call_with HCP1200__init__
            tasks phase_encodings ica_fix kwargs ;;
   let kwargs := dict_set kwargs "partial_pattern_ok" (JBool true) in
   dg2 <- HCPCATConfounds.__init__ PatternDataladDataGrabber__init__
            (dict_get kwargs "datadir") ArgNone ArgNone
            (dict_pop kwargs "datadir") ;;
   super__init__ dg1 dg2 kwargs)%res.

End Grabber.

End MultipleHCP.

End HCPYAConfoundsCat.

(** * [hcp_ya_concatenated.py] *)

Module HCP_YA_Concatenated.

Import Py.
Import HCPYAConfoundsCat.

Definition junifer_module_deps : list string := [ "hcp_ya_confounds_cat.py" ].

Definition all_tasks : list string :=
  [ "SOCIAL"; "WM"; "RELATIONAL"; "EMOTION"; "LANGUAGE"; "GAMBLING"; "MOTOR" ].

Definition all_pe : list string := [ "LR"; "RL" ].

(** The elements [__getitem__] asks its parent for: task by task, both
    phase encodings of each. *)
Definition requested (subject : string) : list (string * string * string) :=
  flat_map (fun task => map (fun pe => (subject, task, pe)) all_pe) all_tasks.

(** What the process does while [__getitem__] runs, in order. *)
Inductive event : Type :=
| Fetch (element : string * string * string)
| LogInfo (msg : string)
| ConcatImages (paths : list json)
| ReadCsv (path : json)
| ConcatFrames
| TempDir (prefix : string)
| SaveImage
| SaveFrame.

Definition emit (e : event) : M (list event) unit :=
  fun tr => (Ok tt, tr ++ [e])%list.

(** A call of a collaborator: it is recorded, whether it returns or
    raises. *)
Definition call {A} (e : event) (r : res A) : M (list event) A :=
  fun tr => (r, tr ++ [e])%list.

Section Grabber.

(** [Multi]: the state of the parent [MultipleHCP]; [Image], [Frame],
    [Path]: a NIfTI image, a data frame, a filesystem path. *)
Context {HCP1200 Base Multi Image Frame Path : Type}.

Variable HCP1200__init__ :
  option json -> str_or_list -> str_or_list -> string -> string -> bool ->
  res HCP1200.
Variable PatternDataladDataGrabber__init__ :
  list string -> option json -> string -> json -> list string -> string ->
  kwargs -> res Base.
Variable MultipleDataGrabber__init__ :
  HCP1200 -> @HCPCATConfounds.grabber Base -> kwargs -> res Multi.

(** [MultipleDataGrabber.get_elements] and [__getitem__]; the order in
    which a set of strings is iterated; [nib.concat_images(_, axis=3)],
    [pd.read_csv(_, sep=tab)], [pd.concat], [WorkDirManager()
    .get_element_tempdir], the [/] of paths, [nib.save], [to_csv], and a
    path as a value of a dictionary. *)
Variable super_get_elements : Multi -> res (list (string * string * string)).
Variable super_getitem : Multi -> string * string * string -> res json.
Variable set_iteration : list string -> list string.
Variable concat_images : list json -> res Image.
Variable read_csv : json -> res Frame.
Variable pd_concat : list Frame -> res Frame.
Variable get_element_tempdir : string -> res Path.
Variable joinpath : Path -> string -> Path.
Variable nib_save : Image -> Path -> res unit.
Variable to_csv : Frame -> Path -> res unit.
Variable json_of_path : Path -> json.

(** [super().__init__(tasks=None, phase_encodings=None, ica_fix=False, and
    the keywords of kwargs)]: a keyword given twice is refused where the
    call is made. *)
Definition __init__ (kwargs : kwargs) : res Multi :=
  match filter (fun kv => str_in (fst kv)
                            [ "tasks"; "phase_encodings"; "ica_fix" ]) kwargs with
  | (k, _) :: _ =>
      Raise (TypeError
               ("got multiple values for keyword argument '" ++ k ++ "'"))
  | [] =>
      MultipleHCP.__init__ HCP1200__init__ PatternDataladDataGrabber__init__
        MultipleDataGrabber__init__ ArgNone ArgNone false kwargs
  end.

(** The set comprehension keeps one copy of each subject; the list is the
    set in its iteration order. *)
Definition get_elements (self : Multi) : res (list string) :=
  (all_elements <- super_get_elements self ;;
   Ok (set_iteration
         (nodup string_dec (map (fun element => fst (fst element))
                                all_elements))))%res.

Fixpoint fetch_all (self : Multi) (elements : list (string * string * string))
  : M (list event) (list json) :=
  match elements with
  | [] => st_ret []
  | element :: elements' =>
      (data <- call (Fetch element) (super_getitem self element) ;;
       all_data <- fetch_all self elements' ;;
       st_ret (data :: all_data))%st
  end.

Fixpoint read_all (all_confounds : list json) : M (list event) (list Frame) :=
  match all_confounds with
  | [] => st_ret []
  | conf :: confs =>
      (frame <- call (ReadCsv conf) (read_csv conf) ;;
       frames <- read_all confs ;;
       st_ret (frame :: frames))%st
  end.

Definition __getitem__ (self : Multi) (subject : string)
  : M (list event) json :=
  (all_data <- fetch_all self (requested subject) ;;
   paths <- st_lift
     (map_res (fun data =>
                 (bold <- json_get_path data [ "BOLD"; "path" ] ;;
                  conf <- json_get_path data [ "BOLD"; "confounds"; "path" ] ;;
                  Ok (bold, conf))%res)
              all_data) ;;
   let all_bolds := map fst paths in
   let all_confounds := map snd paths in
   emit (LogInfo "Concatenating BOLD images and confounds") ;;;
   concat_img <- call (ConcatImages all_bolds) (concat_images all_bolds) ;;
   frames <- read_all all_confounds ;;
   concat_confounds <- call ConcatFrames (pd_concat frames) ;;
   emit (LogInfo "Saving concatenated BOLD images and confounds") ;;;
   tmpdir <- call (TempDir "hcp_ya_concat")
                  (get_element_tempdir "hcp_ya_concat") ;;
   let concat_bold_fname := joinpath tmpdir "concat_bold.nii.gz" in
   let concat_confounds_fname := joinpath tmpdir "concat_confounds.tsv" in
   call SaveImage (nib_save concat_img concat_bold_fname) ;;;
   call SaveFrame (to_csv concat_confounds concat_confounds_fname) ;;;
   new_data <- st_lift (list_getitem all_data 0) ;;
   new_data <- st_lift (json_set_path new_data [ "BOLD"; "path" ]
                          (json_of_path concat_bold_fname)) ;;
   new_data <- st_lift (json_set_path new_data
                          [ "BOLD"; "confounds"; "path" ]
                          (json_of_path concat_confounds_fname)) ;;
   new_data <- st_lift (json_set_path new_data [ "BOLD"; "meta"; "element" ]
                          (JDict [ ("subject", JStr subject) ])) ;;
   st_ret new_data)%st.

End Grabber.

End HCP_YA_Concatenated.

(** * Concrete datasets and collaborators for the datagrabbers *)

Module GrabberCases.

Import Py.

(** A pattern grabber that always constructs, and shows the path keys it
    was asked for. *)
Definition pattern_init (types : list string) (datadir : option string)
    (patterns : json) (replacements : list string) (confounds_format : string)
  : res unit := Ok tt.

Definition pattern_init_d (types : list string) (datadir : string)
    (patterns : json) (replacements : list string) : res unit := Ok tt.

Definition pattern_get_item (self : unit) (subject task phase_encoding : string)
  : res string :=
  Ok (subject ++ "/" ++ task ++ "_" ++ phase_encoding).

(** A data directory with two subjects and a stray file. *)
Definition aging_dir (self : unit) : res (list string) :=
  Ok [ "HCA6002236_V1_MR"; "README.md"; "HCA6010538_V1_MR" ].

Definition aging_rest : @HCPAging.grabber unit :=
  HCPAging.mkGrabber [ "REST1" ] [ "AP"; "PA" ] tt.

Definition develop_dir (self : unit) : res (list string) :=
  Ok [ "HCD0001305_V1_MR"; "HCD0008117_V1_MR" ].

(** The confounds dataset: two subjects, a file, and a directory whose name
    holds "sub" but no dash. *)
Definition cat_dir (self : unit) : res (list (string * bool)) :=
  Ok [ ("sub-100307", true); ("dataset_description.json", false);
       ("sub-100408", true) ].

Definition cat_dir_with_subjects_folder (self : unit)
  : res (list (string * bool)) :=
  Ok [ ("sub-100307", true); ("subjects", true) ].

Definition cat_all : @HCPYAConfoundsCat.HCPCATConfounds.grabber unit :=
  HCPYAConfoundsCat.HCPCATConfounds.mkGrabber [ "REST1"; "WM" ] [ "LR" ] tt.

(** An early-psychosis item as the pattern grabber returns it. *)
Definition ep_item : json :=
  JDict [ ("BOLD", JDict [ ("path", JStr "1001_01_MR/rfMRI_REST1_AP.nii.gz") ]);
          ("BOLD_confounds",
           JDict [ ("path", JStr "HCP_EP_confounds/1001_01_MR/Confounds.tsv") ]) ].

Definition ep_get_item (self : unit) (subject task phase_encoding : string)
  : res json := Ok ep_item.

Definition ep_get_item_bold_only (self : unit)
    (subject task phase_encoding : string) : res json :=
  Ok (JDict [ ("BOLD", JDict [ ("path", JStr "1001_01_MR/rfMRI_REST1_AP.nii.gz") ]) ]).

Definition ep_grabber : @HCPEarlyPsychosis.grabber unit :=
  HCPEarlyPsychosis.mkGrabber [ "REST1"; "REST2" ] [ "AP"; "PA" ] tt.

(** The collaborators of the multiple grabber. *)
Definition hcp1200_init (datadir : option json)
    (tasks phase_encodings : str_or_list) (uri rootdir : string)
    (ica_fix : bool) : res unit := Ok tt.

Definition datalad_init (types : list string) (datadir : option json)
    (uri : string) (patterns : json) (replacements : list string)
    (confounds_format : string) (kwargs : HCPYAConfoundsCat.kwargs)
  : res unit := Ok tt.

(** A multiple grabber that keeps the confounds grabber it was given. *)
Definition multiple_init (dg1 : unit)
    (dg2 : @HCPYAConfoundsCat.HCPCATConfounds.grabber unit)
    (kwargs : HCPYAConfoundsCat.kwargs)
  : res (@HCPYAConfoundsCat.HCPCATConfounds.grabber unit) := Ok dg2.

(** The concatenating grabber: every element of a subject is there, a
    temporary directory is given, every file operation succeeds. *)
Definition ya_item (element : string * string * string) : json :=
  let subject := fst (fst element) in
  let task := snd (fst element) in
  let pe := snd element in
  JDict
    [ ("BOLD",
       JDict [ ("path", JStr (subject ++ "/tfMRI_" ++ task ++ "_" ++ pe ++ ".nii.gz"));
               ("space", JStr "MNI152NLin6Asym");
               ("confounds",
                JDict [ ("path", JStr (subject ++ "_" ++ task ++ pe ++ ".tsv"));
                        ("format", JStr "adhoc") ]);
               ("meta",
                JDict [ ("element",
                         JDict [ ("subject", JStr subject);
                                 ("task", JStr task);
                                 ("phase_encoding", JStr pe) ]) ]) ]);
      ("T1w", JDict [ ("path", JStr (subject ++ "/T1w.nii.gz")) ]) ].

Definition ya_getitem (self : unit) (element : string * string * string)
  : res json := Ok (ya_item element).

(** The same dataset without the RL run of the working-memory task. *)
Definition ya_getitem_gap (self : unit) (element : string * string * string)
  : res json :=
  if String.eqb (snd (fst element)) "WM" && String.eqb (snd element) "RL"
  then Raise (ExternalError "no such element")
  else Ok (ya_item element).

Definition ya_elements (self : unit) : res (list (string * string * string)) :=
  Ok [ ("100307", "REST1", "LR"); ("100307", "REST1", "RL");
       ("100408", "REST1", "LR"); ("100307", "WM", "LR") ].

Definition as_listed (l : list string) : list string := l.

Definition images_ok (paths : list json) : res nat := Ok (List.length paths).
Definition frame_ok (path : json) : res nat := Ok 1%nat.
Definition frames_ok (frames : list nat) : res nat := Ok (List.length frames).
Definition tempdir_ok (prefix : string) : res string :=
  Ok ("/tmp/" ++ prefix).
Definition slash (dir name : string) : string := dir ++ "/" ++ name.
Definition save_ok (img : nat) (path : string) : res unit := Ok tt.

End GrabberCases.

(** * A metric function that raises *)

Module MetricCases.

Import BCTPYSpheres.

(** [bct.algorithms.degrees_und] as in [Examples], on any value: it first
    takes a copy of its argument, which a value that is not an array does
    not offer. *)
Definition degrees_und (v : Examples.bvalue) : res (list Z) :=
  match v with
  | VArray g => Ok (Examples.sum_axis0 (Examples.binarize g))
  | _ => Raise (ExternalError
                  "AttributeError: 'str' object has no attribute 'copy'")
  end.

End MetricCases.

(** * Phases on binary64 entries, for running the coherence expression *)

Module CoherenceCases.

Import PrimFloat InstantPhaseConnectivityBase.Float64.

(** A cosine to run the expression with: the polynomial
    1 - x^2/2 + x^4/24 in binary64 arithmetic.  Like the library's cosine
    it is 1.0 at 0.0, even, and NaN at NaN. *)
Definition cos_poly (x : float) : float :=
  let y := (x * x)%float in (1 - y * (0.5 - y / 24))%float.

(** Phases of two timepoints and two regions. *)
Definition phases : matrix :=
  [ [0.25; 0.5]; [3; -1.25] ]%float.

(** The same, with a first region that was constant over time: its
    z-score is 0/0 at every timepoint, and so is its phase. *)
Definition phases_constant_region : matrix :=
  [ [nan; 0.5]; [nan; -1.25] ]%float.

End CoherenceCases.

(** * Properties *)

Open Scope list_scope.

(** ** The memoized estimator *)

Section EstimatorFacts.

Import BCTPYSpheresEstimator.

Context {Result : Type}.

(** *** Keys *)

Lemma pyval_eqb_refl_hashable (v : pyval) :
  hashable v = true -> pyval_eqb v v = true.
Proof.
  destruct v; simpl; intros H; try discriminate.
  - reflexivity.
  - apply Bool.eqb_reflx.
  - apply Z.eqb_refl.
  - apply Qeq_bool_iff. reflexivity.
  - apply String.eqb_refl.
  - apply Pos.eqb_refl.
Qed.

Lemma list_eqb_refl {A} (eqb : A -> A -> bool) (ok : A -> bool) (xs : list A) :
  (forall x, ok x = true -> eqb x x = true) ->
  forallb ok xs = true -> list_eqb eqb xs xs = true.
Proof.
  intros Hrefl. induction xs as [|x xs IH]; simpl; [reflexivity|].
  intros H. apply andb_true_iff in H as [Hx Hxs].
  rewrite (Hrefl x Hx). now apply IH.
Qed.

Lemma _make_key_inv args kwds key :
  _make_key args kwds = Ok key ->
  key = (args, kwds) /\
  forallb hashable args = true /\
  forallb (fun kv => hashable (snd kv)) kwds = true.
Proof.
  unfold _make_key.
  destruct (forallb hashable args) eqn:Ha; simpl; [|discriminate].
  destruct (forallb (fun kv => hashable (snd kv)) kwds) eqn:Hk; [|discriminate].
  intros H. inversion H. auto.
Qed.

Lemma key_eqb_refl args kwds key :
  _make_key args kwds = Ok key -> key_eqb key key = true.
Proof.
  intros H. apply _make_key_inv in H as [-> [Ha Hk]].
  unfold key_eqb. simpl. apply andb_true_iff. split.
  - apply (list_eqb_refl pyval_eqb hashable); [|assumption].
    apply pyval_eqb_refl_hashable.
  - apply (list_eqb_refl kw_eqb (fun kv => hashable (snd kv))); [|assumption].
    intros [k v] Hv. unfold kw_eqb. simpl in *.
    now rewrite String.eqb_refl, pyval_eqb_refl_hashable.
Qed.

(** *** The cache wrapper, for any wrapped function *)

Section Wrapper.

Variable f : list pyval -> kwargs -> res Result.

Lemma lru_hit args kwds key r (st : @estimator Result) :
  _make_key args kwds = Ok key ->
  cache_get key (_cache st) = Some r ->
  lru_cache_wrapper f args kwds st = (Ok r, st).
Proof.
  intros Hk Hc. unfold lru_cache_wrapper, st_bind, st_lift.
  now rewrite Hk, Hc.
Qed.

Lemma lru_miss_ok args kwds key r (st : @estimator Result) :
  _make_key args kwds = Ok key ->
  cache_get key (_cache st) = None ->
  f args kwds = Ok r ->
  lru_cache_wrapper f args kwds st =
    (Ok r, mkEstimator (_file_path st) ((key, r) :: _cache st)
                       (events st ++ [CallWrapped args kwds])).
Proof.
  intros Hk Hc Hf.
  unfold lru_cache_wrapper, st_bind, st_lift, emit, cache_store, st_ret.
  rewrite Hk, Hc, Hf. reflexivity.
Qed.

(** A raise of the wrapped function stores nothing. *)
Lemma lru_miss_raise args kwds key e (st : @estimator Result) :
  _make_key args kwds = Ok key ->
  cache_get key (_cache st) = None ->
  f args kwds = Raise e ->
  lru_cache_wrapper f args kwds st =
    (Raise e, mkEstimator (_file_path st) (_cache st)
                          (events st ++ [CallWrapped args kwds])).
Proof.
  intros Hk Hc Hf.
  unfold lru_cache_wrapper, st_bind, st_lift, emit, cache_store, st_ret.
  rewrite Hk, Hc, Hf. reflexivity.
Qed.

Lemma lru_unhashable args kwds e (st : @estimator Result) :
  _make_key args kwds = Raise e ->
  lru_cache_wrapper f args kwds st = (Raise e, st).
Proof.
  intros Hk. unfold lru_cache_wrapper, st_bind, st_lift. now rewrite Hk.
Qed.

(** After a miss that returns, the same call is served from the table and
    the wrapped function is not called again. *)
Lemma lru_second_call_hits args kwds key r (st : @estimator Result) :
  _make_key args kwds = Ok key ->
  cache_get key (_cache st) = None ->
  f args kwds = Ok r ->
  let st1 := snd (lru_cache_wrapper f args kwds st) in
  lru_cache_wrapper f args kwds st1 = (Ok r, st1).
Proof.
  intros Hk Hc Hf. rewrite (lru_miss_ok _ _ _ _ _ Hk Hc Hf). simpl.
  apply (lru_hit _ _ key); [assumption|]. simpl.
  now rewrite (key_eqb_refl _ _ _ Hk).
Qed.

End Wrapper.

(** *** Equality of values is reflexive *)

Lemma pyval_eqb_refl (v : pyval) : pyval_eqb v v = true.
Proof.
  revert v. fix pyval_eqb_refl 1. intros v.
  destruct v as [ | b | z | q | s | id | items | items ]; simpl.
  - reflexivity.
  - apply Bool.eqb_reflx.
  - apply Z.eqb_refl.
  - apply Qeq_bool_iff. reflexivity.
  - apply String.eqb_refl.
  - apply Pos.eqb_refl.
  - induction items as [|x xs IH]; [reflexivity|].
    rewrite (pyval_eqb_refl x). exact IH.
  - induction items as [|[k x] xs IH]; [reflexivity|].
    rewrite String.eqb_refl, (pyval_eqb_refl x). exact IH.
Qed.

Lemma py_ne_same (v : pyval) : py_ne v v = false.
Proof. unfold py_ne. now rewrite pyval_eqb_refl. Qed.

(** *** [_compute] and [fit_transform] as written *)

Variable fcs : kwargs -> res Result.

(** [_compute] has no [data] parameter: a call that passes one positional
    argument and the keyword [data] first raises before the body runs. *)
Lemma _compute_rejects_data (a d : pyval) (kwds : kwargs) :
  _compute fcs [a] (("data", d) :: kwds) = Raise unexpected_data.
Proof. reflexivity. Qed.

(** The state in which the cache is consulted: after the identity check. *)
Lemma fit_transform_eq input p (st : @estimator Result) bold_path bold_data :
  getitem input "path" = Ok bold_path ->
  getitem input "data" = Ok bold_data ->
  fit_transform fcs input p st =
    lru_cache_wrapper (_compute fcs) [self_ref] (_compute_kwds bold_data p)
      (if py_ne (_file_path st) bold_path
       then mkEstimator bold_path []
              (events st ++ [LogInfo (Removing_cache_at (_file_path st))])
       else mkEstimator (_file_path st) (_cache st)
              (events st ++ [LogInfo (Using_cache_at (_file_path st))])).
Proof.
  intros Hp Hd. unfold fit_transform.
  unfold st_bind at 1. unfold st_lift at 1. rewrite Hp.
  unfold st_bind at 1. unfold st_lift at 1. rewrite Hd.
  unfold st_bind at 1.
  destruct (py_ne (_file_path st) bold_path); reflexivity.
Qed.

(** With an empty table every call raises, and leaves the table empty. *)
Lemma fit_transform_empty_cache input p (st : @estimator Result) :
  _cache st = [] ->
  (exists e, fst (fit_transform fcs input p st) = Raise e) /\
  _cache (snd (fit_transform fcs input p st)) = [].
Proof.
  intros Hc.
  destruct (getitem input "path") as [bold_path|e1] eqn:Hp.
  2:{ unfold fit_transform, st_bind, st_lift. rewrite Hp. simpl. eauto. }
  destruct (getitem input "data") as [bold_data|e2] eqn:Hd.
  2:{ unfold fit_transform, st_bind, st_lift. rewrite Hp, Hd. simpl. eauto. }
  rewrite (fit_transform_eq _ _ _ _ _ Hp Hd).
  set (mid := if py_ne (_file_path st) bold_path then _ else _).
  assert (Hmid : _cache mid = []).
  { subst mid. destruct (py_ne (_file_path st) bold_path); simpl; auto. }
  destruct (_make_key [self_ref] (_compute_kwds bold_data p)) as [key|e] eqn:Hk.
  - rewrite (lru_miss_raise _ _ _ key unexpected_data mid Hk).
    + simpl. eauto.
    + now rewrite Hmid.
    + apply _compute_rejects_data.
  - rewrite (lru_unhashable _ _ _ e mid Hk). simpl. eauto.
Qed.

Lemma reachable_cache_empty (st : @estimator Result) :
  reachable fcs st -> _cache st = [].
Proof.
  induction 1 as [|st input p Hr IH]; [reflexivity|].
  now apply fit_transform_empty_cache.
Qed.

(** No call of a run returns a result. *)
Lemma reachable_call_raises input p (st : @estimator Result) :
  reachable fcs st -> exists e, fst (fit_transform fcs input p st) = Raise e.
Proof.
  intros Hr. apply fit_transform_empty_cache. now apply reachable_cache_empty.
Qed.

(** A call under a new identity, in any state of the table: the notice is
    logged, the whole table is dropped, the new identity is recorded and the
    wrapped function is called; nothing stored before is returned. *)
Lemma identity_change_discards_cache input p (st : @estimator Result)
    bold_path bold_data key :
  getitem input "path" = Ok bold_path ->
  getitem input "data" = Ok bold_data ->
  _make_key [self_ref] (_compute_kwds bold_data p) = Ok key ->
  py_ne (_file_path st) bold_path = true ->
  fit_transform fcs input p st =
    (Raise unexpected_data,
     mkEstimator bold_path []
       (events st ++ [LogInfo (Removing_cache_at (_file_path st));
                      CallWrapped [self_ref] (_compute_kwds bold_data p)])).
Proof.
  intros Hp Hd Hk Hne. rewrite (fit_transform_eq _ _ _ _ _ Hp Hd), Hne.
  rewrite (lru_miss_raise _ _ _ key unexpected_data _ Hk); simpl.
  - now rewrite <- app_assoc.
  - reflexivity.
  - apply _compute_rejects_data.
Qed.

(** C1 (as the code behaves): the call [self._compute(data=bold_data, ...)]
    never binds, since [_compute] has neither a [self] nor a [data]
    parameter.  In every state of a run, a call of [fit_transform] and the
    identical call after it both raise; neither returns a result, and the
    table stays empty, so nothing is ever served from the cache. *)
Theorem fit_transform_successive_calls_raise
    (st : @estimator Result) (input : kwargs) (p : fc_params) :
  reachable fcs st ->
  let run1 := fit_transform fcs input p st in
  let run2 := fit_transform fcs input p (snd run1) in
  (exists e, fst run1 = Raise e) /\ (exists e, fst run2 = Raise e) /\
  _cache (snd run1) = [] /\ _cache (snd run2) = [].
Proof.
  intros Hr run1 run2.
  assert (Hr1 : reachable fcs (snd run1)) by now apply reachable_call.
  assert (Hr2 : reachable fcs (snd run2)) by now apply reachable_call.
  repeat split.
  - now apply reachable_call_raises.
  - now apply reachable_call_raises.
  - now apply reachable_cache_empty.
  - now apply reachable_cache_empty.
Qed.

(** C7: when the wrapped function is called and raises, [fit_transform]
    raises the same exception, the table is as it was before the call and
    has no entry under the call's key, and the identical call after it does
    not find a stored failure: it calls the wrapped function again (a new
    [CallWrapped] event) and raises again. *)
Theorem failure_is_not_cached
    (st : @estimator Result) (input : kwargs) (p : fc_params)
    (bold_path bold_data : pyval) (key : cache_key) (e : exn) :
  reachable fcs st ->
  getitem input "path" = Ok bold_path ->
  getitem input "data" = Ok bold_data ->
  _make_key [self_ref] (_compute_kwds bold_data p) = Ok key ->
  _compute fcs [self_ref] (_compute_kwds bold_data p) = Raise e ->
  let run1 := fit_transform fcs input p st in
  let run2 := fit_transform fcs input p (snd run1) in
  fst run1 = Raise e /\
  _cache (snd run1) = _cache st /\
  cache_get key (_cache (snd run1)) = None /\
  fst run2 = Raise e /\
  _cache (snd run2) = _cache (snd run1) /\
  events (snd run2) =
    (events (snd run1) ++
       [LogInfo (Using_cache_at (_file_path (snd run1)));
        CallWrapped [self_ref] (_compute_kwds bold_data p)])%list.
Proof.
  intros Hr Hp Hd Hk He run1 run2.
  pose proof (reachable_cache_empty st Hr) as Hc.
  assert (H1 : exists fp,
             run1 = (Raise e,
                     mkEstimator fp []
                       (events st ++
                          [LogInfo (if py_ne (_file_path st) bold_path
                                    then Removing_cache_at (_file_path st)
                                    else Using_cache_at (_file_path st));
                           CallWrapped [self_ref] (_compute_kwds bold_data p)]))
             /\ py_ne fp bold_path = false).
  { subst run1. rewrite (fit_transform_eq _ _ _ _ _ Hp Hd).
    destruct (py_ne (_file_path st) bold_path) eqn:Hne.
    - exists bold_path. split; [|apply py_ne_same].
      rewrite (lru_miss_raise _ _ _ key e _ Hk); simpl; auto.
      now rewrite <- app_assoc.
    - exists (_file_path st). split; [|assumption].
      rewrite (lru_miss_raise _ _ _ key e _ Hk); simpl; auto.
      + now rewrite <- app_assoc, Hc.
      + now rewrite Hc. }
  destruct H1 as [fp [H1 Hfp]].
  assert (H2 : run2 =
               (Raise e,
                mkEstimator fp []
                  (events (snd run1) ++
                     [LogInfo (Using_cache_at fp);
                      CallWrapped [self_ref] (_compute_kwds bold_data p)]))).
  { subst run2. rewrite (fit_transform_eq _ _ _ _ _ Hp Hd).
    rewrite H1. simpl. rewrite Hfp.
    rewrite (lru_miss_raise _ _ _ key e _ Hk); simpl; auto.
    now rewrite <- app_assoc. }
  rewrite H2, H1. simpl. rewrite Hc. repeat split; reflexivity.
Qed.

End EstimatorFacts.

(** The run of C1 on one input, twice: both calls raise the [TypeError] of
    the [data] keyword, each after one call of the wrapped function, and
    nothing is stored. *)
Example fit_transform_sub01_twice :
  fst (BCTPYSpheresEstimator.fit_transform Examples.fcs_ok Examples.sub01
         Examples.dmn_params BCTPYSpheresEstimator.__init__)
    = Raise BCTPYSpheresEstimator.unexpected_data /\
  BCTPYSpheresEstimator.fit_transform Examples.fcs_ok Examples.sub01
    Examples.dmn_params Examples.after_sub01
    = (Raise BCTPYSpheresEstimator.unexpected_data,
       BCTPYSpheresEstimator.mkEstimator
         (BCTPYSpheresEstimator.PyStr "sub-01_task-rest_bold.nii.gz") []
         (BCTPYSpheresEstimator.events Examples.after_sub01 ++
            [BCTPYSpheresEstimator.LogInfo
               (BCTPYSpheresEstimator.Using_cache_at
                  (BCTPYSpheresEstimator.PyStr "sub-01_task-rest_bold.nii.gz"));
             BCTPYSpheresEstimator.CallWrapped
               [BCTPYSpheresEstimator.self_ref]
               (BCTPYSpheresEstimator._compute_kwds
                  (BCTPYSpheresEstimator.PyObj 2) Examples.dmn_params)])).
Proof. split; reflexivity. Qed.

Lemma fit_transform_successive_calls_raise_witness :
  let run1 :=
    BCTPYSpheresEstimator.fit_transform Examples.fcs_ok Examples.sub01
      Examples.dmn_params Examples.after_sub01 in
  let run2 :=
    BCTPYSpheresEstimator.fit_transform Examples.fcs_ok Examples.sub01
      Examples.dmn_params (snd run1) in
  (exists e, fst run1 = Raise e) /\ (exists e, fst run2 = Raise e) /\
  BCTPYSpheresEstimator._cache (snd run1) = [] /\
  BCTPYSpheresEstimator._cache (snd run2) = [].
Proof.
  apply (fit_transform_successive_calls_raise Examples.fcs_ok).
  apply BCTPYSpheresEstimator.reachable_call.
  apply BCTPYSpheresEstimator.reachable_init.
Defined.

Lemma failure_is_not_cached_witness :
  let run1 :=
    BCTPYSpheresEstimator.fit_transform Examples.fcs_ok Examples.sub01
      Examples.dmn_params BCTPYSpheresEstimator.__init__ in
  let run2 :=
    BCTPYSpheresEstimator.fit_transform Examples.fcs_ok Examples.sub01
      Examples.dmn_params (snd run1) in
  fst run1 = Raise BCTPYSpheresEstimator.unexpected_data /\
  fst run2 = Raise BCTPYSpheresEstimator.unexpected_data /\
  BCTPYSpheresEstimator._cache (snd run2) = [].
Proof.
  pose proof
    (failure_is_not_cached Examples.fcs_ok BCTPYSpheresEstimator.__init__
       Examples.sub01 Examples.dmn_params _ _ _ _
       (BCTPYSpheresEstimator.reachable_init _)
       eq_refl eq_refl eq_refl eq_refl) as H.
  cbv zeta in H. destruct H as (H1 & _ & _ & H2 & _ & _).
  intros run1 run2. split; [exact H1 | split; [exact H2 | reflexivity]].
Defined.

(** ** The graph-metric marker *)

Section GraphMetricFacts.

Import BCTPYSpheres.

Context {Array MetricVal Parent ParentArgs Input : Type}.
Variable degrees_und : @value Array MetricVal -> res MetricVal.
Variable super__init__ : ParentArgs -> res Parent.
Variable super_compute :
  Parent -> Input -> option Input -> res (@result Array MetricVal).

Lemma evaluated_app (tr1 tr2 : list event) :
  evaluated (tr1 ++ tr2) = (evaluated tr1 ++ evaluated tr2)%list.
Proof.
  induction tr1 as [|[msg|m] tr1 IH]; simpl; [reflexivity | exact IH |].
  now rewrite IH.
Qed.

Lemma evaluated_map_Evaluate (ms : list string) :
  evaluated (map Evaluate ms) = ms.
Proof. induction ms as [|m ms IH]; simpl; [reflexivity | now rewrite IH]. Qed.

(** The loop goes through a prefix of metrics that evaluate, one
    [Evaluate] event each. *)
Lemma metrics_loop_prefix (pre rest : list string) graph :
  Forall (evaluates degrees_und graph) pre ->
  forall acc tr, exists vals,
    metrics_loop degrees_und (pre ++ rest) graph acc tr =
    metrics_loop degrees_und rest graph (acc ++ vals)
                 (tr ++ map Evaluate pre).
Proof.
  induction 1 as [|m pre [f [v [Hf Hv]]] Hpre IH]; intros acc tr.
  - exists []. simpl. now rewrite !app_nil_r.
  - destruct (IH (acc ++ [v])%list (tr ++ [Evaluate m])%list) as [vals Hvals].
    exists (v :: vals). simpl app at 1. cbn [metrics_loop].
    unfold st_bind at 1. unfold st_lift at 1. unfold getitem. rewrite Hf.
    unfold st_bind at 1. unfold emit at 1.
    unfold st_bind at 1. unfold st_lift at 1. rewrite Hv.
    rewrite Hvals. simpl map. now rewrite <- !app_assoc.
Qed.

(** The loop stops at a name that is not registered. *)
Lemma metrics_loop_unknown (u : string) (post : list string) graph acc tr :
  dict_get (_metrics_dict degrees_und) u = None ->
  metrics_loop degrees_und (u :: post) graph acc tr = (Raise (KeyError u), tr).
Proof.
  intros Hu. cbn [metrics_loop]. unfold st_bind, st_lift, getitem.
  now rewrite Hu.
Qed.

(** C6 (amended): when the requested list reaches a name [u] that is not
    registered after names that are registered and evaluate, [compute] raises
    [KeyError u] and returns no result; by then every metric before [u] has
    been evaluated on the graph, in the order requested. *)
Theorem unknown_metric_raises_after_prefix
    (self : marker) (input : Input) (extra_input : option Input)
    (tr0 : list event) (pre post : list string) (u : string)
    (conn_out : result) (graph : value) :
  iterate (metrics self) = (pre ++ u :: post)%list ->
  Forall (evaluates degrees_und graph) pre ->
  dict_get (_metrics_dict degrees_und) u = None ->
  super_compute (parent self) input extra_input = Ok conn_out ->
  getitem conn_out "data" = Ok graph ->
  compute degrees_und super_compute self input extra_input tr0 =
    (Raise (KeyError u),
     (tr0 ++ [LogInfo "Computing FC for BCTPY";
              LogInfo "Computing BCTPY markers"] ++ map Evaluate pre)%list)
  /\ evaluated (snd (compute degrees_und super_compute self input
                       extra_input tr0)) = (evaluated tr0 ++ pre)%list.
Proof.
  intros Hit Hpre Hu Hsuper Hdata.
  assert (Hrun :
    compute degrees_und super_compute self input extra_input tr0 =
    (Raise (KeyError u),
     (tr0 ++ [LogInfo "Computing FC for BCTPY";
              LogInfo "Computing BCTPY markers"] ++ map Evaluate pre)%list)).
  { unfold compute.
    unfold st_bind at 1. unfold emit at 1.
    unfold st_bind at 1. unfold st_lift at 1. rewrite Hsuper.
    unfold st_bind at 1. unfold emit at 1.
    unfold st_bind at 1. unfold st_lift at 1. rewrite Hdata.
    unfold st_bind at 1. rewrite Hit.
    destruct (metrics_loop_prefix pre (u :: post) graph Hpre []
                ((tr0 ++ [LogInfo "Computing FC for BCTPY"]) ++
                 [LogInfo "Computing BCTPY markers"])%list) as [vals ->].
    rewrite (metrics_loop_unknown u post graph _ _ Hu).
    now rewrite <- !app_assoc. }
  split; [exact Hrun|].
  rewrite Hrun. cbn [snd]. rewrite evaluated_app. cbn [app evaluated].
  now rewrite evaluated_map_Evaluate.
Qed.

(** C8 (as the code behaves): the dictionary returned by the graph-metric
    marker's [compute] has exactly the keys [data] and [col_names]; it has
    no [row_names] (and no [matrix_kind]). *)
Theorem graph_metric_result_keys
    (self : marker) (input : Input) (extra_input : option Input)
    (tr0 tr : list event) (out : result) :
  compute degrees_und super_compute self input extra_input tr0 = (Ok out, tr) ->
  dict_keys out = ["data"; "col_names"] /\
  dict_get out "row_names" = None /\
  dict_get out "matrix_kind" = None.
Proof.
  unfold compute, st_bind, st_lift, emit, st_ret.
  destruct (super_compute (parent self) input extra_input) as [conn_out|e];
    [|discriminate].
  destruct (getitem conn_out "data") as [graph|e]; [|discriminate].
  destruct (metrics_loop degrees_und (iterate (metrics self)) graph [] _)
    as [[out_vals|e] tr']; [|discriminate].
  intros H. inversion H. subst. repeat split.
Qed.

(** C10: a metric name given as a plain string is stored as the one-element
    list of that string, the stored attribute is a list whatever was given,
    and [compute] cannot tell the two constructions apart. *)
Theorem init_str_is_singleton_list (s : string) (args : ParentArgs) :
  __init__ super__init__ (MetricsStr s) args =
  __init__ super__init__ (MetricsList [s]) args
  /\ (forall m self,
        __init__ super__init__ m args = Ok self ->
        isinstance_list (metrics self) = true)
  /\ (forall self1 self2 input extra_input tr,
        __init__ super__init__ (MetricsStr s) args = Ok self1 ->
        __init__ super__init__ (MetricsList [s]) args = Ok self2 ->
        metrics self1 = MetricsList [s] /\
        compute degrees_und super_compute self1 input extra_input tr =
        compute degrees_und super_compute self2 input extra_input tr).
Proof.
  split; [reflexivity|]. split.
  - intros m self. unfold __init__.
    destruct (super__init__ args) as [base|e]; simpl; [|discriminate].
    intros H. inversion H. subst. destruct m; reflexivity.
  - intros self1 self2 input extra_input tr. unfold __init__.
    destruct (super__init__ args) as [base|e]; simpl; [|discriminate].
    intros H1 H2. inversion H1. inversion H2. subst. split; reflexivity.
Qed.

End GraphMetricFacts.

(** C6 (as stated) fails: the call on [degrees_und] followed by an
    unregistered name raises, but only after [degrees_und] was evaluated. *)
Lemma unknown_metric_after_valid_is_partial :
  ~ BCTPYSpheres.fails_without_partial_computation
      (BCTPYSpheres.compute Examples.degrees_und Examples.fc_spheres_compute
         Examples.mixed_marker "sub-01" None []).
Proof.
  intros [_ H]. vm_compute in H. discriminate H.
Qed.

Lemma unknown_metric_raises_after_prefix_witness :
  BCTPYSpheres.compute Examples.degrees_und Examples.fc_spheres_compute
    Examples.mixed_marker "sub-01" None [] =
    (Raise (KeyError "clustering_coef_bu"),
     [BCTPYSpheres.LogInfo "Computing FC for BCTPY";
      BCTPYSpheres.LogInfo "Computing BCTPY markers";
      BCTPYSpheres.Evaluate "degrees_und"])
  /\ BCTPYSpheres.evaluated
       (snd (BCTPYSpheres.compute Examples.degrees_und
               Examples.fc_spheres_compute Examples.mixed_marker
               "sub-01" None [])) = ["degrees_und"].
Proof.
  apply (unknown_metric_raises_after_prefix
           Examples.degrees_und Examples.fc_spheres_compute
           Examples.mixed_marker "sub-01" None []
           ["degrees_und"] [] "clustering_coef_bu"
           [ ("data", BCTPYSpheres.VArray Examples.path3);
             ("row_names", BCTPYSpheres.VStrs ["PCC"; "MPFC"; "lTPJ"]);
             ("col_names", BCTPYSpheres.VStrs ["PCC"; "MPFC"; "lTPJ"]);
             ("matrix_kind", BCTPYSpheres.VStr "tril") ]
           (BCTPYSpheres.VArray Examples.path3)).
  - reflexivity.
  - constructor; [|constructor].
    exists Examples.degrees_und, [1; 2; 1]%Z. split; reflexivity.
  - reflexivity.
  - reflexivity.
  - reflexivity.
Defined.

Lemma graph_metric_result_keys_witness :
  exists out tr,
    BCTPYSpheres.compute Examples.degrees_und Examples.fc_spheres_compute
      Examples.degree_marker "sub-01" None [] = (Ok out, tr) /\
    dict_keys out = ["data"; "col_names"] /\
    dict_get out "row_names" = None /\
    dict_get out "matrix_kind" = None.
Proof.
  exists [ ("data", BCTPYSpheres.VVals [[1; 2; 1]%Z]);
           ("col_names", BCTPYSpheres.VStrs ["degrees_und"]) ].
  exists [ BCTPYSpheres.LogInfo "Computing FC for BCTPY";
           BCTPYSpheres.LogInfo "Computing BCTPY markers";
           BCTPYSpheres.Evaluate "degrees_und" ].
  split; [reflexivity|].
  apply (graph_metric_result_keys Examples.degrees_und
           Examples.fc_spheres_compute Examples.degree_marker "sub-01" None
           [] _ _ eq_refl).
Defined.

Lemma init_str_is_singleton_list_witness :
  exists self,
    BCTPYSpheres.__init__ Examples.fc_spheres_init
      (BCTPYSpheres.MetricsStr "degrees_und") tt = Ok self /\
    BCTPYSpheres.metrics self = BCTPYSpheres.MetricsList ["degrees_und"] /\
    BCTPYSpheres.compute Examples.degrees_und Examples.fc_spheres_compute
      self "sub-01" None [] =
    BCTPYSpheres.compute Examples.degrees_und Examples.fc_spheres_compute
      Examples.degree_marker "sub-01" None [].
Proof.
  exists Examples.degree_marker. split; [reflexivity|].
  apply (proj2 (proj2 (init_str_is_singleton_list
                         Examples.degrees_und Examples.fc_spheres_init
                         Examples.fc_spheres_compute "degrees_und" tt))
           Examples.degree_marker Examples.degree_marker "sub-01" None []
           eq_refl eq_refl).
Defined.

(** ** The phase-coherence marker *)

Section BroadcastFacts.

Import InstantPhaseConnectivityBase.

Lemma zip_with_repeat_l {X A B C} (f : A -> B -> res C) (b : X -> B)
    (h : X -> C) (x : A) (l : list X) :
  (forall e, In e l -> f x (b e) = Ok (h e)) ->
  zip_with f (repeat x (List.length (map b l))) (map b l) = Ok (map h l).
Proof.
  induction l as [|e l IH]; intros H; simpl; [reflexivity|].
  rewrite (H e (or_introl eq_refl)). simpl.
  rewrite IH; [reflexivity|]. intros e' He'. apply H. now right.
Qed.

Lemma zip_with_repeat_r {A B C} (f : A -> B -> res C) (h : A -> C)
    (xs : list A) (y : B) :
  (forall x, In x xs -> f x y = Ok (h x)) ->
  zip_with f xs (repeat y (List.length xs)) = Ok (map h xs).
Proof.
  induction xs as [|x xs IH]; intros H; simpl; [reflexivity|].
  rewrite (H x (or_introl eq_refl)). simpl.
  rewrite IH; [reflexivity|]. intros x' Hx'. apply H. now right.
Qed.

Lemma zip_with_map {X A B C} (f : A -> B -> res C) (a : X -> A) (b : X -> B)
    (h : X -> C) (l : list X) :
  (forall e, In e l -> f (a e) (b e) = Ok (h e)) ->
  zip_with f (map a l) (map b l) = Ok (map h l).
Proof.
  induction l as [|e l IH]; intros H; simpl; [reflexivity|].
  rewrite (H e (or_introl eq_refl)). simpl.
  rewrite IH; [reflexivity|]. intros e' He'. apply H. now right.
Qed.

(** On axes of the same length a broadcast is the element-wise operation. *)
Lemma broadcast_same_length {A B C} (f : A -> B -> res C) xs ys :
  List.length xs = List.length ys -> broadcast f xs ys = zip_with f xs ys.
Proof.
  destruct xs as [|x [|x' xs]]; destruct ys as [|y [|y' ys]];
    simpl; intros H; try discriminate H; reflexivity.
Qed.

(** Last axis: a row of R phases against one phase. *)
Lemma broadcast_row_minus (row : list R) (xi : R) :
  broadcast (fun x y => Ok (x - y)%R) row [xi] =
  Ok (map (fun xj => (xj - xi)%R) row).
Proof.
  destruct row as [|r [|r' row]]; try reflexivity.
  unfold broadcast.
  apply (zip_with_repeat_r _ (fun xj => (xj - xi)%R)). reflexivity.
Qed.

(** Middle axis: the 1 x R slice against the R x 1 slice of one timepoint. *)
Lemma broadcast_slice_minus (row : list R) :
  broadcast (broadcast (fun x y => Ok (x - y)%R))
            [row] (map (fun x => [x]) row) =
  Ok (map (fun xi => map (fun xj => (xj - xi)%R) row) row).
Proof.
  unfold broadcast at 1.
  apply (zip_with_repeat_l _ (fun x => [x])
           (fun xi => map (fun xj => (xj - xi)%R) row)).
  intros xi _. apply broadcast_row_minus.
Qed.

Lemma np_subtract_newaxis (phi : matrix) :
  np_subtract (newaxis_1 phi) (newaxis_2 phi) =
  Ok (map (fun row => map (fun xi => map (fun xj => (xj - xi)%R) row) row) phi).
Proof.
  unfold np_subtract, newaxis_1, newaxis_2.
  rewrite broadcast_same_length by now rewrite !length_map.
  apply (zip_with_map _ (fun row => [row]) (fun row => map (fun x => [x]) row)).
  intros row _. apply broadcast_slice_minus.
Qed.

(** The tensor in closed form: entry (t, i, j) is the cosine of
    [phi[t, j] - phi[t, i]], as the two index expressions place the
    operands. *)
Lemma iphc_eq (phi : matrix) :
  iphc phi =
  Ok (map (fun row => map (fun xi => map (fun xj => cos (xj - xi)) row) row) phi).
Proof.
  unfold iphc. rewrite np_subtract_newaxis. simpl. f_equal.
  unfold np_cos. rewrite map_map. apply map_ext. intros row.
  rewrite map_map. apply map_ext. intros xi. now rewrite map_map.
Qed.




End BroadcastFacts.

(** ** The coherence tensor on binary64 entries *)

Section Binary64Facts.

Import Floats.

(** Rounding does not look at the sign. *)
Lemma binary_round_opp (m : positive) (e : Z) :
  SpecFloat.binary_round prec emax true m e =
  SFopp (SpecFloat.binary_round prec emax false m e).
Proof.
  unfold SpecFloat.binary_round.
  destruct (SpecFloat.shl_align _ _ _) as [mz ez].
  unfold SpecFloat.binary_round_aux.
  destruct (SpecFloat.shr_fexp _ _ _ _ _) as [mrs e'].
  destruct (SpecFloat.shr_fexp _ _ _ _ _) as [mrs2 e2].
  destruct (SpecFloat.shr_m mrs2); try reflexivity.
  destruct (Z.leb _ _); reflexivity.
Qed.

Lemma binary_normalize_opp (m e : Z) :
  m <> 0%Z ->
  SpecFloat.binary_normalize prec emax (- m) e false =
  SFopp (SpecFloat.binary_normalize prec emax m e false).
Proof.
  destruct m as [|p|p]; intros H; [now elim H| |]; simpl.
  - apply binary_round_opp.
  - rewrite binary_round_opp.
    now destruct (SpecFloat.binary_round _ _ _ _ _) as [[]|[]| |[] ? ?].
Qed.

Lemma SFsub_swap (x y : spec_float) :
  SF64sub y x = SFopp (SF64sub x y) \/
  (SF64sub y x = S754_zero false /\ SF64sub x y = S754_zero false).
Proof.
  unfold SF64sub.
  destruct x as [sx|sx| |sx mx ex], y as [sy|sy| |sy my ey];
    try (solve [ left; reflexivity
               | try destruct sx; try destruct sy; simpl; auto ]).
  unfold SFsub. rewrite (Z.min_comm ey ex).
  set (ez := Z.min ex ey).
  set (A := SpecFloat.cond_Zopp sx (Zpos (fst (SpecFloat.shl_align mx ex ez)))).
  set (B := SpecFloat.cond_Zopp sy (Zpos (fst (SpecFloat.shl_align my ey ez)))).
  destruct (Z.eq_dec (A - B) 0) as [H0|Hn].
  - right. replace (B - A)%Z with 0%Z by lia. rewrite H0. simpl. auto.
  - left. replace (B - A)%Z with (- (A - B))%Z by lia.
    now apply binary_normalize_opp.
Qed.

(** [b - a] is the opposite of [a - b], or both are +0. *)
Lemma f64_sub_swap (a b : float) :
  (b - a = - (a - b))%float \/
  ((b - a)%float = zero /\ (a - b)%float = zero).
Proof.
  destruct (SFsub_swap (Prim2SF a) (Prim2SF b)) as [H|[H1 H2]].
  - left. apply Prim2SF_inj. now rewrite opp_spec, !sub_spec.
  - right. split; apply Prim2SF_inj; rewrite sub_spec; assumption.
Qed.

Lemma f64_is_nan_spec (x : float) :
  is_nan x = true <-> Prim2SF x = S754_nan.
Proof.
  unfold is_nan. rewrite eqb_spec. unfold SFeqb, SFcompare.
  destruct (Prim2SF x) as [[]|[]| |[] m e]; simpl;
    try rewrite Z.compare_refl; try rewrite Pos.compare_cont_refl; simpl;
    split; intros H; try discriminate H; reflexivity.
Qed.

(** There is one NaN. *)
Lemma f64_is_nan_eq (x : float) : is_nan x = true -> x = nan.
Proof.
  intros H. apply f64_is_nan_spec in H. apply Prim2SF_inj. now rewrite H.
Qed.

Lemma f64_sub_nan_l (x : float) : (nan - x)%float = nan.
Proof. apply Prim2SF_inj. rewrite sub_spec. reflexivity. Qed.

Lemma f64_sub_nan_r (x : float) : (x - nan)%float = nan.
Proof.
  apply Prim2SF_inj. rewrite sub_spec. change (Prim2SF nan) with S754_nan.
  now destruct (Prim2SF x) as [[]|[]| |[] ? ?].
Qed.

Lemma f64_is_infinity_spec (x : float) :
  is_infinity x = true <-> exists s, Prim2SF x = S754_infinity s.
Proof.
  unfold is_infinity. rewrite eqb_spec, abs_spec.
  change (Prim2SF infinity) with (S754_infinity false).
  destruct (Prim2SF x) as [[]|[]| |[] m e]; simpl; split;
    try (intros H; discriminate H);
    try (intros [s H]; discriminate H);
    try (intros _; eauto; fail); try reflexivity.
Qed.

(** [x - x] is +0 for a finite [x], NaN for an infinity and for NaN. *)
Lemma f64_sub_diag (x : float) :
  (x - x)%float = if is_finite x then zero else nan.
Proof.
  apply Prim2SF_inj. rewrite sub_spec.
  unfold is_finite.
  destruct (is_nan x) eqn:Hnan.
  - apply f64_is_nan_spec in Hnan. rewrite Hnan. reflexivity.
  - destruct (is_infinity x) eqn:Hinf.
    + apply f64_is_infinity_spec in Hinf. destruct Hinf as [s Hs]. rewrite Hs.
      now destruct s.
    + simpl.
      destruct (Prim2SF x) as [s|s| |s m e] eqn:Hx.
      * now destruct s.
      * assert (is_infinity x = true) by (apply f64_is_infinity_spec; eauto).
        congruence.
      * assert (is_nan x = true) by now apply f64_is_nan_spec. congruence.
      * unfold SF64sub, SFsub. rewrite Z.min_id.
        rewrite Z.sub_diag. reflexivity.
Qed.

(** The product of two opposites is the product. *)
Lemma f64_mul_opp_opp (x y : float) : (- x * - y = x * y)%float.
Proof.
  apply Prim2SF_inj. rewrite !mul_spec, !opp_spec. unfold SF64mul.
  destruct (Prim2SF x) as [[]|[]| |[] ? ?],
           (Prim2SF y) as [[]|[]| |[] ? ?]; reflexivity.
Qed.

End Binary64Facts.

Section Float64CoherenceFacts.

Import InstantPhaseConnectivityBase InstantPhaseConnectivityBase.Float64.
Import PrimFloat.

Variable cos64 : float -> float.

Lemma broadcast_row_sub (row : list float) (xi : float) :
  broadcast (fun x y => Ok (x - y)%float) row [xi] =
  Ok (map (fun xj => (xj - xi)%float) row).
Proof.
  destruct row as [|r [|r' row]]; try reflexivity.
  unfold broadcast.
  apply (zip_with_repeat_r _ (fun xj => (xj - xi)%float)). reflexivity.
Qed.

Lemma broadcast_slice_sub (row : list float) :
  broadcast (broadcast (fun x y => Ok (x - y)%float))
            [row] (map (fun x => [x]) row) =
  Ok (map (fun xi => map (fun xj => (xj - xi)%float) row) row).
Proof.
  unfold broadcast at 1.
  apply (zip_with_repeat_l _ (fun x => [x])
           (fun xi => map (fun xj => (xj - xi)%float) row)).
  intros xi _. apply broadcast_row_sub.
Qed.

Lemma np_subtract_newaxis_f64 (phi : matrix) :
  np_subtract (newaxis_1 phi) (newaxis_2 phi) =
  Ok (map (fun row =>
             map (fun xi => map (fun xj => (xj - xi)%float) row) row) phi).
Proof.
  unfold np_subtract, newaxis_1, newaxis_2.
  rewrite broadcast_same_length by now rewrite !length_map.
  apply (zip_with_map _ (fun row => [row]) (fun row => map (fun x => [x]) row)).
  intros row _. apply broadcast_slice_sub.
Qed.

(** The tensor in closed form, for every phase matrix: the expression
    never fails, and entry (t, i, j) is the cosine of the rounded
    difference [phi[t, j] - phi[t, i]]. *)
Lemma iphc_f64_eq (phi : matrix) :
  iphc cos64 phi =
  Ok (map (fun row =>
             map (fun xi => map (fun xj => cos64 (xj - xi)%float) row) row)
          phi).
Proof.
  unfold iphc. rewrite np_subtract_newaxis_f64. simpl. f_equal.
  unfold np_cos. rewrite map_map. apply map_ext. intros row.
  rewrite map_map. apply map_ext. intros xi. now rewrite map_map.
Qed.

Lemma tensor_get_iphc_f64 (phi : matrix) (out : tensor) (t i j : nat) :
  iphc cos64 phi = Ok out ->
  tensor_get out t i j =
  match matrix_get phi t i, matrix_get phi t j with
  | Some a, Some b => Some (cos64 (b - a)%float)
  | _, _ => None
  end.
Proof.
  rewrite iphc_f64_eq. intros H. inversion H. subst out. clear H.
  unfold tensor_get, matrix_get. rewrite nth_error_map.
  destruct (nth_error phi t) as [row|]; simpl; [|reflexivity].
  rewrite nth_error_map.
  destruct (nth_error row i) as [a|]; simpl.
  - rewrite nth_error_map. now destruct (nth_error row j).
  - now destruct (nth_error row j).
Qed.

(** C4, as it holds of the code: the diagonal entry of a region is 1.0
    where the phase of the region is a finite number, and NaN where it is
    not (a NaN phase, as of a region that is constant over time): there
    the comparison with 1.0 is false.  The library's cosine is taken to be
    1.0 at 0.0 and NaN at NaN. *)
Theorem iphc_diagonal_one_or_nan (phi : matrix) :
  cos64 zero = one ->
  cos64 nan = nan ->
  exists out,
    iphc cos64 phi = Ok out /\
    forall t i a,
      matrix_get phi t i = Some a ->
      exists v,
        tensor_get out t i i = Some v /\
        (is_finite a = true -> v = one /\ py_eq v one = true) /\
        (is_finite a = false -> v = nan /\ py_eq v one = false).
Proof.
  intros H0 Hnan. eexists. split; [apply iphc_f64_eq|].
  intros t i a Ha.
  rewrite (tensor_get_iphc_f64 phi _ t i i (iphc_f64_eq phi)), Ha.
  eexists. split; [reflexivity|].
  rewrite f64_sub_diag. split; intros Hfin; rewrite Hfin.
  - rewrite H0. split; reflexivity.
  - rewrite Hnan. split; reflexivity.
Qed.

(** C5, as it holds of the code: for regions i and j of a timepoint the
    entries (t, i, j) and (t, j, i) both exist and are the same binary64
    value, so [==] holds between them exactly when that value is not NaN;
    a NaN phase at i or at j makes both entries NaN and the comparison
    false.  The library's cosine is taken to be even and NaN at NaN. *)
Theorem iphc_symmetric_up_to_nan (phi : matrix) :
  (forall x, cos64 (- x)%float = cos64 x) ->
  cos64 nan = nan ->
  exists out,
    iphc cos64 phi = Ok out /\
    forall t i j a b,
      matrix_get phi t i = Some a ->
      matrix_get phi t j = Some b ->
      exists u w,
        tensor_get out t i j = Some u /\
        tensor_get out t j i = Some w /\
        u = w /\
        py_eq u w = negb (is_nan u) /\
        (is_nan a || is_nan b = true -> py_eq u w = false).
Proof.
  intros Heven Hnan. eexists. split; [apply iphc_f64_eq|].
  intros t i j a b Ha Hb.
  rewrite (tensor_get_iphc_f64 phi _ t i j (iphc_f64_eq phi)), Ha, Hb.
  rewrite (tensor_get_iphc_f64 phi _ t j i (iphc_f64_eq phi)), Ha, Hb.
  do 2 eexists. split; [reflexivity|]. split; [reflexivity|].
  assert (Hsame : cos64 (b - a)%float = cos64 (a - b)%float).
  { destruct (f64_sub_swap a b) as [H|[H1 H2]].
    - rewrite H. apply Heven.
    - now rewrite H1, H2. }
  split; [exact Hsame|]. rewrite <- Hsame. split.
  - unfold py_eq, is_nan. now rewrite negb_involutive.
  - intros H. apply orb_true_iff in H.
    assert (Hv : cos64 (b - a)%float = nan).
    { destruct H as [H|H]; apply f64_is_nan_eq in H; subst.
      - now rewrite f64_sub_nan_r.
      - now rewrite f64_sub_nan_l. }
    rewrite Hv. reflexivity.
Qed.

End Float64CoherenceFacts.

Lemma cos_poly_even (x : PrimFloat.float) :
  CoherenceCases.cos_poly (PrimFloat.opp x) = CoherenceCases.cos_poly x.
Proof. unfold CoherenceCases.cos_poly. now rewrite f64_mul_opp_opp. Qed.

Lemma iphc_diagonal_one_or_nan_witness :
  exists out,
    InstantPhaseConnectivityBase.Float64.iphc CoherenceCases.cos_poly
      CoherenceCases.phases = Ok out /\
    InstantPhaseConnectivityBase.Float64.tensor_get out 1 1 1 =
      Some PrimFloat.one.
Proof.
  destruct (iphc_diagonal_one_or_nan CoherenceCases.cos_poly
              CoherenceCases.phases eq_refl eq_refl) as [out [Hout Hdiag]].
  exists out. split; [exact Hout|].
  destruct (Hdiag 1%nat 1%nat _ eq_refl) as (v & Hv & Hfin & _).
  rewrite Hv. f_equal. apply Hfin. reflexivity.
Defined.

(** The claim as the specification states it, on phases with a region that
    was constant over time: the diagonal entry of that region is not 1.0. *)
Lemma iphc_diagonal_of_constant_region :
  exists out v,
    InstantPhaseConnectivityBase.Float64.iphc CoherenceCases.cos_poly
      CoherenceCases.phases_constant_region = Ok out /\
    InstantPhaseConnectivityBase.Float64.tensor_get out 0 0 0 = Some v /\
    InstantPhaseConnectivityBase.Float64.py_eq v PrimFloat.one = false.
Proof.
  eexists. eexists. split; [reflexivity|]. split; reflexivity.
Qed.

Lemma iphc_symmetric_up_to_nan_witness :
  exists out u w,
    InstantPhaseConnectivityBase.Float64.iphc CoherenceCases.cos_poly
      CoherenceCases.phases = Ok out /\
    InstantPhaseConnectivityBase.Float64.tensor_get out 1 0 1 = Some u /\
    InstantPhaseConnectivityBase.Float64.tensor_get out 1 1 0 = Some w /\
    InstantPhaseConnectivityBase.Float64.py_eq u w = true.
Proof.
  destruct (iphc_symmetric_up_to_nan CoherenceCases.cos_poly
              CoherenceCases.phases cos_poly_even eq_refl)
    as [out [Hout Hsym]].
  destruct (Hsym 1%nat 0%nat 1%nat _ _ eq_refl eq_refl)
    as (u & w & Hu & Hw & Huw & Heq & _).
  exists out, u, w. split; [exact Hout|]. split; [exact Hu|].
  split; [exact Hw|]. rewrite Heq.
  vm_compute in Hout. inversion Hout. subst out.
  vm_compute in Hu. inversion Hu. reflexivity.
Defined.

(** The claim as the specification states it, on the same phases: the
    entries (0, 0, 1) and (0, 1, 0) do not compare equal. *)
Lemma iphc_symmetry_of_constant_region :
  exists out u w,
    InstantPhaseConnectivityBase.Float64.iphc CoherenceCases.cos_poly
      CoherenceCases.phases_constant_region = Ok out /\
    InstantPhaseConnectivityBase.Float64.tensor_get out 0 0 1 = Some u /\
    InstantPhaseConnectivityBase.Float64.tensor_get out 0 1 0 = Some w /\
    InstantPhaseConnectivityBase.Float64.py_eq u w = false.
Proof.
  do 3 eexists. split; [reflexivity|]. split; [reflexivity|].
  split; reflexivity.
Qed.

Section PhaseMarkerFacts.

Import InstantPhaseConnectivityBase.

Context {Masks Input Complex : Type}.
Variable aggregate :
  @marker Masks -> Input -> option Input ->
  res (list (string * aggregation_feature)).
Variable header_get_zooms : Input -> res (list Q).
Variable stats_zscore : matrix -> matrix.
Variable butterworth : matrix -> Q -> Q -> Q -> Z -> res matrix.
Variable signal_hilbert : matrix -> Complex.
Variable np_angle : Complex -> matrix.

(** Every step of a [compute] that returns. *)
Lemma compute_inv (self : marker) (input : Input) (extra_input : option Input)
    (out : list (string * fc_feature)) :
  compute aggregate header_get_zooms stats_zscore butterworth
    signal_hilbert np_angle self input extra_input = Ok out ->
  exists aggregation agg sampling_rate filtered_data iphc_data,
    aggregate self input extra_input = Ok aggregation /\
    getitem aggregation "aggregation" = Ok agg /\
    butterworth (stats_zscore (agg_data agg)) sampling_rate
                (lowpass self) (highpass self) (order self)
      = Ok filtered_data /\
    iphc (np_angle (signal_hilbert filtered_data)) = Ok iphc_data /\
    out = [ ("fc", mkFc iphc_data (agg_col_names agg) (agg_col_names agg)) ].
Proof.
  unfold compute, res_bind.
  destruct (aggregate self input extra_input) as [aggregation|e] eqn:Ha;
    [|discriminate].
  destruct (getitem aggregation "aggregation") as [agg|e] eqn:Hg;
    [|discriminate].
  destruct (match tr self with
            | Some tr0 => Ok tr0
            | None => _
            end) as [tr0|e]; [|discriminate].
  destruct (py_div 1 tr0) as [sampling_rate|e]; [|discriminate].
  destruct (butterworth _ _ _ _ _) as [filtered_data|e] eqn:Hb; [|discriminate].
  destruct (iphc _) as [iphc_data|e] eqn:Hi; [|discriminate].
  intros H. inversion H.
  exists aggregation, agg, sampling_rate, filtered_data, iphc_data.
  repeat split; solve [assumption | reflexivity].
Qed.

(** [compute] returns whenever its collaborators do and the repetition time
    is not zero, whatever the marker's fields hold: it checks none of them. *)
Lemma compute_succeeds (self : marker) (input : Input)
    (extra_input : option Input) aggregation agg tr0 filtered_data :
  aggregate self input extra_input = Ok aggregation ->
  getitem aggregation "aggregation" = Ok agg ->
  match tr self with
  | Some tr0 => Ok tr0
  | None => res_bind (header_get_zooms input)
                     (fun zooms => tuple_getitem zooms 3)
  end = Ok tr0 ->
  Qeq_bool tr0 0 = false ->
  butterworth (stats_zscore (agg_data agg)) (1 / tr0)%Q
              (lowpass self) (highpass self) (order self) = Ok filtered_data ->
  exists out, compute aggregate header_get_zooms stats_zscore butterworth
    signal_hilbert np_angle self input extra_input = Ok out.
Proof.
  intros Ha Hg Ht Hz Hb. unfold compute.
  rewrite Ha. cbn [res_bind]. rewrite Hg. cbn [res_bind].
  rewrite Ht. cbn [res_bind]. unfold py_div. rewrite Hz. cbn [res_bind].
  rewrite Hb. cbn [res_bind]. rewrite iphc_eq. cbn [res_bind]. eauto.
Qed.


(** C9: the row names and the column names of the result are the same list,
    the column names that [aggregate] returned. *)
Theorem row_names_are_col_names
    (self : marker) (input : Input) (extra_input : option Input)
    (out : list (string * fc_feature)) :
  compute aggregate header_get_zooms stats_zscore butterworth
    signal_hilbert np_angle self input extra_input = Ok out ->
  exists aggregation agg fc,
    aggregate self input extra_input = Ok aggregation /\
    getitem aggregation "aggregation" = Ok agg /\
    out = [ ("fc", fc) ] /\
    row_names fc = col_names fc /\
    col_names fc = agg_col_names agg.
Proof.
  intros H.
  destruct (compute_inv _ _ _ _ H)
    as (aggregation & agg & sr & filtered & ten & Ha & Hg & _ & _ & ->).
  exists aggregation, agg, (mkFc ten (agg_col_names agg) (agg_col_names agg)).
  repeat split; assumption.
Qed.

End PhaseMarkerFacts.

Section ValidationFacts.

Import InstantPhaseConnectivityBase.

Lemma Qltb_lt (x y : Q) : Qltb x y = true <-> (x < y)%Q.
Proof.
  unfold Qltb. rewrite negb_true_iff. split.
  - intros H. apply Qnot_le_lt. intros Hle.
    apply Qle_bool_iff in Hle. congruence.
  - intros H. destruct (Qle_bool y x) eqn:E; [|reflexivity].
    apply Qle_bool_iff in E. now apply Qlt_not_le in H.
Qed.

Lemma Qle_bool_false (x y : Q) : Qle_bool x y = false <-> (y < x)%Q.
Proof.
  split.
  - intros H. apply Qnot_le_lt. intros Hle.
    apply Qle_bool_iff in Hle. congruence.
  - intros H. destruct (Qle_bool x y) eqn:E; [|reflexivity].
    apply Qle_bool_iff in E. now apply Qlt_not_le in H.
Qed.

Context {Masks Input Complex : Type}.
Variable aggregate :
  @marker Masks -> Input -> option Input ->
  res (list (string * aggregation_feature)).
Variable header_get_zooms : Input -> res (list Q).
Variable stats_zscore : matrix -> matrix.
Variable butterworth : matrix -> Q -> Q -> Q -> Z -> res matrix.
Variable signal_hilbert : matrix -> Complex.
Variable np_angle : Complex -> matrix.

(** What [__init__] does on each side of its four checks. *)
Lemma init_ok (class_name : string) (hp lp : Q) (ord : Z)
    (masks : option Masks) (tr : option Q) (name : option string) :
  (0 <= hp)%Q -> (hp < lp)%Q -> (0 < ord)%Z ->
  __init__ class_name hp lp ord masks tr name =
  Ok (mkMarker hp lp ord tr masks ["BOLD"]
               (match name with Some n => n | None => class_name end)).
Proof.
  intros H0 Hlt Hord. unfold __init__.
  assert (E1 : Qltb hp 0 = false).
  { destruct (Qltb hp 0) eqn:E; [|reflexivity].
    apply Qltb_lt in E. now apply Qlt_not_le in E. }
  assert (E2 : Qle_bool lp 0 = false).
  { apply Qle_bool_false. now apply Qle_lt_trans with hp. }
  assert (E3 : (ord <=? 0)%Z = false) by now apply Z.leb_gt.
  assert (E4 : Qle_bool lp hp = false) by now apply Qle_bool_false.
  rewrite E1, E2, E3, E4. reflexivity.
Qed.

Lemma init_raises (class_name : string) (hp lp : Q) (ord : Z)
    (masks : option Masks) (tr : option Q) (name : option string) :
  (hp < 0 \/ lp <= 0 \/ (ord <= 0)%Z \/ lp <= hp)%Q ->
  exists msg,
    __init__ class_name hp lp ord masks tr name = Raise (ValueError msg).
Proof.
  intros H. unfold __init__, raise_error.
  destruct (Qltb hp 0) eqn:E1; [simpl; eauto|].
  destruct (Qle_bool lp 0) eqn:E2; [simpl; eauto|].
  destruct (ord <=? 0)%Z eqn:E3; [simpl; eauto|].
  destruct (Qle_bool lp hp) eqn:E4; [simpl; eauto|].
  exfalso. destruct H as [H | [H | [H | H]]].
  - apply Qltb_lt in H. congruence.
  - apply Qle_bool_iff in H. congruence.
  - apply Z.leb_le in H. congruence.
  - apply Qle_bool_iff in H. congruence.
Qed.

Lemma valid_or_invalid (hp lp : Q) (ord : Z) :
  ((0 <= hp)%Q /\ (hp < lp)%Q /\ (0 < ord)%Z) \/
  (hp < 0 \/ lp <= 0 \/ (ord <= 0)%Z \/ lp <= hp)%Q.
Proof.
  destruct (Qlt_le_dec hp 0) as [H1|H1]; [right; now left|].
  destruct (Qlt_le_dec hp lp) as [H2|H2]; [|right; now do 3 right].
  destruct (Z_lt_le_dec 0 ord) as [H3|H3]; [now left|].
  right. right. right. now left.
Qed.

(** C3: construction raises (a [ValueError]) exactly when [highpass < 0] or
    [lowpass <= 0] or [order <= 0] or [highpass >= lowpass]; with
    [0 <= highpass < lowpass] and [order > 0] it returns the marker holding
    these values; a marker that was constructed satisfies the constraints;
    and [compute] checks nothing: on any marker it returns as soon as its
    collaborators do and the repetition time is not zero. *)
Theorem init_validates_filter_spec (class_name : string) (hp lp : Q) (ord : Z)
    (masks : option Masks) (tr : option Q) (name : option string) :
  ((exists msg,
       __init__ class_name hp lp ord masks tr name = Raise (ValueError msg))
   <-> (hp < 0 \/ lp <= 0 \/ (ord <= 0)%Z \/ lp <= hp)%Q)
  /\ (forall e, __init__ class_name hp lp ord masks tr name = Raise e ->
                exists msg, e = ValueError msg)
  /\ ((0 <= hp)%Q /\ (hp < lp)%Q /\ (0 < ord)%Z ->
      exists self,
        __init__ class_name hp lp ord masks tr name = Ok self /\
        highpass self = hp /\ lowpass self = lp /\ order self = ord)
  /\ (forall self,
        __init__ class_name hp lp ord masks tr name = Ok self ->
        (0 <= highpass self)%Q /\ (highpass self < lowpass self)%Q /\
        (0 < order self)%Z)
  /\ (forall (self : marker) input extra_input aggregation agg tr0 filtered,
        aggregate self input extra_input = Ok aggregation ->
        getitem aggregation "aggregation" = Ok agg ->
        match InstantPhaseConnectivityBase.tr self with
        | Some tr0 => Ok tr0
        | None => res_bind (header_get_zooms input)
                           (fun zooms => tuple_getitem zooms 3)
        end = Ok tr0 ->
        Qeq_bool tr0 0 = false ->
        butterworth (stats_zscore (agg_data agg)) (1 / tr0)%Q
                    (lowpass self) (highpass self) (order self)
          = Ok filtered ->
        exists out,
          compute aggregate header_get_zooms stats_zscore butterworth
                  signal_hilbert np_angle self input extra_input = Ok out).
Proof.
  split; [|split; [|split; [|split]]].
  - split; [|apply init_raises].
    intros [msg Hraise].
    destruct (valid_or_invalid hp lp ord) as [(H0 & Hlt & Hord)|H];
      [|exact H].
    rewrite (init_ok class_name hp lp ord masks tr name H0 Hlt Hord) in Hraise.
    discriminate Hraise.
  - intros e He.
    destruct (valid_or_invalid hp lp ord) as [(H0 & Hlt & Hord)|H].
    + rewrite (init_ok class_name hp lp ord masks tr name H0 Hlt Hord) in He.
      discriminate He.
    + destruct (init_raises class_name hp lp ord masks tr name H) as [msg Hm].
      rewrite Hm in He. inversion He. eauto.
  - intros (H0 & Hlt & Hord). eexists. split.
    + apply (init_ok class_name hp lp ord masks tr name H0 Hlt Hord).
    + repeat split.
  - intros self Hself.
    destruct (valid_or_invalid hp lp ord) as [(H0 & Hlt & Hord)|H].
    + rewrite (init_ok class_name hp lp ord masks tr name H0 Hlt Hord) in Hself.
      inversion Hself. subst self. simpl. auto.
    + destruct (init_raises class_name hp lp ord masks tr name H) as [msg Hm].
      rewrite Hm in Hself. discriminate Hself.
  - intros self input extra_input aggregation agg tr0 filtered.
    apply compute_succeeds.
Qed.

End ValidationFacts.


Lemma row_names_are_col_names_witness :
  exists fc,
    InstantPhaseConnectivityBase.compute Examples.parcel_aggregate
      Examples.zooms Examples.same Examples.pass_filter Examples.same
      Examples.same Examples.band_marker "sub-01" None = Ok [ ("fc", fc) ] /\
    InstantPhaseConnectivityBase.row_names fc =
    InstantPhaseConnectivityBase.col_names fc /\
    InstantPhaseConnectivityBase.col_names fc = ["V1"; "M1"; "PCC"].
Proof.
  destruct (row_names_are_col_names Examples.parcel_aggregate
              Examples.zooms Examples.same Examples.pass_filter Examples.same
              Examples.same Examples.band_marker "sub-01" None _ eq_refl)
    as (aggregation & agg & fc & Ha & Hg & Hout & Hrows & Hcols).
  injection Ha as <-. injection Hg as <-. injection Hout as <-.
  eexists. split; [reflexivity|]. split; [exact Hrows | exact Hcols].
Defined.

Lemma init_validates_filter_spec_witness :
  (exists self,
      InstantPhaseConnectivityBase.__init__ (Masks := unit)
        "InstantPhaseConnectivityParcels" (1 # 100) (1 # 10) 5
        None (Some (72 # 100)) None = Ok self /\
      InstantPhaseConnectivityBase.highpass self = (1 # 100) /\
      InstantPhaseConnectivityBase.lowpass self = (1 # 10) /\
      InstantPhaseConnectivityBase.order self = 5%Z)
  /\ (exists msg,
        InstantPhaseConnectivityBase.__init__ (Masks := unit)
          "InstantPhaseConnectivityParcels" (1 # 10) (1 # 10) 5
          None (Some (72 # 100)) None = Raise (ValueError msg)).
Proof.
  split.
  - apply (proj1 (proj2 (proj2
             (init_validates_filter_spec Examples.parcel_aggregate
                Examples.zooms Examples.same Examples.pass_filter
                Examples.same Examples.same
                "InstantPhaseConnectivityParcels" (1 # 100) (1 # 10) 5
                None (Some (72 # 100)) None)))).
    unfold Qle, Qlt. simpl. lia.
  - apply (proj2 (proj1
             (init_validates_filter_spec Examples.parcel_aggregate
                Examples.zooms Examples.same Examples.pass_filter
                Examples.same Examples.same
                "InstantPhaseConnectivityParcels" (1 # 10) (1 # 10) 5
                None (Some (72 # 100)) None))).
    right. right. right. unfold Qle. simpl. lia.
Defined.

(** * Further properties of the markers *)

(** ** The estimator: identity bookkeeping and failures before the call *)

Section EstimatorEdgeFacts.

Import BCTPYSpheresEstimator.

Context {Result : Type}.
Variable fcs : kwargs -> res Result.

(** A call under the recorded identity logs the "using" notice and leaves
    the recorded path and the whole table as they were, whether the lookup
    hits, misses or the key cannot be built. *)
Theorem same_identity_keeps_table
    (st : @estimator Result) (input : kwargs) (p : fc_params)
    (bold_path bold_data : pyval) :
  getitem input "path" = Ok bold_path ->
  getitem input "data" = Ok bold_data ->
  py_ne (_file_path st) bold_path = false ->
  let st' := snd (fit_transform fcs input p st) in
  _file_path st' = _file_path st /\
  _cache st' = _cache st /\
  exists tail,
    events st' =
    events st ++ LogInfo (Using_cache_at (_file_path st)) :: tail.
Proof.
  intros Hp Hd Hne st'. subst st'.
  rewrite (fit_transform_eq fcs _ _ _ _ _ Hp Hd), Hne.
  set (mid := mkEstimator (_file_path st) (_cache st)
                (events st ++ [LogInfo (Using_cache_at (_file_path st))])).
  destruct (_make_key [self_ref] (_compute_kwds bold_data p)) as [key|e] eqn:Hk.
  - destruct (cache_get key (_cache st)) as [r|] eqn:Hc.
    + rewrite (lru_hit _ _ _ key r mid Hk Hc). simpl.
      repeat split. exists []. reflexivity.
    + rewrite (lru_miss_raise _ _ _ key unexpected_data mid Hk Hc
                 (_compute_rejects_data fcs _ _ _)).
      simpl. repeat split. eexists. now rewrite <- app_assoc.
  - rewrite (lru_unhashable _ _ _ e mid Hk). simpl.
    repeat split. exists []. reflexivity.
Qed.

(** A parameter that is a list or a dict cannot be hashed: the call raises
    when the key is built, after the identity check has run and without the
    wrapped function being called. *)
Theorem unhashable_parameter_raises_before_call
    (st : @estimator Result) (input : kwargs) (p : fc_params)
    (bold_path bold_data : pyval) :
  getitem input "path" = Ok bold_path ->
  getitem input "data" = Ok bold_data ->
  forallb (fun kv => hashable (snd kv)) (_compute_kwds bold_data p) = false ->
  fit_transform fcs input p st =
    (Raise (TypeError "unhashable type"),
     if py_ne (_file_path st) bold_path
     then mkEstimator bold_path []
            (events st ++ [LogInfo (Removing_cache_at (_file_path st))])
     else mkEstimator (_file_path st) (_cache st)
            (events st ++ [LogInfo (Using_cache_at (_file_path st))])).
Proof.
  intros Hp Hd Hh. rewrite (fit_transform_eq fcs _ _ _ _ _ Hp Hd).
  apply lru_unhashable. unfold _make_key. rewrite Hh.
  now rewrite andb_false_r.
Qed.

(** An input descriptor without [path], or with [path] but without [data],
    raises [KeyError] before anything else happens: nothing is logged, the
    recorded path and the table are untouched. *)
Theorem missing_input_key_raises_first
    (st : @estimator Result) (input : kwargs) (p : fc_params) :
  (dict_get input "path" = None ->
   fit_transform fcs input p st = (Raise (KeyError "path"), st)) /\
  (forall bold_path,
      dict_get input "path" = Some bold_path ->
      dict_get input "data" = None ->
      fit_transform fcs input p st = (Raise (KeyError "data"), st)).
Proof.
  split.
  - intros Hp. unfold fit_transform, st_bind, st_lift, getitem.
    now rewrite Hp.
  - intros bold_path Hp Hd. unfold fit_transform, st_bind, st_lift, getitem.
    now rewrite Hp, Hd.
Qed.

End EstimatorEdgeFacts.

Lemma identity_change_discards_cache_witness :
  BCTPYSpheresEstimator.fit_transform Examples.fcs_ok Examples.sub02
    Examples.dmn_params MarkerCases.populated =
  (Raise BCTPYSpheresEstimator.unexpected_data,
   BCTPYSpheresEstimator.mkEstimator
     (BCTPYSpheresEstimator.PyStr "sub-02_task-rest_bold.nii.gz") []
     [ BCTPYSpheresEstimator.LogInfo
         (BCTPYSpheresEstimator.Removing_cache_at
            (BCTPYSpheresEstimator.PyStr "sub-00_task-rest_bold.nii.gz"));
       BCTPYSpheresEstimator.CallWrapped
         [BCTPYSpheresEstimator.self_ref]
         (BCTPYSpheresEstimator._compute_kwds
            (BCTPYSpheresEstimator.PyObj 3) Examples.dmn_params) ]).
Proof.
  apply (identity_change_discards_cache Examples.fcs_ok Examples.sub02
           Examples.dmn_params MarkerCases.populated _ _ _
           eq_refl eq_refl eq_refl eq_refl).
Defined.

Lemma same_identity_keeps_table_witness :
  let st' :=
    snd (BCTPYSpheresEstimator.fit_transform Examples.fcs_ok Examples.sub01
           Examples.dmn_params Examples.after_sub01) in
  BCTPYSpheresEstimator._file_path st' =
    BCTPYSpheresEstimator._file_path Examples.after_sub01 /\
  BCTPYSpheresEstimator._cache st' =
    BCTPYSpheresEstimator._cache Examples.after_sub01.
Proof.
  pose proof (same_identity_keeps_table Examples.fcs_ok Examples.after_sub01
                Examples.sub01 Examples.dmn_params _ _
                eq_refl eq_refl eq_refl) as H.
  cbv zeta in H. destruct H as (H1 & H2 & _).
  intros st'. split; [exact H1 | exact H2].
Defined.

Lemma unhashable_parameter_raises_before_call_witness :
  BCTPYSpheresEstimator.fit_transform Examples.fcs_ok Examples.sub01
    MarkerCases.masked_params BCTPYSpheresEstimator.__init__ =
  (Raise (TypeError "unhashable type"),
   BCTPYSpheresEstimator.mkEstimator
     (BCTPYSpheresEstimator.PyStr "sub-01_task-rest_bold.nii.gz") []
     [ BCTPYSpheresEstimator.LogInfo
         (BCTPYSpheresEstimator.Removing_cache_at
            BCTPYSpheresEstimator.PyNone) ]).
Proof.
  apply (unhashable_parameter_raises_before_call Examples.fcs_ok
           BCTPYSpheresEstimator.__init__ Examples.sub01
           MarkerCases.masked_params _ _ eq_refl eq_refl eq_refl).
Defined.

Lemma missing_input_key_raises_first_witness :
  BCTPYSpheresEstimator.fit_transform Examples.fcs_ok MarkerCases.no_path
    Examples.dmn_params MarkerCases.populated
    = (Raise (KeyError "path"), MarkerCases.populated) /\
  BCTPYSpheresEstimator.fit_transform Examples.fcs_ok MarkerCases.no_data
    Examples.dmn_params MarkerCases.populated
    = (Raise (KeyError "data"), MarkerCases.populated).
Proof.
  split.
  - apply (proj1 (missing_input_key_raises_first Examples.fcs_ok
                    MarkerCases.populated MarkerCases.no_path
                    Examples.dmn_params)).
    reflexivity.
  - apply (proj2 (missing_input_key_raises_first Examples.fcs_ok
                    MarkerCases.populated MarkerCases.no_data
                    Examples.dmn_params)
             (BCTPYSpheresEstimator.PyStr "sub-01_task-rest_bold.nii.gz")).
    + reflexivity.
    + reflexivity.
Defined.

(** ** The graph-metric marker: what [compute] returns and where it stops *)

Section GraphMetricRunFacts.

Import BCTPYSpheres.

Context {Array MetricVal Parent ParentArgs Input : Type}.
Variable degrees_und : @value Array MetricVal -> res MetricVal.
Variable super_compute :
  Parent -> Input -> option Input -> res (@result Array MetricVal).

Lemma metrics_loop_all (ms : list string) graph :
  Forall (evaluates degrees_und graph) ms ->
  forall acc tr, exists vals,
    metrics_loop degrees_und ms graph acc tr =
      (Ok (acc ++ vals), tr ++ map Evaluate ms) /\
    Forall2 (fun m v => exists f,
               dict_get (_metrics_dict degrees_und) m = Some f /\
               f graph = Ok v) ms vals.
Proof.
  induction 1 as [|m ms [f [v [Hf Hv]]] Hms IH]; intros acc tr.
  - exists []. simpl. rewrite !app_nil_r. split; [reflexivity | constructor].
  - destruct (IH (acc ++ [v]) (tr ++ [Evaluate m])) as [vals [Hrun Hvals]].
    exists (v :: vals). split.
    + cbn [metrics_loop].
      unfold st_bind at 1. unfold st_lift at 1. unfold getitem. rewrite Hf.
      unfold st_bind at 1. unfold emit at 1.
      unfold st_bind at 1. unfold st_lift at 1. rewrite Hv.
      rewrite Hrun. simpl map. now rewrite <- !app_assoc.
    + constructor; [|exact Hvals]. exists f. now split.
Qed.

(** When every requested metric is registered and evaluates, [compute]
    returns one value per requested name, in the order requested (a name
    requested twice is evaluated twice), with [col_names] the requested
    list; the metrics are evaluated in that order, after both log lines. *)
Theorem compute_evaluates_in_order
    (self : @marker Parent) (input : Input) (extra_input : option Input)
    (tr0 : list event) (conn_out : result) (graph : value) :
  super_compute (parent self) input extra_input = Ok conn_out ->
  getitem conn_out "data" = Ok graph ->
  Forall (evaluates degrees_und graph) (iterate (metrics self)) ->
  exists vals,
    compute degrees_und super_compute self input extra_input tr0 =
      (Ok [ ("data", VVals vals);
            ("col_names", value_of_metrics (metrics self)) ],
       tr0 ++ [LogInfo "Computing FC for BCTPY";
               LogInfo "Computing BCTPY markers"]
           ++ map Evaluate (iterate (metrics self))) /\
    Forall2 (fun m v => exists f,
               dict_get (_metrics_dict degrees_und) m = Some f /\
               f graph = Ok v) (iterate (metrics self)) vals.
Proof.
  intros Hsuper Hdata Hall.
  destruct (metrics_loop_all _ graph Hall []
              ((tr0 ++ [LogInfo "Computing FC for BCTPY"]) ++
               [LogInfo "Computing BCTPY markers"])) as [vals [Hrun Hvals]].
  exists vals. split; [|exact Hvals].
  unfold compute.
  unfold st_bind at 1. unfold emit at 1.
  unfold st_bind at 1. unfold st_lift at 1. rewrite Hsuper.
  unfold st_bind at 1. unfold emit at 1.
  unfold st_bind at 1. unfold st_lift at 1. rewrite Hdata.
  unfold st_bind at 1. rewrite Hrun. unfold st_ret. simpl app at 1.
  now rewrite <- !app_assoc.
Qed.

(** A failure of the parent's [compute], or a parent result without
    [data], ends the call before any metric is looked up or evaluated. *)
Theorem compute_fails_before_any_metric
    (self : @marker Parent) (input : Input) (extra_input : option Input)
    (tr0 : list event) :
  (forall e,
      super_compute (parent self) input extra_input = Raise e ->
      compute degrees_und super_compute self input extra_input tr0 =
        (Raise e, tr0 ++ [LogInfo "Computing FC for BCTPY"])) /\
  (forall conn_out,
      super_compute (parent self) input extra_input = Ok conn_out ->
      dict_get conn_out "data" = None ->
      compute degrees_und super_compute self input extra_input tr0 =
        (Raise (KeyError "data"),
         tr0 ++ [LogInfo "Computing FC for BCTPY";
                 LogInfo "Computing BCTPY markers"])).
Proof.
  split.
  - intros e He. unfold compute, st_bind, st_lift, emit. now rewrite He.
  - intros conn_out Hc Hd. unfold compute, st_bind, st_lift, emit, getitem.
    rewrite Hc, Hd. now rewrite <- app_assoc.
Qed.

(** On a graph on which the registered metric raises, a request whose
    first name is that metric ends with the metric's exception after this
    one evaluation, and a request whose first name is not registered ends
    with [KeyError] before any evaluation.  Either way the names that
    follow are neither looked up nor evaluated, and nothing is returned. *)
Theorem failing_metric_aborts_batch
    (self : @marker Parent) (input : Input) (extra_input : option Input)
    (tr0 : list event) (m : string) (rest : list string) (e : exn)
    (conn_out : result) (graph : value) :
  iterate (metrics self) = m :: rest ->
  degrees_und graph = Raise e ->
  super_compute (parent self) input extra_input = Ok conn_out ->
  getitem conn_out "data" = Ok graph ->
  compute degrees_und super_compute self input extra_input tr0 =
    if String.eqb "degrees_und" m
    then (Raise e,
          tr0 ++ [LogInfo "Computing FC for BCTPY";
                  LogInfo "Computing BCTPY markers";
                  Evaluate m])
    else (Raise (KeyError m),
          tr0 ++ [LogInfo "Computing FC for BCTPY";
                  LogInfo "Computing BCTPY markers"]).
Proof.
  intros Hit Hf Hsuper Hdata.
  unfold compute.
  unfold st_bind at 1. unfold emit at 1.
  unfold st_bind at 1. unfold st_lift at 1. rewrite Hsuper.
  unfold st_bind at 1. unfold emit at 1.
  unfold st_bind at 1. unfold st_lift at 1. rewrite Hdata.
  unfold st_bind at 1. rewrite Hit.
  cbn [metrics_loop].
  unfold st_bind at 1. unfold st_lift at 1.
  unfold getitem, _metrics_dict. cbn [dict_get].
  destruct (String.eqb "degrees_und" m).
  - unfold st_bind at 1. unfold emit at 1.
    unfold st_bind at 1. unfold st_lift at 1. rewrite Hf.
    now rewrite <- !app_assoc.
  - now rewrite <- !app_assoc.
Qed.

End GraphMetricRunFacts.

Lemma compute_evaluates_in_order_witness :
  exists vals,
    BCTPYSpheres.compute Examples.degrees_und Examples.fc_spheres_compute
      MarkerCases.twice_marker "sub-01" None [] =
      (Ok [ ("data", BCTPYSpheres.VVals vals);
            ("col_names",
             BCTPYSpheres.VStrs ["degrees_und"; "degrees_und"]) ],
       [ BCTPYSpheres.LogInfo "Computing FC for BCTPY";
         BCTPYSpheres.LogInfo "Computing BCTPY markers";
         BCTPYSpheres.Evaluate "degrees_und";
         BCTPYSpheres.Evaluate "degrees_und" ]) /\
    List.length vals = 2%nat.
Proof.
  destruct (compute_evaluates_in_order Examples.degrees_und
              Examples.fc_spheres_compute MarkerCases.twice_marker
              "sub-01" None []
              [ ("data", BCTPYSpheres.VArray Examples.path3);
                ("row_names", BCTPYSpheres.VStrs ["PCC"; "MPFC"; "lTPJ"]);
                ("col_names", BCTPYSpheres.VStrs ["PCC"; "MPFC"; "lTPJ"]);
                ("matrix_kind", BCTPYSpheres.VStr "tril") ]
              (BCTPYSpheres.VArray Examples.path3)
              eq_refl eq_refl) as [vals [Hrun Hvals]].
  - repeat constructor;
      exists Examples.degrees_und, [1; 2; 1]%Z; split; reflexivity.
  - exists vals. split; [exact Hrun|].
    symmetry. exact (Forall2_length Hvals).
Defined.

Lemma compute_fails_before_any_metric_witness :
  BCTPYSpheres.compute Examples.degrees_und MarkerCases.failing_compute
    Examples.degree_marker "sub-01" None [] =
    (Raise (ExternalError "no BOLD data"),
     [ BCTPYSpheres.LogInfo "Computing FC for BCTPY" ]) /\
  BCTPYSpheres.compute Examples.degrees_und MarkerCases.dataless_compute
    Examples.degree_marker "sub-01" None [] =
    (Raise (KeyError "data"),
     [ BCTPYSpheres.LogInfo "Computing FC for BCTPY";
       BCTPYSpheres.LogInfo "Computing BCTPY markers" ]).
Proof.
  split.
  - apply (proj1 (compute_fails_before_any_metric Examples.degrees_und
                    MarkerCases.failing_compute Examples.degree_marker
                    "sub-01" None [])).
    reflexivity.
  - apply (proj2 (compute_fails_before_any_metric Examples.degrees_und
                    MarkerCases.dataless_compute Examples.degree_marker
                    "sub-01" None [])
             [ ("col_names", BCTPYSpheres.VStrs ["PCC"; "MPFC"; "lTPJ"]) ]).
    + reflexivity.
    + reflexivity.
Defined.

Lemma failing_metric_aborts_batch_witness :
  BCTPYSpheres.compute MetricCases.degrees_und MarkerCases.textual_compute
    MarkerCases.twice_marker "sub-01" None [] =
    (Raise (ExternalError
              "AttributeError: 'str' object has no attribute 'copy'"),
     [ BCTPYSpheres.LogInfo "Computing FC for BCTPY";
       BCTPYSpheres.LogInfo "Computing BCTPY markers";
       BCTPYSpheres.Evaluate "degrees_und" ]).
Proof.
  apply (failing_metric_aborts_batch MetricCases.degrees_und
           MarkerCases.textual_compute MarkerCases.twice_marker
           "sub-01" None [] "degrees_und" ["degrees_und"]
           (ExternalError
              "AttributeError: 'str' object has no attribute 'copy'")
           [ ("data", BCTPYSpheres.VStr "not an array") ]
           (BCTPYSpheres.VStr "not an array")).
  - reflexivity.
  - reflexivity.
  - reflexivity.
  - reflexivity.
Defined.

(** ** The phase-coherence tensor *)

Section CoherenceFacts.

Import InstantPhaseConnectivityBase.

(** Timepoints are independent: the tensor of two runs put one after the
    other in time is the tensor of the first followed by the tensor of the
    second. *)
Theorem iphc_concatenates_over_time (phi1 phi2 : matrix) :
  exists out1 out2,
    iphc phi1 = Ok out1 /\ iphc phi2 = Ok out2 /\
    iphc (phi1 ++ phi2) = Ok (out1 ++ out2).
Proof.
  do 2 eexists. split; [apply iphc_eq|]. split; [apply iphc_eq|].
  rewrite iphc_eq. now rewrite map_app.
Qed.

End CoherenceFacts.

(** ** The phase-coherence marker: repetition time and failures *)

Section PhaseRunFacts.

Import InstantPhaseConnectivityBase.

Context {Masks Input Complex : Type}.
Variable aggregate :
  @marker Masks -> Input -> option Input ->
  res (list (string * aggregation_feature)).
Variable stats_zscore : matrix -> matrix.
Variable butterworth : matrix -> Q -> Q -> Q -> Z -> res matrix.
Variable signal_hilbert : matrix -> Complex.
Variable np_angle : Complex -> matrix.

(** A marker constructed with a repetition time never reads the header:
    the result is the same whatever the header holds, or fails to hold. *)
Theorem explicit_tr_ignores_header
    (zooms1 zooms2 : Input -> res (list Q))
    (self : marker) (input : Input) (extra_input : option Input) (tr0 : Q) :
  tr self = Some tr0 ->
  compute aggregate zooms1 stats_zscore butterworth signal_hilbert np_angle
          self input extra_input =
  compute aggregate zooms2 stats_zscore butterworth signal_hilbert np_angle
          self input extra_input.
Proof.
  intros Htr. unfold compute. rewrite Htr. reflexivity.
Qed.

(** The steps of [compute] fail in order: a failure of [aggregate], then a
    result without the ["aggregation"] key; then, for an aggregation that
    holds its data and a z-score that returns, (without an explicit
    repetition time) a failing header or one with fewer than four zooms,
    then a zero repetition time, explicit or read from the header, then a
    failure of the filter, called with the sampling rate 1/tr.  The first
    one that applies is the exception of the call. *)
Theorem compute_first_failure
    (header_get_zooms : Input -> res (list Q))
    (self : marker) (input : Input) (extra_input : option Input) :
  let run := compute aggregate header_get_zooms stats_zscore butterworth
                     signal_hilbert np_angle self input extra_input in
  (forall e, aggregate self input extra_input = Raise e -> run = Raise e) /\
  (forall aggregation,
      aggregate self input extra_input = Ok aggregation ->
      dict_get aggregation "aggregation" = None ->
      run = Raise (KeyError "aggregation")) /\
  (forall aggregation agg,
      aggregate self input extra_input = Ok aggregation ->
      getitem aggregation "aggregation" = Ok agg ->
      tr self = None ->
      (forall e, header_get_zooms input = Raise e -> run = Raise e) /\
      (forall zooms,
          header_get_zooms input = Ok zooms ->
          (List.length zooms < 4)%nat ->
          run = Raise (IndexError "tuple index out of range")) /\
      (forall zooms z,
          header_get_zooms input = Ok zooms ->
          nth_error zooms 3 = Some z ->
          Qeq_bool z 0 = true ->
          run = Raise (ZeroDivisionError "float division by zero")) /\
      (forall zooms z e,
          header_get_zooms input = Ok zooms ->
          nth_error zooms 3 = Some z ->
          Qeq_bool z 0 = false ->
          butterworth (stats_zscore (agg_data agg)) (1 / z)%Q
                      (lowpass self) (highpass self) (order self)
            = Raise e ->
          run = Raise e)) /\
  (forall aggregation agg,
      aggregate self input extra_input = Ok aggregation ->
      getitem aggregation "aggregation" = Ok agg ->
      forall tr0,
        tr self = Some tr0 ->
        (Qeq_bool tr0 0 = true ->
         run = Raise (ZeroDivisionError "float division by zero")) /\
        (forall e,
            Qeq_bool tr0 0 = false ->
            butterworth (stats_zscore (agg_data agg)) (1 / tr0)%Q
                        (lowpass self) (highpass self) (order self)
              = Raise e ->
            run = Raise e)).
Proof.
  intros run. subst run. unfold compute.
  split; [|split; [|split]].
  - intros e He. now rewrite He.
  - intros aggregation Ha Hk. rewrite Ha. cbn [res_bind].
    unfold getitem. now rewrite Hk.
  - intros aggregation agg Ha Hg Htr. rewrite Ha. cbn [res_bind].
    rewrite Hg. cbn [res_bind]. rewrite Htr.
    split; [|split; [|split]].
    + intros e He. now rewrite He.
    + intros zooms Hz Hlen. rewrite Hz. cbn [res_bind]. unfold tuple_getitem.
      assert (Hnone : nth_error zooms 3 = None)
        by (apply nth_error_None; lia).
      now rewrite Hnone.
    + intros zooms z Hz Hn Hzero. rewrite Hz. cbn [res_bind].
      unfold tuple_getitem. rewrite Hn. cbn [res_bind].
      unfold py_div. now rewrite Hzero.
    + intros zooms z e Hz Hn Hzero Hb. rewrite Hz. cbn [res_bind].
      unfold tuple_getitem. rewrite Hn. cbn [res_bind].
      unfold py_div. rewrite Hzero. cbn [res_bind]. now rewrite Hb.
  - intros aggregation agg Ha Hg tr0 Htr. rewrite Ha. cbn [res_bind].
    rewrite Hg. cbn [res_bind]. rewrite Htr. cbn [res_bind].
    split.
    + intros Hzero. unfold py_div. now rewrite Hzero.
    + intros e Hzero Hb. unfold py_div. rewrite Hzero. cbn [res_bind].
      now rewrite Hb.
Qed.

End PhaseRunFacts.

Lemma explicit_tr_ignores_header_witness :
  InstantPhaseConnectivityBase.compute Examples.parcel_aggregate
    Examples.zooms Examples.same Examples.pass_filter Examples.same
    Examples.same MarkerCases.timed_marker "sub-01" None =
  InstantPhaseConnectivityBase.compute Examples.parcel_aggregate
    MarkerCases.short_zooms Examples.same Examples.pass_filter Examples.same
    Examples.same MarkerCases.timed_marker "sub-01" None.
Proof.
  apply (explicit_tr_ignores_header Examples.parcel_aggregate Examples.same
           Examples.pass_filter Examples.same Examples.same
           Examples.zooms MarkerCases.short_zooms MarkerCases.timed_marker
           "sub-01" None (72 # 100) eq_refl).
Defined.

Lemma compute_first_failure_witness :
  InstantPhaseConnectivityBase.compute Examples.parcel_aggregate
    MarkerCases.short_zooms Examples.same Examples.pass_filter Examples.same
    Examples.same Examples.band_marker "sub-01" None
    = Raise (IndexError "tuple index out of range") /\
  InstantPhaseConnectivityBase.compute Examples.parcel_aggregate
    Examples.zooms Examples.same Examples.pass_filter Examples.same
    Examples.same MarkerCases.zero_tr_marker "sub-01" None
    = Raise (ZeroDivisionError "float division by zero").
Proof.
  split.
  - pose proof (compute_first_failure Examples.parcel_aggregate Examples.same
                  Examples.pass_filter Examples.same Examples.same
                  MarkerCases.short_zooms Examples.band_marker "sub-01" None)
      as H.
    cbv zeta in H. destruct H as (_ & _ & H & _).
    destruct (H _ _ eq_refl eq_refl eq_refl) as (_ & Hshort & _).
    apply (Hshort [2; 2; 2]%Q eq_refl). simpl. lia.
  - pose proof (compute_first_failure Examples.parcel_aggregate Examples.same
                  Examples.pass_filter Examples.same Examples.same
                  Examples.zooms MarkerCases.zero_tr_marker "sub-01" None)
      as H.
    cbv zeta in H. destruct H as (_ & _ & _ & H).
    destruct (H _ _ eq_refl eq_refl 0%Q eq_refl) as (Hzero & _).
    apply Hzero. reflexivity.
Defined.

(** ** The phase-coherence marker: which check speaks *)

Section InitMessageFacts.

Import InstantPhaseConnectivityBase.

Context {Masks : Type}.

(** The four checks run in the order highpass, lowpass, order, band; the
    message is that of the first one that fails, so a non-positive lowpass
    is reported as such even though it also makes the band empty. *)
Theorem init_reports_first_failed_check (class_name : string) (hp lp : Q)
    (ord : Z) (masks : option Masks) (tr : option Q) (name : option string) :
  let made := __init__ class_name hp lp ord masks tr name in
  ((hp < 0)%Q ->
   made = Raise (ValueError "Highpass must be positive or 0")) /\
  ((0 <= hp)%Q -> (lp <= 0)%Q ->
   made = Raise (ValueError "Lowpass must be positive")) /\
  ((0 <= hp)%Q -> (0 < lp)%Q -> (ord <= 0)%Z ->
   made = Raise (ValueError "Order must be positive")) /\
  ((0 <= hp)%Q -> (0 < lp)%Q -> (0 < ord)%Z -> (lp <= hp)%Q ->
   made = Raise (ValueError "Highpass must be lower than lowpass")).
Proof.
  intros made. subst made. unfold __init__, raise_error.
  assert (Hge : (0 <= hp)%Q -> Qltb hp 0 = false).
  { intros H. destruct (Qltb hp 0) eqn:E; [|reflexivity].
    apply Qltb_lt in E. now apply Qlt_not_le in E. }
  assert (Hpos : (0 < lp)%Q -> Qle_bool lp 0 = false)
    by (intros H; now apply Qle_bool_false).
  split; [|split; [|split]].
  - intros H. apply Qltb_lt in H. now rewrite H.
  - intros H0 H. rewrite (Hge H0). apply Qle_bool_iff in H. now rewrite H.
  - intros H0 H1 H. rewrite (Hge H0), (Hpos H1).
    apply Z.leb_le in H. now rewrite H.
  - intros H0 H1 H2 H. rewrite (Hge H0), (Hpos H1).
    apply Z.leb_gt in H2. rewrite H2.
    apply Qle_bool_iff in H. now rewrite H.
Qed.

End InitMessageFacts.

Lemma init_reports_first_failed_check_witness :
  InstantPhaseConnectivityBase.__init__ (Masks := unit)
    "InstantPhaseConnectivityParcels" (1 # 100) (-1 # 10) 0 None None None
  = Raise (ValueError "Lowpass must be positive").
Proof.
  pose proof (init_reports_first_failed_check (Masks := unit)
                "InstantPhaseConnectivityParcels" (1 # 100) (-1 # 10) 0
                None None None) as H.
  cbv zeta in H. destruct H as (_ & H & _).
  apply H; unfold Qle; simpl; lia.
Defined.

(** * Properties of the datagrabbers *)

(** ** Strings, loops and products *)

Section PyFacts.

Import Py.

Lemma prefix_refl_app (s t : string) : String.prefix s (s ++ t)%string = true.
Proof.
  induction s as [|a s IH]; simpl; [now destruct t|].
  destruct (ascii_dec a a) as [_|Hne]; [exact IH | now elim Hne].
Qed.

Lemma contains_of_prefix (sub s : string) :
  String.prefix sub s = true -> contains sub s = true.
Proof. intros H. destruct s; cbn [contains]; now rewrite H. Qed.

Lemma contains_app (pre sub post : string) :
  contains sub (pre ++ sub ++ post)%string = true.
Proof.
  induction pre as [|a pre IH].
  - cbn [append]. apply contains_of_prefix. apply prefix_refl_app.
  - cbn [append contains]. rewrite IH. apply orb_true_r.
Qed.

(** Without the separator in [s], the first piece of [s + sep + rest] is
    [s]. *)
Lemma split_first_piece (sep : ascii) (s rest : string) :
  contains (String sep EmptyString) s = false ->
  split sep (s ++ String sep rest)%string = s :: split sep rest.
Proof.
  induction s as [|a s IH]; intros Hno.
  - simpl. now rewrite Ascii.eqb_refl.
  - unfold contains in Hno; fold contains in Hno.
    apply orb_false_iff in Hno as [Hp Hc].
    simpl in Hp. destruct (ascii_dec sep a) as [->|Hne].
    + now destruct s.
    + simpl. destruct (Ascii.eqb a sep) eqn:E.
      * apply Ascii.eqb_eq in E. now elim Hne.
      * now rewrite (IH Hc).
Qed.

Lemma split_no_separator (sep : ascii) (s : string) :
  contains (String sep EmptyString) s = false -> split sep s = [s].
Proof.
  induction s as [|a s IH]; intros Hno; [reflexivity|].
  unfold contains in Hno; fold contains in Hno.
  apply orb_false_iff in Hno as [Hp Hc].
  simpl in Hp. destruct (ascii_dec sep a) as [->|Hne].
  - now destruct s.
  - simpl. destruct (Ascii.eqb a sep) eqn:E.
    + apply Ascii.eqb_eq in E. now elim Hne.
    + now rewrite (IH Hc).
Qed.

Lemma split_not_nil (sep : ascii) (s : string) : split sep s <> [].
Proof.
  destruct s as [|a s]; simpl; [discriminate|].
  destruct (Ascii.eqb a sep); [discriminate|].
  destruct (split sep s); discriminate.
Qed.

Lemma map_res_first_piece (sep : ascii) (names : list string) :
  exists subjects,
    map_res (fun name => list_getitem (split sep name) 0) names = Ok subjects
    /\ List.length subjects = List.length names
    /\ Forall2 (fun name subject => exists pieces,
                    split sep name = subject :: pieces) names subjects.
Proof.
  induction names as [|name names (subjects & Heq & Hlen & Hall)].
  - exists []. repeat split. constructor.
  - destruct (split sep name) as [|piece pieces] eqn:E;
      [now apply split_not_nil in E|].
    exists (piece :: subjects). simpl. rewrite E. simpl. rewrite Heq. simpl.
    repeat split; [now rewrite Hlen|].
    constructor; [now exists pieces | exact Hall].
Qed.

Lemma str_in_iff (x : string) (l : list string) : str_in x l = true <-> In x l.
Proof.
  unfold str_in. rewrite existsb_exists. split.
  - intros [y [Hy Heq]]. apply String.eqb_eq in Heq. now subst.
  - intros H. exists x. split; [exact H | apply String.eqb_refl].
Qed.

Lemma check_each_ok (xs valid : list string) (msg : string -> string) :
  check_each xs valid msg = Ok tt <-> Forall (fun x => In x valid) xs.
Proof.
  induction xs as [|x xs IH]; simpl.
  - split; [constructor | reflexivity].
  - destruct (str_in x valid) eqn:E; simpl.
    + rewrite IH. apply str_in_iff in E. split.
      * intros H. now constructor.
      * intros H. now inversion H.
    + split; [discriminate|]. intros H. inversion H as [|? ? Hx _]. subst.
      apply str_in_iff in Hx. congruence.
Qed.

Lemma check_each_first_invalid (pre post valid : list string) (x : string)
    (msg : string -> string) :
  Forall (fun y => In y valid) pre -> ~ In x valid ->
  check_each (pre ++ x :: post) valid msg = Raise (ValueError (msg x)).
Proof.
  intros Hpre Hx. induction Hpre as [|y pre Hy _ IH]; simpl.
  - destruct (str_in x valid) eqn:E; [|reflexivity].
    apply str_in_iff in E. now elim Hx.
  - apply str_in_iff in Hy. now rewrite Hy.
Qed.

Lemma check_each_result (xs valid : list string) (msg : string -> string) :
  check_each xs valid msg = Ok tt \/
  exists x, In x xs /\ ~ In x valid /\
            check_each xs valid msg = Raise (ValueError (msg x)).
Proof.
  induction xs as [|x xs IH]; simpl; [now left|].
  destruct (str_in x valid) eqn:E; simpl.
  - destruct IH as [IH | (y & Hy & Hny & IH)]; [now left|].
    right. exists y. auto.
  - right. exists x. split; [now left|]. split; [|reflexivity].
    intros H. apply str_in_iff in H. congruence.
Qed.

Lemma in_product3 {A B C} (xs : list A) (ys : list B) (zs : list C) x y z :
  In (x, y, z) (product3 xs ys zs) <-> In x xs /\ In y ys /\ In z zs.
Proof.
  unfold product3. rewrite in_flat_map. split.
  - intros (x' & Hx & H). apply in_flat_map in H as (y' & Hy & H).
    apply in_map_iff in H as (z' & Heq & Hz). inversion Heq. subst. auto.
  - intros (Hx & Hy & Hz). exists x. split; [exact Hx|].
    apply in_flat_map. exists y. split; [exact Hy|].
    apply in_map_iff. now exists z.
Qed.

Lemma length_product3 {A B C} (xs : list A) (ys : list B) (zs : list C) :
  List.length (product3 xs ys zs) =
  (List.length xs * (List.length ys * List.length zs))%nat.
Proof.
  unfold product3. induction xs as [|x xs IH]; simpl; [reflexivity|].
  rewrite length_app, IH. f_equal. clear IH.
  induction ys as [|y ys IHy]; simpl; [reflexivity|].
  now rewrite length_app, length_map, IHy.
Qed.

End PyFacts.

(** ** [hcp_aging.py]: construction and elements *)

Section HCPAgingFacts.

Import Py HCPAging.

Context {Base Item : Type}.
Variable super__init__ :
  list string -> option string -> json -> list string -> string -> res Base.
Variable super_get_item : Base -> string -> string -> string -> res Item.
Variable datadir_iterdir : Base -> res (list string).

Lemma all_tasks_valid : Forall (fun x => In x all_tasks) all_tasks.
Proof. apply Forall_forall. auto. Qed.

Lemma all_phase_encodings_valid :
  Forall (fun x => In x all_phase_encodings) all_phase_encodings.
Proof. apply Forall_forall. auto. Qed.

(** A grabber that was constructed holds the selection that was asked for
    (a single name as a one-element list, nothing as the full list), and
    every name it holds is one of the dataset's. *)
Theorem HCPAging_init_keeps_valid_selection (datadir : option string)
    (t p : str_or_list) (kwargs : list (string * json)) (g : grabber) :
  __init__ super__init__ datadir t p kwargs = Ok g ->
  tasks g = match t with
            | ArgNone => all_tasks
            | ArgStr task => [task]
            | ArgList l => l
            end /\
  phase_encodings g = match p with
                      | ArgNone => all_phase_encodings
                      | ArgStr pe => [pe]
                      | ArgList l => l
                      end /\
  Forall (fun x => In x all_tasks) (tasks g) /\
  Forall (fun x => In x all_phase_encodings) (phase_encodings g).
Proof.
  unfold __init__.
  set (ps := match p with
             | ArgNone => all_phase_encodings
             | ArgStr pe => [pe]
             | ArgList l => l
             end).
  set (ts := match t with
             | ArgNone => all_tasks
             | ArgStr task => [task]
             | ArgList l => l
             end).
  assert (Hts : forall rest : list string -> res grabber,
             res_bind
               match t with
               | ArgNone => Ok all_tasks
               | ArgStr task =>
                   res_bind (check_each [task] all_tasks task_message)
                            (fun _ => Ok [task])
               | ArgList l =>
                   res_bind (check_each l all_tasks task_message)
                            (fun _ => Ok l)
               end rest = Ok g ->
             Forall (fun x => In x all_tasks) ts /\ rest ts = Ok g).
  { intros rest. subst ts. destruct t as [|task|l]; cbn [res_bind].
    - intros H. split; [apply all_tasks_valid | exact H].
    - destruct (check_each [task] all_tasks task_message) as [[]|e] eqn:E;
        cbn [res_bind]; [|discriminate].
      intros H. split; [now apply check_each_ok in E | exact H].
    - destruct (check_each l all_tasks task_message) as [[]|e] eqn:E;
        cbn [res_bind]; [|discriminate].
      intros H. split; [now apply check_each_ok in E | exact H]. }
  intros H. apply Hts in H as [Hvalid H].
  destruct (check_each ps all_phase_encodings phase_encoding_message)
    as [[]|e] eqn:E; cbn [res_bind] in H; [|discriminate].
  apply check_each_ok in E.
  destruct (super__init__ _ _ _ _ _) as [b|e]; cbn [res_bind] in H;
    [|discriminate].
  inversion H. subst g. cbn. auto.
Qed.

(** The tasks are checked before the phase encodings, each list in order:
    the error names the first task that is not one of the dataset's, or,
    when all tasks pass, the first such phase encoding; the parent
    constructor is not reached. *)
Theorem HCPAging_init_reports_first_invalid (datadir : option string)
    (t p : str_or_list) (kwargs : list (string * json)) :
  let ts := match t with
            | ArgNone => all_tasks
            | ArgStr task => [task]
            | ArgList l => l
            end in
  let ps := match p with
            | ArgNone => all_phase_encodings
            | ArgStr pe => [pe]
            | ArgList l => l
            end in
  (forall pre x post,
      ts = pre ++ x :: post ->
      Forall (fun y => In y all_tasks) pre -> ~ In x all_tasks ->
      __init__ super__init__ datadir t p kwargs =
        Raise (ValueError (task_message x))) /\
  (forall pre x post,
      Forall (fun y => In y all_tasks) ts ->
      ps = pre ++ x :: post ->
      Forall (fun y => In y all_phase_encodings) pre ->
      ~ In x all_phase_encodings ->
      __init__ super__init__ datadir t p kwargs =
        Raise (ValueError (phase_encoding_message x))).
Proof.
  intros ts ps. subst ts ps. split.
  - intros pre x post Hts Hpre Hx. unfold __init__.
    destruct t as [|task|l].
    + exfalso. apply Hx. rewrite Hts. apply in_elt.
    + rewrite Hts, (check_each_first_invalid _ _ _ _ _ Hpre Hx). reflexivity.
    + rewrite Hts, (check_each_first_invalid _ _ _ _ _ Hpre Hx). reflexivity.
  - intros pre x post Hts Hps Hpre Hx. unfold __init__.
    rewrite Hps, (check_each_first_invalid _ _ _ _ _ Hpre Hx).
    destruct t as [|task|l]; cbn [res_bind].
    + reflexivity.
    + apply check_each_ok with (msg := task_message) in Hts.
      now rewrite Hts.
    + apply check_each_ok with (msg := task_message) in Hts.
      now rewrite Hts.
Qed.

(** [get_elements] never fails on the directory names: each entry whose
    name contains "V1_MR" gives the part of its name before the first
    underscore as a subject, and the elements are all combinations of these
    subjects with the grabber's tasks and phase encodings, each once per
    occurrence. *)
Theorem HCPAging_get_elements_all_combinations (g : grabber)
    (names : list string) :
  datadir_iterdir (base g) = Ok names ->
  exists subjects elems,
    get_elements datadir_iterdir g = Ok elems /\
    Forall2 (fun name subject =>
               exists pieces, split "_" name = subject :: pieces)
            (filter (contains "V1_MR") names) subjects /\
    (forall s t p,
        In (s, t, p) elems <->
        In s subjects /\ In t (tasks g) /\ In p (phase_encodings g)) /\
    List.length elems =
      (List.length subjects *
       (List.length (tasks g) * List.length (phase_encodings g)))%nat.
Proof.
  intros Hdir.
  destruct (map_res_first_piece "_" (filter (contains "V1_MR") names))
    as (subjects & Hmap & _ & Hall).
  exists subjects, (product3 subjects (tasks g) (phase_encodings g)).
  split; [|split; [exact Hall | split]].
  - unfold get_elements. rewrite Hdir. cbn [res_bind].
    rewrite Hmap. reflexivity.
  - intros s t p. apply in_product3.
  - apply length_product3.
Qed.

Lemma contains_after (sub tail s : string) :
  contains sub tail = true -> contains sub (s ++ tail)%string = true.
Proof.
  intros H. induction s as [|a s IH]; [exact H|].
  cbn [append contains]. rewrite IH. apply orb_true_r.
Qed.

Lemma map_res_subjects (marker : string) (ids : list string) :
  contains marker ("_" ++ marker)%string = true ->
  Forall (fun s => contains "_" s = false) ids ->
  map_res (fun name => list_getitem (split "_" name) 0)
          (filter (contains marker)
                  (map (fun s => (s ++ "_" ++ marker)%string) ids)) = Ok ids.
Proof.
  intros Hm Hids. induction Hids as [|s ids Hs _ IH]; [reflexivity|].
  cbn [map filter]. rewrite (contains_after marker _ s Hm).
  cbn [map_res]. change (s ++ "_" ++ marker)%string
    with (s ++ String "_" marker)%string.
  rewrite (split_first_piece "_" s marker Hs).
  cbn [list_getitem nth_error res_bind]. now rewrite IH.
Qed.

(** Directory names made of a subject identifier without underscore and
    the suffix "_V1_MR" give back exactly these identifiers. *)
Theorem HCPAging_get_elements_recovers_subjects (g : grabber)
    (ids : list string) :
  datadir_iterdir (base g) =
    Ok (map (fun s => (s ++ "_V1_MR")%string) ids) ->
  Forall (fun s => contains "_" s = false) ids ->
  get_elements datadir_iterdir g =
    Ok (product3 ids (tasks g) (phase_encodings g)).
Proof.
  intros Hdir Hids. unfold get_elements. rewrite Hdir. cbn [res_bind].
  pose proof (map_res_subjects "V1_MR" ids eq_refl Hids) as Hsub.
  cbn [append] in Hsub. rewrite Hsub. reflexivity.
Qed.

End HCPAgingFacts.

Lemma HCPAging_init_keeps_valid_selection_witness :
  exists g,
    HCPAging.__init__ GrabberCases.pattern_init None (Py.ArgStr "REST1")
      Py.ArgNone [] = Ok g /\
    HCPAging.tasks g = ["REST1"] /\
    HCPAging.phase_encodings g = ["AP"; "PA"].
Proof.
  eexists. split; [reflexivity|].
  destruct (HCPAging_init_keeps_valid_selection GrabberCases.pattern_init
              None (Py.ArgStr "REST1") Py.ArgNone [] _ eq_refl)
    as (Ht & Hp & _).
  split; [exact Ht | exact Hp].
Defined.

Lemma HCPAging_init_reports_first_invalid_witness :
  HCPAging.__init__ GrabberCases.pattern_init None
    (Py.ArgList ["REST1"; "NBACK"; "STROOP"]) (Py.ArgStr "LR") [] =
  Raise (ValueError (HCPAging.task_message "NBACK")) /\
  HCPAging.__init__ GrabberCases.pattern_init None
    (Py.ArgList ["REST1"]) (Py.ArgStr "LR") [] =
  Raise (ValueError (HCPAging.phase_encoding_message "LR")).
Proof.
  split.
  - pose proof (HCPAging_init_reports_first_invalid GrabberCases.pattern_init
                  None (Py.ArgList ["REST1"; "NBACK"; "STROOP"])
                  (Py.ArgStr "LR") []) as H.
    cbv zeta in H. destruct H as [H _].
    apply (H ["REST1"] "NBACK" ["STROOP"] eq_refl).
    + constructor; [simpl; auto | constructor].
    + simpl. intros H0.
      repeat (destruct H0 as [H0|H0]; [discriminate H0|]). exact H0.
  - pose proof (HCPAging_init_reports_first_invalid GrabberCases.pattern_init
                  None (Py.ArgList ["REST1"]) (Py.ArgStr "LR") []) as H.
    cbv zeta in H. destruct H as [_ H].
    apply (H [] "LR" [] ).
    + constructor; [simpl; auto | constructor].
    + reflexivity.
    + constructor.
    + simpl. intros H0.
      repeat (destruct H0 as [H0|H0]; [discriminate H0|]). exact H0.
Defined.

Lemma HCPAging_get_elements_all_combinations_witness :
  exists elems,
    HCPAging.get_elements GrabberCases.aging_dir GrabberCases.aging_rest
      = Ok elems /\
    List.length elems = 4%nat /\
    In ("HCA6010538", "REST1", "PA") elems.
Proof.
  destruct (HCPAging_get_elements_all_combinations GrabberCases.aging_dir
              GrabberCases.aging_rest _ eq_refl)
    as (subjects & elems & Hrun & Hsub & Hin & Hlen).
  injection Hrun as <-.
  eexists. split; [reflexivity|]. split; [reflexivity|].
  simpl. auto 10.
Defined.

Lemma HCPAging_get_elements_recovers_subjects_witness :
  HCPAging.get_elements GrabberCases.develop_dir GrabberCases.aging_rest =
  Ok (Py.product3 ["HCD0001305"; "HCD0008117"] ["REST1"] ["AP"; "PA"]).
Proof.
  apply (HCPAging_get_elements_recovers_subjects GrabberCases.develop_dir
           GrabberCases.aging_rest ["HCD0001305"; "HCD0008117"] eq_refl).
  repeat constructor.
Defined.

(** ** [hcp_aging.py], [hcp_d.py], [hcp_ya_confounds_cat.py]: names in paths *)

Section TaskNameFacts.

Import Py.

(** Two tasks never get the same name in the paths: the prefix added is
    "rfMRI_" or "tfMRI_", of the same length, in front of the task. *)
Theorem new_task_injective (t1 t2 : string) :
  (HCPAging.new_task t1 = HCPAging.new_task t2 -> t1 = t2) /\
  (HCPD.new_task t1 = HCPD.new_task t2 -> t1 = t2).
Proof.
  split.
  - unfold HCPAging.new_task.
    destruct (contains "REST" t1), (contains "REST" t2); cbn [append];
      intros H; now inversion H.
  - unfold HCPD.new_task.
    destruct (contains "REST" t1), (contains "REST" t2); cbn [append];
      intros H; now inversion H.
Qed.

End TaskNameFacts.

Lemma new_task_injective_witness :
  HCPAging.new_task "CARIT" = "tfMRI_CARIT" /\ "CARIT" = "CARIT".
Proof.
  split; [reflexivity|].
  apply (proj1 (new_task_injective "CARIT" "CARIT")). reflexivity.
Defined.

(** ** [hcp_d.py]: the elements that are skipped *)

Section HCPDFacts.

Import Py HCPD.

Context {Base Item : Type}.
Variable super__init__ :
  list string -> string -> json -> list string -> res Base.
Variable datadir_iterdir : Base -> res (list string).

Lemma HCPD_init_tasks_valid (datadir : string) (t p : str_or_list)
    (g : grabber) :
  __init__ super__init__ datadir t p = Ok g ->
  Forall (fun x => In x all_tasks) (tasks g).
Proof.
  unfold __init__. intros H.
  assert (Hts : exists ts,
             Forall (fun x => In x all_tasks) ts /\
             match t with
             | ArgNone => Ok all_tasks
             | ArgStr task =>
                 res_bind (check_each [task] all_tasks task_message)
                          (fun _ => Ok [task])
             | ArgList l =>
                 res_bind (check_each l all_tasks task_message)
                          (fun _ => Ok l)
             end = Ok ts).
  { destruct t as [|task|l]; cbn [res_bind] in H |- *.
    - exists all_tasks. split; [apply Forall_forall; auto | reflexivity].
    - destruct (check_each [task] all_tasks task_message) as [[]|e] eqn:E;
        cbn [res_bind] in H |- *; [|discriminate].
      exists [task]. split; [now apply check_each_ok in E | reflexivity].
    - destruct (check_each l all_tasks task_message) as [[]|e] eqn:E;
        cbn [res_bind] in H |- *; [|discriminate].
      exists l. split; [now apply check_each_ok in E | reflexivity]. }
  destruct Hts as (ts & Hvalid & Hts). rewrite Hts in H. cbn [res_bind] in H.
  destruct (check_each _ all_phase_encodings phase_encoding_message)
    as [[]|e]; cbn [res_bind] in H; [|discriminate].
  destruct (super__init__ _ _ _ _) as [b|e]; cbn [res_bind] in H;
    [|discriminate].
  inversion H. subst g. exact Hvalid.
Qed.

Lemma filter_all {A} (f : A -> bool) (l : list A) :
  (forall x, In x l -> f x = true) -> filter f l = l.
Proof.
  induction l as [|x l IH]; intros H; [reflexivity|].
  simpl. rewrite (H x (or_introl eq_refl)). f_equal.
  apply IH. intros y Hy. apply H. now right.
Qed.

(** The test that skips the AP run of the emotion task compares the task
    with "tfMRI_EMOTION", a name no constructed grabber holds: for every
    grabber that was constructed nothing is skipped, and the elements are
    all combinations, the AP run of "EMOTION" among them. *)
Theorem HCPD_get_elements_skips_nothing (datadir : string)
    (t p : str_or_list) (g : grabber) (names : list string) :
  __init__ super__init__ datadir t p = Ok g ->
  datadir_iterdir (base g) = Ok names ->
  exists subjects,
    get_elements datadir_iterdir g =
      Ok (product3 subjects (tasks g) (phase_encodings g)) /\
    Forall2 (fun name subject =>
               exists pieces, split "_" name = subject :: pieces)
            (filter (contains "V1_MR") names) subjects /\
    (forall s,
        In s subjects -> In "EMOTION" (tasks g) ->
        In "AP" (phase_encodings g) ->
        In (s, "EMOTION", "AP")
           (product3 subjects (tasks g) (phase_encodings g))).
Proof.
  intros Hinit Hdir.
  pose proof (HCPD_init_tasks_valid _ _ _ _ Hinit) as Hvalid.
  destruct (map_res_first_piece "_" (filter (contains "V1_MR") names))
    as (subjects & Hmap & _ & Hall).
  exists subjects. split; [|split; [exact Hall|]].
  - unfold get_elements. rewrite Hdir. cbn [res_bind]. rewrite Hmap.
    cbn [res_bind]. f_equal. apply filter_all.
    intros [[s task] pe] Hin. apply in_product3 in Hin as (_ & Htask & _).
    rewrite Forall_forall in Hvalid. specialize (Hvalid task Htask).
    cbn [fst snd]. unfold skipped.
    destruct (String.eqb task "tfMRI_EMOTION") eqn:E; [|reflexivity].
    apply String.eqb_eq in E. subst task. exfalso.
    simpl in Hvalid.
    repeat (destruct Hvalid as [Hvalid|Hvalid]; [discriminate Hvalid|]).
    exact Hvalid.
  - intros s Hs Ht Hp. apply in_product3. auto.
Qed.

End HCPDFacts.

Lemma HCPD_get_elements_skips_nothing_witness :
  exists g,
    HCPD.__init__ GrabberCases.pattern_init_d "/data/hcp-d"
      (Py.ArgStr "EMOTION") Py.ArgNone = Ok g /\
    HCPD.get_elements GrabberCases.develop_dir g =
      Ok [ ("HCD0001305", "EMOTION", "PA"); ("HCD0001305", "EMOTION", "AP");
           ("HCD0008117", "EMOTION", "PA"); ("HCD0008117", "EMOTION", "AP") ].
Proof.
  eexists. split; [reflexivity|].
  destruct (HCPD_get_elements_skips_nothing GrabberCases.pattern_init_d
              GrabberCases.develop_dir "/data/hcp-d" (Py.ArgStr "EMOTION")
              Py.ArgNone _ _ eq_refl eq_refl)
    as (subjects & Hrun & _ & _).
  reflexivity.
Defined.

(** ** Nested dictionaries: lookup after assignment *)

Section JsonFacts.

Import Py.

Lemma dict_get_set_same {V} (d : list (string * V)) (k : string) (v : V) :
  dict_get (dict_set d k v) k = Some v.
Proof.
  induction d as [|[k' v'] d IH]; simpl.
  - now rewrite String.eqb_refl.
  - destruct (String.eqb k' k) eqn:E; simpl; rewrite E; [reflexivity | exact IH].
Qed.

Lemma dict_get_set_other {V} (d : list (string * V)) (k k' : string) (v : V) :
  k' <> k -> dict_get (dict_set d k v) k' = dict_get d k'.
Proof.
  intros Hne. induction d as [|[k0 v0] d IH]; simpl.
  - destruct (String.eqb k k') eqn:E; [|reflexivity].
    apply String.eqb_eq in E. now elim Hne.
  - destruct (String.eqb k0 k) eqn:E; simpl.
    + apply String.eqb_eq in E. subst k0.
      destruct (String.eqb k k') eqn:E'; [|reflexivity].
      apply String.eqb_eq in E'. now elim Hne.
    + now rewrite IH.
Qed.

Lemma json_getitem_setitem_same (j j' : json) (k : string) (v : json) :
  json_setitem j k v = Ok j' -> json_getitem j' k = Ok v.
Proof.
  destruct j; simpl; intros H; inversion H. subst j'. simpl.
  unfold getitem. now rewrite dict_get_set_same.
Qed.

Lemma json_getitem_setitem_other (j j' : json) (k k' : string) (v : json) :
  json_setitem j k v = Ok j' -> k' <> k ->
  json_getitem j' k' = json_getitem j k'.
Proof.
  destruct j; simpl; intros H Hne; inversion H. subst j'. simpl.
  unfold getitem. now rewrite dict_get_set_other.
Qed.

Lemma json_set_path_cons (j : json) (k k2 : string) (ks : list string)
    (v : json) :
  json_set_path j (k :: k2 :: ks) v =
  res_bind (json_getitem j k)
    (fun inner =>
       res_bind (json_set_path inner (k2 :: ks) v)
                (fun inner' => json_setitem j k inner')).
Proof. reflexivity. Qed.

(** The first key of an assignment is the only key of the outer
    dictionary whose value changes. *)
Lemma json_set_path_other_key (j j' : json) (k k' : string)
    (ks : list string) (v : json) :
  json_set_path j (k :: ks) v = Ok j' -> k' <> k ->
  json_getitem j' k' = json_getitem j k'.
Proof.
  destruct ks as [|k2 ks]; intros H Hne.
  - now apply (json_getitem_setitem_other j j' k k' v).
  - rewrite json_set_path_cons in H.
    destruct (json_getitem j k) as [inner|e]; cbn [res_bind] in H;
      [|discriminate].
    destruct (json_set_path inner (k2 :: ks) v) as [inner'|e];
      cbn [res_bind] in H; [|discriminate].
    now apply (json_getitem_setitem_other j j' k k' inner').
Qed.

(** What was assigned is what is read back along the same keys. *)
Lemma json_get_set_path_same (ks : list string) :
  ks <> [] ->
  forall (j j' v : json),
    json_set_path j ks v = Ok j' -> json_get_path j' ks = Ok v.
Proof.
  induction ks as [|k ks IH]; intros Hne j j' v H; [now elim Hne|].
  destruct ks as [|k2 ks].
  - cbn [json_set_path] in H. cbn [json_get_path].
    now rewrite (json_getitem_setitem_same j j' k v H).
  - rewrite json_set_path_cons in H.
    destruct (json_getitem j k) as [inner|e]; cbn [res_bind] in H;
      [|discriminate].
    destruct (json_set_path inner (k2 :: ks) v) as [inner'|e] eqn:E;
      cbn [res_bind] in H; [|discriminate].
    change (json_get_path j' (k :: k2 :: ks))
      with (res_bind (json_getitem j' k)
                     (fun inner0 => json_get_path inner0 (k2 :: ks))).
    rewrite (json_getitem_setitem_same j j' k inner' H). cbn [res_bind].
    apply (IH ltac:(intros X; discriminate X) inner inner' v E).
Qed.

(** An assignment leaves what is read along keys that part from its own. *)
Lemma json_get_set_path_diverge (pre : list string) :
  forall (a b : string) (r1 r2 : list string) (j j' v : json),
    a <> b ->
    json_set_path j (pre ++ a :: r1) v = Ok j' ->
    json_get_path j' (pre ++ b :: r2) = json_get_path j (pre ++ b :: r2).
Proof.
  induction pre as [|k pre IH]; intros a b r1 r2 j j' v Hne H.
  - cbn [app] in *. cbn [json_get_path].
    rewrite (json_set_path_other_key j j' a b r1 v H); [reflexivity|].
    intros Heq. now elim Hne.
  - cbn [app] in *.
    assert (Hstep : exists inner inner',
               json_getitem j k = Ok inner /\
               json_set_path inner (pre ++ a :: r1) v = Ok inner' /\
               json_setitem j k inner' = Ok j').
    { destruct (pre ++ a :: r1) as [|k2 ks] eqn:E;
        [now destruct pre|].
      rewrite json_set_path_cons in H.
      destruct (json_getitem j k) as [inner|e]; cbn [res_bind] in H;
        [|discriminate].
      destruct (json_set_path inner (k2 :: ks) v) as [inner'|e] eqn:E';
        cbn [res_bind] in H; [|discriminate].
      now exists inner, inner'. }
    destruct Hstep as (inner & inner' & Hget & Hset & Hput).
    cbn [json_get_path].
    rewrite (json_getitem_setitem_same j j' k inner' Hput), Hget.
    cbn [res_bind]. now apply (IH a b r1 r2 inner inner' v).
Qed.

End JsonFacts.

(** ** [hcp_early_psychosis.py] and [hcp_ya_confounds_cat.py]: the mapping *)

Section MappingFacts.

Import Py.

Lemma NoDup_by_nodup (l : list string) : nodup string_dec l = l -> NoDup l.
Proof. intros H. rewrite <- H. apply NoDup_nodup. Qed.

(** The assignments that build the mapping never hit a key twice and never
    give a name twice: thirty CAT names go to thirty fMRIPrep names, so
    renaming by the mapping merges no two columns.  The mapping of the
    young-adult confounds is the same one with the entry for "FD" added
    last, again with no key or name in common. *)
Theorem cat_to_fmriprep_mapping_one_to_one :
  List.length HCPEarlyPsychosis.get_cat_to_fmriprep_mapping = 30%nat /\
  NoDup (map fst HCPEarlyPsychosis.get_cat_to_fmriprep_mapping) /\
  NoDup (map snd HCPEarlyPsychosis.get_cat_to_fmriprep_mapping) /\
  HCPYAConfoundsCat.get_cat_to_fmriprep_mapping =
    HCPEarlyPsychosis.get_cat_to_fmriprep_mapping ++
    [ ("FD", "framewise_displacement") ] /\
  NoDup (map fst HCPYAConfoundsCat.get_cat_to_fmriprep_mapping) /\
  NoDup (map snd HCPYAConfoundsCat.get_cat_to_fmriprep_mapping).
Proof.
  split; [reflexivity|].
  split; [apply NoDup_by_nodup; vm_compute; reflexivity|].
  split; [apply NoDup_by_nodup; vm_compute; reflexivity|].
  split; [vm_compute; reflexivity|].
  split; apply NoDup_by_nodup; vm_compute; reflexivity.
Qed.

End MappingFacts.

Section EarlyPsychosisFacts.

Import Py HCPEarlyPsychosis.

Context {Base : Type}.
Variable super_get_item : Base -> string -> string -> string -> res json.

(** [get_item] returns what the pattern grabber returns with the mapping
    placed under BOLD_confounds, mappings, fmriprep; the other entries of
    the item and the other entries of BOLD_confounds are as the pattern
    grabber gave them.  Without a BOLD_confounds entry it raises
    [KeyError]. *)
Theorem EarlyPsychosis_get_item_attaches_mapping
    (g : @grabber Base) (subject task phase_encoding : string) (out : json) :
  super_get_item (base g) subject task phase_encoding = Ok out ->
  (forall confounds,
      json_getitem out "BOLD_confounds" = Ok (JDict confounds) ->
      exists out',
        get_item super_get_item g subject task phase_encoding = Ok out' /\
        json_get_path out' [ "BOLD_confounds"; "mappings"; "fmriprep" ] =
          Ok (json_of_mapping get_cat_to_fmriprep_mapping) /\
        (forall k, k <> "BOLD_confounds" ->
                   json_getitem out' k = json_getitem out k) /\
        (forall k, k <> "mappings" ->
                   json_get_path out' [ "BOLD_confounds"; k ] =
                   json_get_path out [ "BOLD_confounds"; k ])) /\
  (forall items,
      out = JDict items -> dict_get items "BOLD_confounds" = None ->
      get_item super_get_item g subject task phase_encoding =
        Raise (KeyError "BOLD_confounds")).
Proof.
  intros Hsuper. split.
  - intros confounds Hconf.
    assert (Hset : exists out',
               json_set_path out [ "BOLD_confounds"; "mappings" ]
                 (JDict [ ("fmriprep",
                           json_of_mapping get_cat_to_fmriprep_mapping) ])
               = Ok out').
    { rewrite json_set_path_cons, Hconf. cbn [res_bind json_set_path].
      cbn [json_setitem res_bind].
      destruct out; try discriminate Hconf. cbn [json_setitem]. eauto. }
    destruct Hset as [out' Hset]. exists out'.
    split; [|split; [|split]].
    + unfold get_item. rewrite Hsuper. exact Hset.
    + change [ "BOLD_confounds"; "mappings"; "fmriprep" ]
        with ([ "BOLD_confounds"; "mappings" ] ++ [ "fmriprep" ]).
      pose proof (json_get_set_path_same [ "BOLD_confounds"; "mappings" ]
                    ltac:(intros X; discriminate X) _ _ _ Hset) as Hget.
      cbn [app json_get_path] in Hget |- *.
      destruct (json_getitem out' "BOLD_confounds") as [bc|e];
        cbn [res_bind] in Hget |- *; [|discriminate].
      destruct (json_getitem bc "mappings") as [m|e];
        cbn [res_bind] in Hget |- *; [|discriminate].
      inversion Hget. reflexivity.
    + intros k Hk.
      now apply (json_set_path_other_key out out' "BOLD_confounds" k
                   [ "mappings" ] _ Hset).
    + intros k Hk.
      apply (json_get_set_path_diverge [ "BOLD_confounds" ]
               "mappings" k [] [] out out' _
               (fun Heq => Hk (eq_sym Heq)) Hset).
  - intros items Hout Hnone. unfold get_item. rewrite Hsuper.
    cbn [res_bind]. rewrite json_set_path_cons. subst out.
    cbn [json_getitem]. unfold getitem. now rewrite Hnone.
Qed.

End EarlyPsychosisFacts.

Lemma EarlyPsychosis_get_item_attaches_mapping_witness :
  (exists out',
      HCPEarlyPsychosis.get_item GrabberCases.ep_get_item
        GrabberCases.ep_grabber "1001" "REST1" "AP" = Ok out' /\
      Py.json_get_path out' [ "BOLD_confounds"; "path" ] =
        Ok (Py.JStr "HCP_EP_confounds/1001_01_MR/Confounds.tsv") /\
      Py.json_get_path out' [ "BOLD_confounds"; "mappings"; "fmriprep" ] =
        Ok (Py.json_of_mapping
              HCPEarlyPsychosis.get_cat_to_fmriprep_mapping)) /\
  HCPEarlyPsychosis.get_item GrabberCases.ep_get_item_bold_only
    GrabberCases.ep_grabber "1001" "REST1" "AP" =
    Raise (KeyError "BOLD_confounds").
Proof.
  split.
  - destruct (proj1 (EarlyPsychosis_get_item_attaches_mapping
                       GrabberCases.ep_get_item GrabberCases.ep_grabber
                       "1001" "REST1" "AP" _ eq_refl) _ eq_refl)
      as (out' & Hrun & Hmap & _ & Hrest).
    exists out'. split; [exact Hrun|]. split; [|exact Hmap].
    rewrite (Hrest "path"); [reflexivity|]. intros X. discriminate X.
  - apply (proj2 (EarlyPsychosis_get_item_attaches_mapping
                    GrabberCases.ep_get_item_bold_only
                    GrabberCases.ep_grabber "1001" "REST1" "AP" _ eq_refl)
             _ eq_refl).
    reflexivity.
Defined.

(** ** [hcp_ya_confounds_cat.py]: elements, names, the multiple grabber *)

Section CATConfoundsFacts.

Import Py HCPYAConfoundsCat HCPYAConfoundsCat.HCPCATConfounds.

Context {Base Item : Type}.
Variable datadir_iterdir : Base -> res (list (string * bool)).

Lemma map_res_index_error {A} (f : A -> list string) (i : nat) (l : list A) :
  (exists x, In x l /\ nth_error (f x) i = None) ->
  map_res (fun x => list_getitem (f x) i) l =
    Raise (IndexError "list index out of range").
Proof.
  induction l as [|y l IH]; intros (x & Hin & Hx); [now elim Hin|].
  cbn [map_res]. unfold list_getitem at 1.
  destruct (nth_error (f y) i) as [piece|] eqn:E; [|reflexivity].
  cbn [res_bind]. rewrite IH; [reflexivity|].
  destruct Hin as [->|Hin]; [congruence | eauto].
Qed.

(** A directory whose name contains "sub" but no dash has no second piece:
    [get_elements] raises [IndexError], whatever else the dataset holds. *)
Theorem CATConfounds_get_elements_needs_dash (g : @grabber Base)
    (entries : list (string * bool)) (name : string) :
  datadir_iterdir (base g) = Ok entries ->
  In (name, true) entries ->
  contains "sub" name = true ->
  contains "-" name = false ->
  get_elements datadir_iterdir g =
    Raise (IndexError "list index out of range").
Proof.
  intros Hdir Hin Hsub Hdash. unfold get_elements. rewrite Hdir.
  cbn [res_bind].
  rewrite (map_res_index_error (fun x => split "-" (fst x)) 1);
    [reflexivity|].
  exists (name, true). split.
  - apply filter_In. split; [exact Hin|]. cbn [fst snd]. now rewrite Hsub.
  - cbn [fst]. now rewrite (split_no_separator "-" name Hdash).
Qed.

Lemma split_with_separator (sep : ascii) (s : string) :
  contains (String sep EmptyString) s = true ->
  exists first second rest, split sep s = first :: second :: rest.
Proof.
  induction s as [|a s IH]; intros H; [discriminate H|].
  cbn [split]. destruct (Ascii.eqb a sep) eqn:E.
  - destruct (split sep s) as [|p ps] eqn:Es;
      [now apply split_not_nil in Es|]. eauto.
  - unfold contains in H; fold contains in H.
    apply orb_true_iff in H as [H|H].
    + simpl in H. destruct (ascii_dec sep a) as [->|Hne].
      * now rewrite Ascii.eqb_refl in E.
      * discriminate H.
    + destruct (IH H) as (f & s2 & r & ->). eauto.
Qed.

(** In any listing in which every directory with "sub" in its name has a
    dash in it, whatever else the listing holds and in whatever order:
    files are ignored whatever their names, directories without "sub" in
    their name are ignored, and each remaining directory gives the piece
    after its first dash as a subject, in the order of the listing; a
    directory named "sub-" followed by an identifier without dash gives
    this identifier. *)
Theorem CATConfounds_get_elements_recovers_subjects (g : @grabber Base)
    (entries : list (string * bool)) :
  datadir_iterdir (base g) = Ok entries ->
  Forall (fun x => snd x = true -> contains "sub" (fst x) = true ->
                   contains "-" (fst x) = true) entries ->
  exists subjects,
    get_elements datadir_iterdir g =
      Ok (product3 subjects (tasks g) (phase_encodings g)) /\
    Forall2 (fun name subject =>
               (exists first rest,
                   split "-" name = first :: subject :: rest) /\
               (forall id, name = ("sub-" ++ id)%string ->
                           contains "-" id = false -> subject = id))
            (map fst (filter (fun x => snd x && contains "sub" (fst x))
                             entries))
            subjects.
Proof.
  intros Hdir Hall. unfold get_elements. rewrite Hdir. cbn [res_bind].
  clear Hdir.
  assert (Hsubs : exists subjects,
             map_res (fun x : string * bool =>
                        list_getitem (split "-" (fst x)) 1)
                     (filter (fun x : string * bool =>
                                snd x && contains "sub" (fst x)) entries)
               = Ok subjects /\
             Forall2 (fun name subject =>
               (exists first rest,
                   split "-" name = first :: subject :: rest) /\
               (forall id, name = ("sub-" ++ id)%string ->
                           contains "-" id = false -> subject = id))
               (map fst (filter (fun x : string * bool =>
                                   snd x && contains "sub" (fst x)) entries))
               subjects).
  { induction Hall as [|[name d] entries Hx _ (subjects & Hrun & Hrel)].
    - exists []. split; [reflexivity | constructor].
    - cbn [filter fst snd]. cbn [fst snd] in Hx.
      destruct (d && contains "sub" name) eqn:E.
      + apply andb_true_iff in E as [-> Hsub].
        destruct (split_with_separator "-" name (Hx eq_refl Hsub))
          as (first & second & rest & Hsplit).
        exists (second :: subjects). split.
        * cbn [map_res fst]. rewrite Hsplit.
          cbn [list_getitem nth_error res_bind]. now rewrite Hrun.
        * cbn [map fst]. constructor; [|exact Hrel]. split; [eauto|].
          intros id -> Hid.
          change ("sub-" ++ id)%string
            with ("sub" ++ String "-" id)%string in Hsplit.
          rewrite (split_first_piece "-" "sub" id eq_refl) in Hsplit.
          rewrite (split_no_separator "-" id Hid) in Hsplit.
          now inversion Hsplit.
      + exists subjects. now split. }
  destruct Hsubs as (subjects & Hrun & Hrel).
  exists subjects. rewrite Hrun. now split.
Qed.

Lemma length_append (s t : string) :
  String.length (s ++ t) = (String.length s + String.length t)%nat.
Proof. induction s as [|a s IH]; simpl; [reflexivity | now rewrite IH]. Qed.

Lemma append_inj_r (x s1 s2 : string) :
  (s1 ++ x)%string = (s2 ++ x)%string -> s1 = s2.
Proof.
  revert s2. induction s1 as [|a s1 IH]; intros [|b s2] H.
  - reflexivity.
  - apply (f_equal String.length) in H. cbn [append] in H.
    simpl in H. rewrite length_append in H. lia.
  - apply (f_equal String.length) in H. cbn [append] in H.
    simpl in H. rewrite length_append in H. lia.
  - cbn [append] in H. injection H as -> H. f_equal. now apply IH.
Qed.

(** The names used in the paths tell the task and the phase encoding
    apart: two different pairs never get the same pair of names. *)
Theorem CATConfounds_new_names_injective (t1 p1 t2 p2 : string) :
  new_names t1 p1 = new_names t2 p2 -> t1 = t2 /\ p1 = p2.
Proof.
  unfold new_names.
  destruct (contains "REST" t1), (contains "REST" t2); cbn [append];
    intros H; inversion H as [[Ht Hp]]; try discriminate Ht.
  - split; [reflexivity|]. now apply append_inj_r in Hp.
  - split; reflexivity.
Qed.

End CATConfoundsFacts.

Lemma CATConfounds_get_elements_needs_dash_witness :
  HCPYAConfoundsCat.HCPCATConfounds.get_elements
    GrabberCases.cat_dir_with_subjects_folder GrabberCases.cat_all =
  Raise (IndexError "list index out of range").
Proof.
  apply (CATConfounds_get_elements_needs_dash
           GrabberCases.cat_dir_with_subjects_folder GrabberCases.cat_all
           [ ("sub-100307", true); ("subjects", true) ] "subjects" eq_refl).
  - simpl. auto.
  - reflexivity.
  - reflexivity.
Defined.

Lemma CATConfounds_get_elements_recovers_subjects_witness :
  HCPYAConfoundsCat.HCPCATConfounds.get_elements
    GrabberCases.cat_dir GrabberCases.cat_all =
  Ok (Py.product3 ["100307"; "100408"] ["REST1"; "WM"] ["LR"]).
Proof.
  destruct (CATConfounds_get_elements_recovers_subjects
              GrabberCases.cat_dir GrabberCases.cat_all
              [ ("sub-100307", true); ("dataset_description.json", false);
                ("sub-100408", true) ] eq_refl)
    as (subjects & Hrun & Hrel).
  - repeat constructor; cbn [fst snd]; intros H; try discriminate H;
      reflexivity.
  - rewrite Hrun. cbn [filter map fst snd andb Py.contains] in Hrel.
    inversion Hrel as [|n1 s1 l1 r1 [_ H1] Hrest]. subst.
    inversion Hrest as [|n2 s2 l2 r2 [_ H2] Hnil]. subst.
    inversion Hnil. subst.
    rewrite (H1 "100307" eq_refl eq_refl), (H2 "100408" eq_refl eq_refl).
    reflexivity.
Defined.

Lemma CATConfounds_new_names_injective_witness :
  HCPYAConfoundsCat.HCPCATConfounds.new_names "REST1" "LR" =
    ("rfMRIREST1", "LRhp2000clean") /\
  ("REST1" = "REST1" /\ "LR" = "LR").
Proof.
  split; [reflexivity|].
  apply (CATConfounds_new_names_injective "REST1" "LR" "REST1" "LR").
  reflexivity.
Defined.

Section MultipleHCPFacts.

Import Py HCPYAConfoundsCat.

Context {HCP1200 Base Multi : Type}.
Variable HCP1200__init__ :
  option json -> str_or_list -> str_or_list -> string -> string -> bool ->
  res HCP1200.
Variable PatternDataladDataGrabber__init__ :
  list string -> option json -> string -> json -> list string -> string ->
  kwargs -> res Base.
Variable super__init__ :
  HCP1200 -> @HCPCATConfounds.grabber Base -> kwargs -> res Multi.

(** Although the constructor collects any keyword, the first grabber it
    builds names only [datadir]: the first keyword other than [datadir]
    makes the construction raise [TypeError], before anything is built. *)
Theorem MultipleHCP_refuses_other_keywords
    (t p : str_or_list) (ica_fix : bool) (kw : kwargs)
    (k : string) (v : json) (others : kwargs) :
  dict_pop kw "datadir" = (k, v) :: others ->
  MultipleHCP.__init__ HCP1200__init__ PatternDataladDataGrabber__init__
    super__init__ t p ica_fix kw =
  Raise (TypeError
           ("got an unexpected keyword argument '" ++ k ++ "'")%string).
Proof.
  intros H. unfold MultipleHCP.__init__, JuselessDataladHCP1200.call_with.
  now rewrite H.
Qed.

(** The tasks and phase encodings asked of the multiple grabber reach its
    first grabber only: the confounds grabber is built for all nine tasks
    and both phase encodings, whatever was asked. *)
Theorem MultipleHCP_confounds_grabber_takes_all_tasks
    (t p : str_or_list) (ica_fix : bool) (kw : kwargs)
    (dg1 : HCP1200) (base : Base) :
  let kwargs' := dict_set kw "partial_pattern_ok" (JBool true) in
  JuselessDataladHCP1200.call_with HCP1200__init__ t p ica_fix kw
    = Ok dg1 ->
  PatternDataladDataGrabber__init__ HCPCATConfounds.types
    (dict_get kwargs' "datadir") HCPCATConfounds.uri
    (JDict HCPCATConfounds.patterns)
    [ "subject"; "task"; "phase_encoding" ] "adhoc"
    (dict_pop kwargs' "datadir") = Ok base ->
  MultipleHCP.__init__ HCP1200__init__ PatternDataladDataGrabber__init__
    super__init__ t p ica_fix kw =
  super__init__ dg1
    (HCPCATConfounds.mkGrabber HCPCATConfounds.all_tasks
       HCPCATConfounds.all_phase_encodings base)
    kwargs'.
Proof.
  intros kwargs' Hdg1 Hbase. unfold MultipleHCP.__init__.
  rewrite Hdg1. cbn [res_bind]. unfold HCPCATConfounds.__init__.
  cbn [res_bind].
  change (check_each HCPCATConfounds.all_phase_encodings
            HCPCATConfounds.all_phase_encodings
            HCPCATConfounds.phase_encoding_message) with (@Ok unit tt).
  cbn [res_bind]. fold kwargs'. rewrite Hbase. reflexivity.
Qed.

End MultipleHCPFacts.

Lemma MultipleHCP_refuses_other_keywords_witness :
  HCPYAConfoundsCat.MultipleHCP.__init__ GrabberCases.hcp1200_init
    GrabberCases.datalad_init GrabberCases.multiple_init
    (Py.ArgStr "REST1") Py.ArgNone false
    [ ("datadir", Py.JStr "/data"); ("partial_pattern_ok", Py.JBool true) ] =
  Raise (TypeError "got an unexpected keyword argument 'partial_pattern_ok'").
Proof.
  apply (MultipleHCP_refuses_other_keywords GrabberCases.hcp1200_init
           GrabberCases.datalad_init GrabberCases.multiple_init
           (Py.ArgStr "REST1") Py.ArgNone false
           [ ("datadir", Py.JStr "/data");
             ("partial_pattern_ok", Py.JBool true) ]
           "partial_pattern_ok" (Py.JBool true) [] eq_refl).
Defined.

Lemma MultipleHCP_confounds_grabber_takes_all_tasks_witness :
  HCPYAConfoundsCat.MultipleHCP.__init__ GrabberCases.hcp1200_init
    GrabberCases.datalad_init GrabberCases.multiple_init
    (Py.ArgStr "REST1") (Py.ArgStr "LR") false
    [ ("datadir", Py.JStr "/data") ] =
  Ok (HCPYAConfoundsCat.HCPCATConfounds.mkGrabber
        [ "REST1"; "REST2"; "SOCIAL"; "WM"; "RELATIONAL"; "EMOTION";
          "LANGUAGE"; "GAMBLING"; "MOTOR" ]
        [ "LR"; "RL" ] tt).
Proof.
  pose proof (MultipleHCP_confounds_grabber_takes_all_tasks
                GrabberCases.hcp1200_init GrabberCases.datalad_init
                GrabberCases.multiple_init
                (Py.ArgStr "REST1") (Py.ArgStr "LR") false
                [ ("datadir", Py.JStr "/data") ] tt tt) as H.
  cbv zeta in H. rewrite (H eq_refl eq_refl). reflexivity.
Defined.

(** ** [hcp_ya_concatenated.py] *)

Lemma st_bind_ok {S A B} (m : M S A) (k : A -> M S B) (s s' : S) (a : A) :
  m s = (Ok a, s') -> st_bind m k s = k a s'.
Proof. intros H. unfold st_bind. now rewrite H. Qed.

Lemma st_bind_raise {S A B} (m : M S A) (k : A -> M S B) (s s' : S) (e : exn) :
  m s = (Raise e, s') -> st_bind m k s = (Raise e, s').
Proof. intros H. unfold st_bind. now rewrite H. Qed.

Section ConcatenatedFacts.

Import Py HCPYAConfoundsCat HCP_YA_Concatenated.

Context {HCP1200 Base Multi Image Frame Path : Type}.
Variable HCP1200__init__ :
  option json -> str_or_list -> str_or_list -> string -> string -> bool ->
  res HCP1200.
Variable PatternDataladDataGrabber__init__ :
  list string -> option json -> string -> json -> list string -> string ->
  kwargs -> res Base.
Variable MultipleDataGrabber__init__ :
  HCP1200 -> @HCPCATConfounds.grabber Base -> kwargs -> res Multi.
Variable super_get_elements : Multi -> res (list (string * string * string)).
Variable super_getitem : Multi -> string * string * string -> res json.
Variable set_iteration : list string -> list string.
Variable concat_images : list json -> res Image.
Variable read_csv : json -> res Frame.
Variable pd_concat : list Frame -> res Frame.
Variable get_element_tempdir : string -> res Path.
Variable joinpath : Path -> string -> Path.
Variable nib_save : Image -> Path -> res unit.
Variable to_csv : Frame -> Path -> res unit.
Variable json_of_path : Path -> json.

(** The constructor fixes [tasks], [phase_encodings] and [ica_fix] and
    passes its keywords on to a constructor chain that names only
    [datadir]: any keyword other than [datadir] raises [TypeError]. *)
Theorem Concatenated_init_takes_only_datadir (kw : kwargs) (k : string)
    (v : json) :
  In (k, v) kw -> k <> "datadir" ->
  exists msg,
    __init__ HCP1200__init__ PatternDataladDataGrabber__init__
             MultipleDataGrabber__init__ kw = Raise (TypeError msg).
Proof.
  intros Hin Hk. unfold __init__.
  destruct (filter _ kw) as [|[k1 v1] rest]; [|eauto].
  unfold MultipleHCP.__init__, JuselessDataladHCP1200.call_with.
  destruct (dict_pop kw "datadir") as [|[k2 v2] others] eqn:E;
    [|cbn [res_bind]; eauto].
  exfalso.
  assert (Hpop : In (k, v) (dict_pop kw "datadir")).
  { unfold dict_pop. apply filter_In. split; [exact Hin|]. cbn [fst].
    apply negb_true_iff. now apply String.eqb_neq. }
  rewrite E in Hpop. exact Hpop.
Qed.

(** However many tasks and phase encodings a subject has, [get_elements]
    lists the subject once; it lists every subject of the parent's
    elements and nothing else. *)
Theorem Concatenated_get_elements_one_per_subject (self : Multi)
    (all_elements : list (string * string * string)) :
  (forall l, Permutation (set_iteration l) l) ->
  super_get_elements self = Ok all_elements ->
  exists subjects,
    get_elements super_get_elements set_iteration self = Ok subjects /\
    NoDup subjects /\
    (forall s, In s subjects <-> exists t p, In (s, t, p) all_elements).
Proof.
  intros Hperm Hall. eexists. split; [|split].
  - unfold get_elements. rewrite Hall. reflexivity.
  - apply (Permutation_NoDup (Permutation_sym (Hperm _))).
    apply NoDup_nodup.
  - intros s. split.
    + intros Hin. apply (Permutation_in _ (Hperm _)) in Hin.
      apply nodup_In in Hin. apply in_map_iff in Hin as ([[s' t] p] & <- & H).
      now exists t, p.
    + intros (t & p & Hin).
      apply (Permutation_in _ (Permutation_sym (Hperm _))).
      apply nodup_In. apply in_map_iff. now exists (s, t, p).
Qed.

Lemma fetch_all_ok (self : Multi) (es : list (string * string * string))
    (ds : list json) :
  Forall2 (fun e d => super_getitem self e = Ok d) es ds ->
  forall tr,
    fetch_all super_getitem self es tr = (Ok ds, tr ++ map Fetch es).
Proof.
  induction 1 as [|e d es ds He _ IH]; intros tr.
  - cbn. now rewrite app_nil_r.
  - cbn [fetch_all map].
    rewrite (st_bind_ok _ _ tr (tr ++ [Fetch e]) d)
      by (unfold call; now rewrite He).
    rewrite (st_bind_ok _ _ _ _ ds (IH _)).
    unfold st_ret. now rewrite <- app_assoc.
Qed.

Lemma fetch_all_first_failure (self : Multi)
    (pre post : list (string * string * string))
    (e : string * string * string) (err : exn) :
  Forall (fun x => exists d, super_getitem self x = Ok d) pre ->
  super_getitem self e = Raise err ->
  forall tr,
    fetch_all super_getitem self (pre ++ e :: post) tr =
      (Raise err, tr ++ map Fetch (pre ++ [e])).
Proof.
  intros Hpre He. induction Hpre as [|x pre [d Hx] _ IH]; intros tr.
  - cbn [app fetch_all map].
    apply st_bind_raise. unfold call. now rewrite He.
  - cbn [app fetch_all map].
    rewrite (st_bind_ok _ _ tr (tr ++ [Fetch x]) d)
      by (unfold call; now rewrite Hx).
    rewrite (st_bind_raise _ _ _ _ err (IH _)).
    now rewrite <- app_assoc.
Qed.

(** The fourteen elements are fetched one after the other; the first one
    that cannot be fetched ends the call with its exception, after the
    fetches made so far and before anything is read, concatenated or
    saved. *)
Theorem Concatenated_getitem_stops_at_first_missing (self : Multi)
    (subject : string) (pre post : list (string * string * string))
    (e : string * string * string) (err : exn) (tr0 : list event) :
  requested subject = pre ++ e :: post ->
  Forall (fun x => exists d, super_getitem self x = Ok d) pre ->
  super_getitem self e = Raise err ->
  __getitem__ super_getitem concat_images read_csv pd_concat
              get_element_tempdir joinpath nib_save to_csv json_of_path
              self subject tr0 =
    (Raise err, tr0 ++ map Fetch (pre ++ [e])).
Proof.
  intros Hreq Hpre He. unfold __getitem__. rewrite Hreq.
  apply st_bind_raise. now apply fetch_all_first_failure.
Qed.

End ConcatenatedFacts.

Lemma Concatenated_init_takes_only_datadir_witness :
  exists msg,
    HCP_YA_Concatenated.__init__ GrabberCases.hcp1200_init
      GrabberCases.datalad_init GrabberCases.multiple_init
      [ ("datadir", Py.JStr "/data"); ("tasks", Py.JStr "REST1") ] =
    Raise (TypeError msg).
Proof.
  apply (Concatenated_init_takes_only_datadir GrabberCases.hcp1200_init
           GrabberCases.datalad_init GrabberCases.multiple_init
           [ ("datadir", Py.JStr "/data"); ("tasks", Py.JStr "REST1") ]
           "tasks" (Py.JStr "REST1")).
  - simpl. auto.
  - intros X. discriminate X.
Defined.

Lemma Concatenated_get_elements_one_per_subject_witness :
  exists subjects,
    HCP_YA_Concatenated.get_elements GrabberCases.ya_elements
      GrabberCases.as_listed tt = Ok subjects /\
    NoDup subjects /\
    (In "100408" subjects /\ List.length subjects = 2%nat).
Proof.
  destruct (Concatenated_get_elements_one_per_subject
              GrabberCases.ya_elements GrabberCases.as_listed tt _
              (fun l => Permutation_refl l) eq_refl)
    as (subjects & Hrun & Hnodup & Hin).
  exists subjects. split; [exact Hrun|]. split; [exact Hnodup|].
  injection Hrun as <-. split; [|reflexivity].
  simpl. auto.
Defined.

Lemma Concatenated_getitem_stops_at_first_missing_witness :
  HCP_YA_Concatenated.__getitem__ GrabberCases.ya_getitem_gap
    GrabberCases.images_ok GrabberCases.frame_ok GrabberCases.frames_ok
    GrabberCases.tempdir_ok GrabberCases.slash GrabberCases.save_ok
    GrabberCases.save_ok Py.JStr tt "100307" [] =
  (Raise (ExternalError "no such element"),
   [ HCP_YA_Concatenated.Fetch ("100307", "SOCIAL", "LR");
     HCP_YA_Concatenated.Fetch ("100307", "SOCIAL", "RL");
     HCP_YA_Concatenated.Fetch ("100307", "WM", "LR");
     HCP_YA_Concatenated.Fetch ("100307", "WM", "RL") ]).
Proof.
  apply (Concatenated_getitem_stops_at_first_missing
           GrabberCases.ya_getitem_gap
           GrabberCases.images_ok GrabberCases.frame_ok GrabberCases.frames_ok
           GrabberCases.tempdir_ok GrabberCases.slash GrabberCases.save_ok
           GrabberCases.save_ok Py.JStr tt "100307"
           [ ("100307", "SOCIAL", "LR"); ("100307", "SOCIAL", "RL");
             ("100307", "WM", "LR") ]
           (skipn 4 (HCP_YA_Concatenated.requested "100307"))
           ("100307", "WM", "RL") (ExternalError "no such element") []).
  - reflexivity.
  - repeat constructor; eexists; reflexivity.
  - reflexivity.
Defined.

Section ConcatenatedSuccess.

Import Py HCPYAConfoundsCat HCP_YA_Concatenated.

Context {Multi Image Frame Path : Type}.
Variable super_getitem : Multi -> string * string * string -> res json.
Variable concat_images : list json -> res Image.
Variable read_csv : json -> res Frame.
Variable pd_concat : list Frame -> res Frame.
Variable get_element_tempdir : string -> res Path.
Variable joinpath : Path -> string -> Path.
Variable nib_save : Image -> Path -> res unit.
Variable to_csv : Frame -> Path -> res unit.
Variable json_of_path : Path -> json.

Lemma read_all_ok (confs : list json) (frames : list Frame) :
  Forall2 (fun c f => read_csv c = Ok f) confs frames ->
  forall tr,
    read_all read_csv confs tr = (Ok frames, tr ++ map ReadCsv confs).
Proof.
  induction 1 as [|c f confs frames Hc _ IH]; intros tr.
  - cbn. now rewrite app_nil_r.
  - cbn [read_all map].
    rewrite (st_bind_ok _ _ tr (tr ++ [ReadCsv c]) f)
      by (unfold call; now rewrite Hc).
    rewrite (st_bind_ok _ _ _ _ frames (IH _)).
    unfold st_ret. now rewrite <- app_assoc.
Qed.

Lemma paths_ok (all_data : list json) (paths : list (json * json)) :
  Forall2 (fun d bc =>
             json_get_path d [ "BOLD"; "path" ] = Ok (fst bc) /\
             json_get_path d [ "BOLD"; "confounds"; "path" ] = Ok (snd bc))
          all_data paths ->
  map_res (fun data =>
             res_bind (json_get_path data [ "BOLD"; "path" ])
               (fun bold =>
                  res_bind
                    (json_get_path data [ "BOLD"; "confounds"; "path" ])
                    (fun conf => Ok (bold, conf))))
          all_data = Ok paths.
Proof.
  induction 1 as [|d [b c] ds ps [Hb Hc] _ IH]; [reflexivity|].
  cbn [map_res]. cbn [fst snd] in Hb, Hc. rewrite Hb. cbn [res_bind].
  rewrite Hc. cbn [res_bind]. rewrite IH. reflexivity.
Qed.

(** An assignment along keys succeeds when the dictionary that is to
    receive the last key can be read. *)
Lemma json_set_path_ok (ks : list string) :
  forall (j : json) (d : list (string * json)) (k : string) (v : json),
    json_get_path j ks = Ok (JDict d) ->
    exists j', json_set_path j (ks ++ [k]) v = Ok j'.
Proof.
  induction ks as [|k0 ks IH]; intros j d k v Hget.
  - cbn in Hget. inversion Hget. subst j. cbn. eauto.
  - cbn [json_get_path] in Hget.
    destruct (json_getitem j k0) as [inner|e] eqn:E; cbn [res_bind] in Hget;
      [|discriminate].
    destruct (IH inner d k v Hget) as [inner' Hinner].
    cbn [app]. destruct (ks ++ [k]) as [|k2 r] eqn:Eks;
      [now destruct ks|].
    rewrite json_set_path_cons, E. cbn [res_bind]. rewrite Hinner.
    cbn [res_bind]. destruct j; try discriminate E. cbn. eauto.
Qed.

Lemma json_get_path_app (ks1 ks2 : list string) :
  forall (j j1 : json),
    json_get_path j ks1 = Ok j1 ->
    json_get_path j (ks1 ++ ks2) = json_get_path j1 ks2.
Proof.
  induction ks1 as [|k ks1 IH]; intros j j1 H.
  - cbn in H. inversion H. reflexivity.
  - cbn [app json_get_path] in *.
    destruct (json_getitem j k) as [inner|e]; cbn [res_bind] in *;
      [|discriminate].
    now apply IH.
Qed.

(** The parent dictionary of a key that can be read is a dictionary. *)
Lemma json_get_path_parent (ks : list string) (k : string) :
  forall (j v : json),
    json_get_path j (ks ++ [k]) = Ok v ->
    exists d, json_get_path j ks = Ok (JDict d).
Proof.
  induction ks as [|k0 ks IH]; intros j v H.
  - cbn in H. destruct j; try discriminate H. cbn. eauto.
  - cbn [app json_get_path] in *.
    destruct (json_getitem j k0) as [inner|e]; cbn [res_bind] in *;
      [|discriminate].
    now apply (IH inner v).
Qed.

Ltac rewrite_diverge pre a b r1 r2 j j' v H :=
  let N := fresh "N" in
  let X := fresh "X" in
  assert (N : a <> b) by (intros X; first [discriminate X | congruence]);
  pose proof (json_get_set_path_diverge pre a b r1 r2 j j' v N H) as X;
  cbn [app] in X; rewrite X; clear X N.

(** When every element can be fetched and every file operation succeeds,
    the call fetches the fourteen elements, concatenates, reads, saves, in
    this order, and returns the first element's dictionary with three
    values replaced: the BOLD path and the confounds path, now the two
    files in the temporary directory, and the element, now the subject
    alone.  The other data types of the first element and the other
    entries of its BOLD dictionary are returned as they were. *)
Theorem Concatenated_getitem_returns_first_with_new_paths
    (self : Multi) (subject : string) (tr0 : list event)
    (first : json) (others : list json) (paths : list (json * json))
    (img : Image) (frames : list Frame) (frame : Frame) (tmpdir : Path)
    (meta : list (string * json)) :
  Forall2 (fun e d => super_getitem self e = Ok d)
          (requested subject) (first :: others) ->
  Forall2 (fun d bc =>
             json_get_path d [ "BOLD"; "path" ] = Ok (fst bc) /\
             json_get_path d [ "BOLD"; "confounds"; "path" ] = Ok (snd bc))
          (first :: others) paths ->
  json_get_path first [ "BOLD"; "meta" ] = Ok (JDict meta) ->
  concat_images (map fst paths) = Ok img ->
  Forall2 (fun c f => read_csv c = Ok f) (map snd paths) frames ->
  pd_concat frames = Ok frame ->
  get_element_tempdir "hcp_ya_concat" = Ok tmpdir ->
  nib_save img (joinpath tmpdir "concat_bold.nii.gz") = Ok tt ->
  to_csv frame (joinpath tmpdir "concat_confounds.tsv") = Ok tt ->
  exists new_data,
    __getitem__ super_getitem concat_images read_csv pd_concat
                get_element_tempdir joinpath nib_save to_csv json_of_path
                self subject tr0 =
      (Ok new_data,
       tr0 ++ map Fetch (requested subject)
           ++ [ LogInfo "Concatenating BOLD images and confounds";
                ConcatImages (map fst paths) ]
           ++ map ReadCsv (map snd paths)
           ++ [ ConcatFrames;
                LogInfo "Saving concatenated BOLD images and confounds";
                TempDir "hcp_ya_concat"; SaveImage; SaveFrame ]) /\
    json_get_path new_data [ "BOLD"; "path" ] =
      Ok (json_of_path (joinpath tmpdir "concat_bold.nii.gz")) /\
    json_get_path new_data [ "BOLD"; "confounds"; "path" ] =
      Ok (json_of_path (joinpath tmpdir "concat_confounds.tsv")) /\
    json_get_path new_data [ "BOLD"; "meta"; "element" ] =
      Ok (JDict [ ("subject", JStr subject) ]) /\
    (forall k, k <> "BOLD" ->
               json_getitem new_data k = json_getitem first k) /\
    (forall k, k <> "path" -> k <> "confounds" -> k <> "meta" ->
               json_get_path new_data [ "BOLD"; k ] =
               json_get_path first [ "BOLD"; k ]).
Proof.
  intros Hfetch Hpaths Hmeta Himg Hread Hcat Htmp Hsave1 Hsave2.
  assert (Hp1 : json_get_path first [ "BOLD"; "path" ]
                  = Ok (fst (hd (first, first) paths))
                /\ json_get_path first [ "BOLD"; "confounds"; "path" ]
                   = Ok (snd (hd (first, first) paths))).
  { inversion Hpaths as [|? bc ? ? Hbc _]. subst. exact Hbc. }
  destruct Hp1 as [Hb0 Hc0].
  destruct (json_get_path_parent [ "BOLD" ] "path" _ _ Hb0) as [bold Hbold].
  destruct (json_set_path_ok [ "BOLD" ] first bold "path"
              (json_of_path (joinpath tmpdir "concat_bold.nii.gz")) Hbold)
    as [d1 Hd1]. cbn [app] in Hd1.
  destruct (json_get_path_parent [ "BOLD"; "confounds" ] "path" _ _ Hc0)
    as [conf Hconf].
  assert (Hconf1 : json_get_path d1 [ "BOLD"; "confounds" ] = Ok (JDict conf)).
  { rewrite_diverge [ "BOLD" ] "path" "confounds" (@nil string) (@nil string)
               first d1 (json_of_path (joinpath tmpdir "concat_bold.nii.gz"))
               Hd1.
    exact Hconf. }
  destruct (json_set_path_ok [ "BOLD"; "confounds" ] d1 conf "path"
              (json_of_path (joinpath tmpdir "concat_confounds.tsv")) Hconf1)
    as [d2 Hd2]. cbn [app] in Hd2.
  assert (Hmeta2 : json_get_path d2 [ "BOLD"; "meta" ] = Ok (JDict meta)).
  { rewrite_diverge [ "BOLD" ] "confounds" "meta" [ "path" ] (@nil string)
               d1 d2 (json_of_path (joinpath tmpdir "concat_confounds.tsv"))
               Hd2.
    rewrite_diverge [ "BOLD" ] "path" "meta" (@nil string) (@nil string)
               first d1 (json_of_path (joinpath tmpdir "concat_bold.nii.gz"))
               Hd1.
    exact Hmeta. }
  destruct (json_set_path_ok [ "BOLD"; "meta" ] d2 meta "element"
              (JDict [ ("subject", JStr subject) ]) Hmeta2)
    as [d3 Hd3]. cbn [app] in Hd3.
  exists d3. split; [|split; [|split; [|split; [|split]]]].
  - unfold __getitem__.
    rewrite (st_bind_ok _ _ _ _ _
               (fetch_all_ok super_getitem self _ _ Hfetch tr0)).
    cbv beta. rewrite (paths_ok _ _ Hpaths).
    rewrite (st_bind_ok (st_lift _) _ _ _ paths eq_refl). cbv beta.
    rewrite (st_bind_ok (emit _) _ _ _ tt eq_refl). cbv beta.
    rewrite Himg.
    rewrite (st_bind_ok (call _ _) _ _ _ img eq_refl). cbv beta.
    rewrite (st_bind_ok _ _ _ _ frames (read_all_ok _ _ Hread _)). cbv beta.
    rewrite Hcat.
    rewrite (st_bind_ok (call _ _) _ _ _ frame eq_refl). cbv beta.
    rewrite (st_bind_ok (emit _) _ _ _ tt eq_refl). cbv beta.
    rewrite Htmp.
    rewrite (st_bind_ok (call _ _) _ _ _ tmpdir eq_refl). cbv beta zeta.
    rewrite Hsave1.
    rewrite (st_bind_ok (call _ _) _ _ _ tt eq_refl). cbv beta.
    rewrite Hsave2.
    rewrite (st_bind_ok (call _ _) _ _ _ tt eq_refl). cbv beta.
    rewrite (st_bind_ok (st_lift _) _ _ _ first eq_refl). cbv beta.
    rewrite Hd1.
    rewrite (st_bind_ok (st_lift _) _ _ _ d1 eq_refl). cbv beta.
    rewrite Hd2.
    rewrite (st_bind_ok (st_lift _) _ _ _ d2 eq_refl). cbv beta.
    rewrite Hd3.
    rewrite (st_bind_ok (st_lift _) _ _ _ d3 eq_refl). cbv beta.
    unfold st_ret. f_equal. rewrite <- !app_assoc. reflexivity.
  - rewrite_diverge [ "BOLD" ] "meta" "path" [ "element" ] (@nil string)
      d2 d3 (JDict [ ("subject", JStr subject) ]) Hd3.
    rewrite_diverge [ "BOLD" ] "confounds" "path" [ "path" ] (@nil string)
      d1 d2 (json_of_path (joinpath tmpdir "concat_confounds.tsv")) Hd2.
    apply (json_get_set_path_same [ "BOLD"; "path" ]
             ltac:(intros Y; discriminate Y) first d1 _ Hd1).
  - rewrite_diverge [ "BOLD" ] "meta" "confounds" [ "element" ] [ "path" ]
      d2 d3 (JDict [ ("subject", JStr subject) ]) Hd3.
    apply (json_get_set_path_same [ "BOLD"; "confounds"; "path" ]
             ltac:(intros Y; discriminate Y) d1 d2 _ Hd2).
  - apply (json_get_set_path_same [ "BOLD"; "meta"; "element" ]
             ltac:(intros Y; discriminate Y) d2 d3 _ Hd3).
  - intros k Hk.
    rewrite (json_set_path_other_key d2 d3 "BOLD" k _ _ Hd3 Hk).
    rewrite (json_set_path_other_key d1 d2 "BOLD" k _ _ Hd2 Hk).
    apply (json_set_path_other_key first d1 "BOLD" k _ _ Hd1 Hk).
  - intros k Hk1 Hk2 Hk3.
    rewrite_diverge [ "BOLD" ] "meta" k [ "element" ] (@nil string)
      d2 d3 (JDict [ ("subject", JStr subject) ]) Hd3.
    rewrite_diverge [ "BOLD" ] "confounds" k [ "path" ] (@nil string)
      d1 d2 (json_of_path (joinpath tmpdir "concat_confounds.tsv")) Hd2.
    rewrite_diverge [ "BOLD" ] "path" k (@nil string) (@nil string)
      first d1 (json_of_path (joinpath tmpdir "concat_bold.nii.gz")) Hd1.
    reflexivity.
Qed.

End ConcatenatedSuccess.

Lemma Concatenated_getitem_returns_first_with_new_paths_witness :
  exists new_data tr,
    HCP_YA_Concatenated.__getitem__ GrabberCases.ya_getitem
      GrabberCases.images_ok GrabberCases.frame_ok GrabberCases.frames_ok
      GrabberCases.tempdir_ok GrabberCases.slash GrabberCases.save_ok
      GrabberCases.save_ok Py.JStr tt "100307" [] = (Ok new_data, tr) /\
    Py.json_get_path new_data [ "BOLD"; "path" ] =
      Ok (Py.JStr "/tmp/hcp_ya_concat/concat_bold.nii.gz") /\
    Py.json_get_path new_data [ "BOLD"; "meta"; "element" ] =
      Ok (Py.JDict [ ("subject", Py.JStr "100307") ]) /\
    Py.json_getitem new_data "T1w" =
      Ok (Py.JDict [ ("path", Py.JStr "100307/T1w.nii.gz") ]) /\
    Py.json_get_path new_data [ "BOLD"; "space" ] =
      Ok (Py.JStr "MNI152NLin6Asym").
Proof.
  destruct (Concatenated_getitem_returns_first_with_new_paths
              GrabberCases.ya_getitem
              GrabberCases.images_ok GrabberCases.frame_ok
              GrabberCases.frames_ok GrabberCases.tempdir_ok
              GrabberCases.slash GrabberCases.save_ok GrabberCases.save_ok
              Py.JStr tt "100307" []
              (GrabberCases.ya_item ("100307", "SOCIAL", "LR"))
              (map GrabberCases.ya_item
                   (tl (HCP_YA_Concatenated.requested "100307")))
              (map (fun e : string * string * string =>
                      (Py.JStr (fst (fst e) ++ "/tfMRI_" ++ snd (fst e)
                                ++ "_" ++ snd e ++ ".nii.gz")%string,
                       Py.JStr (fst (fst e) ++ "_" ++ snd (fst e)
                                ++ snd e ++ ".tsv")%string))
                   (HCP_YA_Concatenated.requested "100307"))
              14%nat (repeat 1%nat 14) 14%nat "/tmp/hcp_ya_concat"
              [ ("element",
                 Py.JDict [ ("subject", Py.JStr "100307");
                            ("task", Py.JStr "SOCIAL");
                            ("phase_encoding", Py.JStr "LR") ]) ])
    as (new_data & Hrun & Hbold & _ & Hmeta & Htop & Hinner).
  - repeat constructor.
  - repeat constructor.
  - reflexivity.
  - reflexivity.
  - repeat constructor.
  - reflexivity.
  - reflexivity.
  - reflexivity.
  - reflexivity.
  - exists new_data. eexists. split; [exact Hrun|].
    split; [exact Hbold|]. split; [exact Hmeta|]. split.
    + rewrite (Htop "T1w"); [reflexivity|]. intros Y. discriminate Y.
    + rewrite (Hinner "space"); [reflexivity| | |];
        intros Y; discriminate Y.
Defined.
